(** * Grundy Groceries: payout split and order tracking

    A shallow embedding of

      - [src/data/vendors.ts]                      (the vendor registry),
      - [src/data/products.tsx]                    (the catalogue),
      - [src/providers/CartProvider.tsx]           ([cartReducer]),
      - [src/services/vendorPayoutService.ts]      (the payout split, the
                                                    gateway split configuration
                                                    and the vendor transfers),
      - [src/services/orderTrackingService.ts]     (the in-memory order store),
      - [src/app/api/webhooks/paystack/route.ts]   (the webhook),
      - the routes under [src/app/api] that create, dispatch, collect,
        verify and list orders,

    followed by the theorems that settle the specification's properties
    against these definitions.

    Conventions of the embedding.

      - A JavaScript [number] is an element of a [JSNumber] structure.  The
        source is transcribed once, over the interface, and the theorems
        are proved for every structure: they hold of [binary64], the IEEE
        754 doubles the program runs on (Rocq's primitive floats), in which
        the concrete runs are evaluated.  A second instance, [exact], the
        rationals, shows the sums that the doubles keep only up to
        rounding.
      - A call that may throw returns a [completion].
      - [process.env] is a function from variable names to optional values.
      - [Date.now()] and [new Date().toISOString()] are read by the caller
        and passed in: the clock is an input of every operation that
        stamps a record.
      - The module-level array [orders] is threaded through the operations
        as a list; position in the list is the identity of an order
        object.
      - A route takes the fields of its request and the store, and returns
        the store and its response; a field that the request does not
        carry is [None].  What a route awaits from the payment gateway is
        a function the route is given. *)

From Stdlib Require Import ZArith QArith Qcanon Qround Qabs Qcabs.
From Stdlib Require Import List String Ascii Bool Lia Lqa Permutation.
From Stdlib Require Import DecimalString.
From Stdlib Require Import PrimFloat FloatOps SpecFloat.
Import ListNotations.

Set Implicit Arguments.
Open Scope string_scope.
Open Scope Z_scope.
Open Scope list_scope.

(* ===================================================================== *)
(** * Part I.  The program                                                *)
(* ===================================================================== *)

(** ** JavaScript values the program relies on *)

Module JS.

(** What a thrown value is, as far as this program can tell. *)
Inductive JsError : Type :=
| TypeError (message : string)
| Error (message : string).

(** The result of a call: it returns, or it throws. *)
Inductive completion (A : Type) : Type :=
| Return (a : A)
| Throw (e : JsError).
Arguments Return {A} a.
Arguments Throw {A} e.

Definition bind {A B} (c : completion A) (k : A -> completion B) : completion B :=
  match c with
  | Return a => k a
  | Throw e => Throw e
  end.

(** [xs.forEach(f)] for a callback that updates one accumulated state and
    may throw: the first throw ends the loop. *)
Fixpoint forEachM {A S} (f : S -> A -> completion S) (xs : list A) (s : S) : completion S :=
  match xs with
  | [] => Return s
  | x :: rest => bind (f s x) (forEachM f rest)
  end.

(** [xs.map(f)] for a callback that may throw. *)
Fixpoint mapM {A B} (f : A -> completion B) (xs : list A) : completion (list B) :=
  match xs with
  | [] => Return []
  | x :: rest => bind (f x) (fun y => bind (mapM f rest) (fun ys => Return (y :: ys)))
  end.

(** Truthiness of an optional string: [undefined] and [""] are falsy. *)
Definition truthy (s : option string) : bool :=
  match s with
  | Some EmptyString => false
  | Some _ => true
  | None => false
  end.

(** [a || b] on optional strings. *)
Definition or_else (a b : option string) : option string :=
  if truthy a then a else b.

(** [a === b] on optional strings ([undefined === undefined] holds). *)
Definition opt_string_eqb (a b : option string) : bool :=
  match a, b with
  | Some x, Some y => String.eqb x y
  | None, None => true
  | _, _ => false
  end.

(** [s.startsWith(p)]. *)
Definition startsWith (p s : string) : bool := String.prefix p s.

(** *** Ordinary objects used as dictionaries

    An object created by the literal [{}] has its own properties, kept in
    creation order, and inherits the properties of [Object.prototype]. *)

Definition Object_prototype_keys : list string :=
  [ "constructor"; "__proto__"; "hasOwnProperty"; "isPrototypeOf";
    "propertyIsEnumerable"; "toLocaleString"; "toString"; "valueOf";
    "__defineGetter__"; "__defineSetter__"; "__lookupGetter__";
    "__lookupSetter__" ].

Definition inherited (key : string) : bool :=
  existsb (String.eqb key) Object_prototype_keys.

Section Dictionary.
Variable V : Type.

(** Own properties, oldest first; no key occurs twice. *)
Definition object : Type := list (string * V).

Fixpoint own (key : string) (o : object) : option V :=
  match o with
  | [] => None
  | (k, v) :: rest => if String.eqb k key then Some v else own key rest
  end.

(** In-place update of the value stored under an own key. *)
Fixpoint alter (f : V -> V) (key : string) (o : object) : object :=
  match o with
  | [] => []
  | (k, v) :: rest =>
      if String.eqb k key then (k, f v) :: rest else (k, v) :: alter f key rest
  end.

(** [o[key] = v] for a key that is not yet an own property. *)
Definition define (key : string) (v : V) (o : object) : object := o ++ [(key, v)].

(** A property key is an array index when it is the canonical decimal
    form of an integer in [0, 2^32 - 2]. *)
Definition digit (c : ascii) : option N :=
  let n := N_of_ascii c in
  if ((48 <=? n) && (n <=? 57))%N then Some (n - 48)%N else None.

Fixpoint digits (s : string) (acc : N) : option N :=
  match s with
  | EmptyString => Some acc
  | String c rest =>
      match digit c with
      | Some d => digits rest (10 * acc + d)%N
      | None => None
      end
  end.

Definition array_index (key : string) : option N :=
  match key with
  | EmptyString => None
  | String c rest =>
      if (Ascii.eqb c "0" && negb (String.eqb rest ""))%bool then None
      else match digits key 0 with
           | Some n => if (n <? 2 ^ 32 - 1)%N then Some n else None
           | None => None
           end
  end.

Fixpoint insert_by_index (n : N) (e : string * V) (sorted : list (N * (string * V)))
  : list (N * (string * V)) :=
  match sorted with
  | [] => [(n, e)]
  | (m, e') :: rest =>
      if (n <? m)%N then (n, e) :: sorted else (m, e') :: insert_by_index n e rest
  end.

Fixpoint index_entries (o : object) : list (N * (string * V)) :=
  match o with
  | [] => []
  | (k, v) :: rest =>
      match array_index k with
      | Some n => insert_by_index n (k, v) (index_entries rest)
      | None => index_entries rest
      end
  end.

Definition named_entries (o : object) : object :=
  filter (fun e => match array_index (fst e) with Some _ => false | None => true end) o.

(** [Object.entries(o)]: array-index keys in ascending numeric order,
    then the other keys in creation order. *)
Definition Object_entries (o : object) : list (string * V) :=
  map snd (index_entries o) ++ named_entries o.

End Dictionary.

End JS.
Import JS.

(** ** Numbers *)

(** The operations the program applies to values of type [number]. *)
Class JSNumber : Type := {
  number : Type;
  of_Z : Z -> number;                       (* an integer literal *)
  add : number -> number -> number;         (* a + b *)
  sub : number -> number -> number;         (* a - b *)
  mul : number -> number -> number;         (* a * b *)
  div : number -> number -> number;         (* a / b *)
  num_eqb : number -> number -> bool;       (* a === b *)
  num_leb : number -> number -> bool;       (* a <= b *)
  Math_abs : number -> number;              (* Math.abs(a) *)
  Math_round : number -> number             (* Math.round(a) *)
}.

Declare Scope js_scope.
Delimit Scope js_scope with js.
Infix "+" := add : js_scope.
Infix "-" := sub : js_scope.
Infix "*" := mul : js_scope.
Infix "/" := div : js_scope.

(** A decimal literal with [k] digits after the point, [m * 10^-k]: the
    number nearest to the quotient ([0.015] is [decimal 15 3]). *)
Definition decimal {N : JSNumber} (m k : Z) : number := (of_Z m / of_Z (10 ^ k))%js.

(** *** IEEE 754 binary64, the numbers of the running program *)

Module Binary64.

(** The double nearest to an integer. *)
Definition of_Z (z : Z) : float := SF2Prim (binary_normalize prec emax z 0 false).

(** [Math.round]: the nearest integer, ties towards +infinity; NaN, the
    infinities and the zeros are returned as they are, and a negative
    argument that rounds to zero gives -0. *)
Definition round (x : float) : float :=
  match Prim2SF x with
  | S754_finite s m e =>
      if 0 <=? e then x
      else
        let q := if s then Z.neg m else Z.pos m in
        let n := (2 * q + 2 ^ (- e)) / 2 ^ (1 - e) in
        if n =? 0 then (if s then PrimFloat.opp PrimFloat.zero else PrimFloat.zero)
        else of_Z n
  | _ => x
  end.

End Binary64.

Definition binary64 : JSNumber := {|
  number := float;
  of_Z := Binary64.of_Z;
  add := PrimFloat.add;
  sub := PrimFloat.sub;
  mul := PrimFloat.mul;
  div := PrimFloat.div;
  num_eqb := PrimFloat.eqb;
  num_leb := PrimFloat.leb;
  Math_abs := PrimFloat.abs;
  Math_round := Binary64.round
|}.

(** *** Exact arithmetic: the rationals

    [a / b] is [a * / b] with [/ 0 = 0], where the doubles give NaN or an
    infinity: a statement about [exact] that depends on a quotient takes
    the divisor to be non-zero. *)

Module Exact.

Definition of_Z (z : Z) : Qc := Q2Qc (inject_Z z).

Definition eqb (a b : Qc) : bool := if Qc_eq_dec a b then true else false.

Definition leb (a b : Qc) : bool := Qle_bool a b.

(** The integer nearest to [x], ties towards +infinity. *)
Definition round (x : Qc) : Qc := of_Z (Qfloor (x + Q2Qc (1 # 2))%Qc).

End Exact.

Definition exact : JSNumber := {|
  number := Qc;
  of_Z := Exact.of_Z;
  add := Qcplus;
  sub := Qcminus;
  mul := Qcmult;
  div := Qcdiv;
  num_eqb := Exact.eqb;
  num_leb := Exact.leb;
  Math_abs := Qcabs;
  Math_round := Exact.round
|}.

(** ** The environment *)

(** [process.env]. *)
Definition Env : Type := string -> option string.

(** [process.env.NAME || fallback]. *)
Definition env_or (env : Env) (name fallback : string) : string :=
  match env name with
  | Some EmptyString => fallback
  | Some value => value
  | None => fallback
  end.

(** ** src/data/vendors.ts *)

Section Vendors.
Context {N : JSNumber}.
Variable env : Env.

Record Vendor : Type := {
  v_id : string;
  v_name : string;
  v_email : string;
  bank_code : string;
  bank_account_number : string;
  bank_account_name : string;
  subaccount_code : string;
  settlement_balance : number
}.

Definition vendors : list Vendor :=
  [ {| v_id := "VENDOR_001"; v_name := "Fresh Farms";
       v_email := "freshfarms@example.com"; bank_code := "058";
       bank_account_number := "0123456789";
       bank_account_name := "Fresh Farms Ltd";
       subaccount_code := env_or env "PAYSTACK_FRESH_FARMS_SUBACCOUNT" "ACCT_xxx1";
       settlement_balance := of_Z 0 |};
    {| v_id := "VENDOR_002"; v_name := "Vegetable King";
       v_email := "vegeking@example.com"; bank_code := "058";
       bank_account_number := "0123456780";
       bank_account_name := "Vegetable King Ltd";
       subaccount_code := env_or env "PAYSTACK_VEGETABLE_KING_SUBACCOUNT" "ACCT_xxx2";
       settlement_balance := of_Z 0 |};
    {| v_id := "VENDOR_003"; v_name := "Meat Masters";
       v_email := "meatmasters@example.com"; bank_code := "058";
       bank_account_number := "0123456781";
       bank_account_name := "Meat Masters Ltd";
       subaccount_code := env_or env "PAYSTACK_MEAT_MASTERS_SUBACCOUNT" "ACCT_xxx3";
       settlement_balance := of_Z 0 |};
    {| v_id := "VENDOR_004"; v_name := "Dairy Delight";
       v_email := "dairydelight@example.com"; bank_code := "058";
       bank_account_number := "0123456782";
       bank_account_name := "Dairy Delight Ltd";
       subaccount_code := env_or env "PAYSTACK_DAIRY_DELIGHT_SUBACCOUNT" "ACCT_xxx4";
       settlement_balance := of_Z 0 |};
    {| v_id := "VENDOR_005"; v_name := "Bakery Corner";
       v_email := "bakerycorner@example.com"; bank_code := "058";
       bank_account_number := "0123456783";
       bank_account_name := "Bakery Corner Ltd";
       subaccount_code := env_or env "PAYSTACK_BAKERY_CORNER_SUBACCOUNT" "ACCT_xxx5";
       settlement_balance := of_Z 0 |};
    {| v_id := "VENDOR_006"; v_name := "Grains Galore";
       v_email := "grainsgalore@example.com"; bank_code := "058";
       bank_account_number := "0123456784";
       bank_account_name := "Grains Galore Ltd";
       subaccount_code := env_or env "PAYSTACK_GRAINS_GALORE_SUBACCOUNT" "ACCT_xxx6";
       settlement_balance := of_Z 0 |} ].

(** [vendors.find(v => v.id === vendorId)]. *)
Definition findVendor (vendorId : string) : option Vendor :=
  find (fun v => String.eqb (v_id v) vendorId) vendors.

End Vendors.

(** ** src/data/products.tsx and src/providers/CartProvider.tsx (types) *)

Section Cart.
Context {N : JSNumber}.

Record Product : Type := {
  p_id : string;
  p_name : string;
  price : number;
  image : string;
  vendor : string;         (* vendor id, for payout calculations *)
  vendorName : string;
  category : string;
  description : string;
  inventory : number
}.

Record CartItem : Type := {
  product : Product;
  quantity : number
}.

End Cart.

(** ** src/services/vendorPayoutService.ts *)

Section VendorPayoutService.
Context {N : JSNumber}.
Variable env : Env.
Local Open Scope js_scope.

Record PayoutCalculation : Type := {
  vendorId : string;
  pc_vendorName : string;
  totalSales : number;
  platformFee : number;        (* 10% of the vendor's sales *)
  paystackFeeShare : number;   (* the vendor's part of the Paystack fee *)
  vendorPayout : number;       (* totalSales - platformFee - paystackFeeShare *)
  pc_items : list CartItem
}.

Record OrderSplit : Type := {
  totalAmount : number;
  platformRevenue : number;
  totalPaystackFee : number;
  vendorPayouts : list PayoutCalculation
}.

(** The value type of the local dictionary [vendorSales]. *)
Record VendorSales : Type := {
  vs_items : list CartItem;
  vs_total : number
}.

(** [item.product.price * item.quantity]. *)
Definition lineTotal (item : CartItem) : number :=
  price (product item) * quantity item.

(** The body of the first [forEach] of [calculateOrderSplit].  When
    [vendorId] is neither an own key nor inherited, the entry is created
    with total 0 and then updated.  When it names a property inherited
    from [Object.prototype], [vendorSales[vendorId]] is truthy, no entry
    is created, its [items] is [undefined], and [.push] throws. *)
Definition groupItem (vendorSales : object VendorSales) (item : CartItem)
  : completion (object VendorSales) :=
  let vendorId := vendor (product item) in
  let record (s : VendorSales) :=
    {| vs_items := vs_items s ++ [item]; vs_total := vs_total s + lineTotal item |} in
  match own vendorId vendorSales with
  | Some _ => Return (alter record vendorId vendorSales)
  | None =>
      if inherited vendorId
      then Throw (TypeError "Cannot read properties of undefined (reading 'push')")
      else Return (define vendorId
                     (record {| vs_items := []; vs_total := of_Z 0 |}) vendorSales)
  end.

(** The body of the second [forEach]: a vendor that the registry does not
    know is skipped ([if (!vendor) return;]). *)
Definition payoutOf (totalAmount totalPaystackFee : number)
    (acc : list PayoutCalculation * number) (entry : string * VendorSales)
  : list PayoutCalculation * number :=
  let '(vendorId, sales) := entry in
  match findVendor env vendorId with
  | None => acc
  | Some vendor =>
      let totalSales := vs_total sales in
      let platformFee := totalSales * decimal 10 2 in
      let vendorShareOfTotal := totalSales / totalAmount in
      let paystackFeeShare := vendorShareOfTotal * totalPaystackFee in
      let vendorPayout := totalSales - platformFee - paystackFeeShare in
      (fst acc ++ [ {| vendorId := vendorId;
                       pc_vendorName := v_name vendor;
                       totalSales := totalSales;
                       platformFee := platformFee;
                       paystackFeeShare := paystackFeeShare;
                       vendorPayout := vendorPayout;
                       pc_items := vs_items sales |} ],
       snd acc + platformFee)
  end.

(** [cartItems.reduce((sum, item) => sum + item.product.price * item.quantity, 0)]. *)
Definition cartTotal (cartItems : list CartItem) : number :=
  fold_left (fun sum item => sum + lineTotal item) cartItems (of_Z 0).

Definition calculateOrderSplit (cartItems : list CartItem) : completion OrderSplit :=
  bind (forEachM groupItem cartItems []) (fun vendorSales =>
  let totalAmount := cartTotal cartItems in
  let totalPaystackFee := totalAmount * decimal 15 3 + of_Z 100 in
  let '(vendorPayouts, totalPlatformRevenue) :=
    fold_left (payoutOf totalAmount totalPaystackFee)
              (Object_entries vendorSales) ([], of_Z 0) in
  Return {| totalAmount := totalAmount;
            platformRevenue := totalPlatformRevenue;
            totalPaystackFee := totalPaystackFee;
            vendorPayouts := vendorPayouts |}).

(** One element of the gateway's split configuration.  The platform's
    subaccount is read from the environment and may be [undefined]. *)
Record Subaccount : Type := {
  subaccount : option string;
  share : number               (* in kobo *)
}.

Definition vendorSubaccount (payout : PayoutCalculation) : completion Subaccount :=
  match findVendor env (vendorId payout) with
  | None => Throw (Error ("Vendor not found: " ++ vendorId payout)%string)
  | Some vendor =>
      let vendorShare := vendorPayout payout in
      Return {| subaccount := Some (subaccount_code vendor);
                share := Math_round (vendorShare * of_Z 100) |}
  end.

Definition generateSubaccountsForSplit (orderSplit : OrderSplit)
  : completion (list Subaccount) :=
  bind (mapM vendorSubaccount (vendorPayouts orderSplit)) (fun subaccounts =>
  let platformTotalShare := platformRevenue orderSplit + totalPaystackFee orderSplit in
  Return (subaccounts ++
          [ {| subaccount := env "PAYSTACK_GRUNDY_SUBACCOUNT";
               share := Math_round (platformTotalShare * of_Z 100) |} ])).

Definition shouldUseSplitPayment (orderSplit : OrderSplit) : bool :=
  (1 <? List.length (vendorPayouts orderSplit))%nat.

Record SingleVendorSubaccount : Type := {
  sv_subaccount : string;
  transaction_charge : number
}.

Definition getSingleVendorSubaccount (orderSplit : OrderSplit)
  : completion SingleVendorSubaccount :=
  match vendorPayouts orderSplit with
  | [payout] =>
      match findVendor env (vendorId payout) with
      | None => Throw (Error "Vendor not found")
      | Some vendor =>
          Return {| sv_subaccount := subaccount_code vendor;
                    transaction_charge :=
                      Math_round (platformRevenue orderSplit * of_Z 100) |}
      end
  | _ => Throw (Error "Expected exactly one vendor for single subaccount payment")
  end.

End VendorPayoutService.

(** ** src/services/orderTrackingService.ts *)

Inductive PaymentMethod : Type :=
| prepay_now
| bank_transfer_delivery
| terminal_delivery.

Inductive PaymentStatus : Type :=
| pending
| paid
| failed
| refunded
| delivered.

Definition PaymentStatus_eqb (a b : PaymentStatus) : bool :=
  match a, b with
  | pending, pending | paid, paid | failed, failed
  | refunded, refunded | delivered, delivered => true
  | _, _ => false
  end.

Section OrderTrackingService.
Context {N : JSNumber}.

(** A payment payload, typed [any] in the source: the fields the program
    reads or writes.  A raw gateway notification has no top-level
    [orderReference] and [transactionReference]; the webhook handler adds
    them before it stores the payload.  An optional field is [None] when
    the payload lacks it ([undefined]) and a string when it has one; a
    payload that gives a field as [null] or as a value of another type
    is not represented. *)
Record PaymentData : Type := {
  reference : option string;
  pd_amount : option number;                 (* in kobo *)
  channel : option string;
  pd_status : option string;
  paid_at : option string;
  metadata_orderReference : option string;   (* metadata?.orderReference *)
  metadata_test_mode : bool;                 (* truthiness of metadata?.test_mode *)
  customer_email : option string;            (* customer?.email *)
  receiver_bank_account_number : option string;
  pd_orderReference : option string;
  transactionReference : option string
}.

Record Order : Type := {
  id : string;
  orderReference : string;
  customerEmail : string;
  customerName : string;
  deliveryAddress : option string;
  amount : number;
  items : list CartItem;
  paymentMethod : PaymentMethod;
  paymentStatus : PaymentStatus;
  paymentReference : option string;
  paymentDetails : option PaymentData;
  vendorPayouts_snapshot : option (list PayoutCalculation);
  createdAt : string;
  paidAt : option string;
  deliveredAt : option string;
  riderId : option string;
  terminalId : option string
}.

(** [Omit<Order, 'id' | 'createdAt' | 'paymentStatus'>]. *)
Record OrderData : Type := {
  od_orderReference : string;
  od_customerEmail : string;
  od_customerName : string;
  od_deliveryAddress : option string;
  od_amount : number;
  od_items : list CartItem;
  od_paymentMethod : PaymentMethod;
  od_paymentReference : option string;
  od_paymentDetails : option PaymentData;
  od_vendorPayouts : option (list PayoutCalculation);
  od_paidAt : option string;
  od_deliveredAt : option string;
  od_riderId : option string;
  od_terminalId : option string
}.

(** The store: the module-level [let orders: Order[] = []], oldest
    first. *)
Definition Orders : Type := list Order.

(** [o => o.orderReference === orderReference]. *)
Definition hasReference (ref : string) (o : Order) : bool :=
  String.eqb (orderReference o) ref.

(** [orders.find(p)] followed by assignments to the fields of the object
    found: the first element that satisfies [p] is changed in place, or
    nothing is when there is none. *)
Fixpoint mutateFirst (p : Order -> bool) (f : Order -> Order) (orders : Orders) : Orders :=
  match orders with
  | [] => []
  | o :: rest => if p o then f o :: rest else o :: mutateFirst p f rest
  end.

(** [createOrder]: [nowMs] is [Date.now()], [nowIso] is
    [new Date().toISOString()].  Returns the new order and the store. *)
Definition createOrder (nowMs : Z) (nowIso : string) (orderData : OrderData)
    (orders : Orders) : Order * Orders :=
  let order :=
    {| id := ("order_" ++ NilZero.string_of_int (Z.to_int nowMs))%string;
       paymentStatus := pending;
       createdAt := nowIso;
       orderReference := od_orderReference orderData;
       customerEmail := od_customerEmail orderData;
       customerName := od_customerName orderData;
       deliveryAddress := od_deliveryAddress orderData;
       amount := od_amount orderData;
       items := od_items orderData;
       paymentMethod := od_paymentMethod orderData;
       paymentReference := od_paymentReference orderData;
       paymentDetails := od_paymentDetails orderData;
       vendorPayouts_snapshot := od_vendorPayouts orderData;
       paidAt := od_paidAt orderData;
       deliveredAt := od_deliveredAt orderData;
       riderId := od_riderId orderData;
       terminalId := od_terminalId orderData |} in
  (order, orders ++ [order]).

(** The assignments of [updateOrderPaymentStatus] to the order found. *)
Definition applyPayment (now : string) (status : PaymentStatus)
    (paymentData : option PaymentData) (order : Order) : Order :=
  {| id := id order;
     orderReference := orderReference order;
     customerEmail := customerEmail order;
     customerName := customerName order;
     deliveryAddress := deliveryAddress order;
     amount := amount order;
     items := items order;
     paymentMethod := paymentMethod order;
     paymentStatus := status;
     paymentReference :=
       or_else (match paymentData with Some d => reference d | None => None end)
               (paymentReference order);
     paymentDetails := paymentData;
     vendorPayouts_snapshot := vendorPayouts_snapshot order;
     createdAt := createdAt order;
     paidAt := if PaymentStatus_eqb status paid then Some now else paidAt order;
     deliveredAt := deliveredAt order;
     riderId := riderId order;
     terminalId := terminalId order |}.

(** [updateOrderPaymentStatus]: [now] is the clock reading used when the
    new status is ['paid']. *)
Definition updateOrderPaymentStatus (now : string) (ref : string)
    (status : PaymentStatus) (paymentData : option PaymentData) (orders : Orders) : Orders :=
  mutateFirst (hasReference ref) (applyPayment now status paymentData) orders.

Definition applyDelivery (rider terminal : option string) (order : Order) : Order :=
  {| id := id order;
     orderReference := orderReference order;
     customerEmail := customerEmail order;
     customerName := customerName order;
     deliveryAddress := deliveryAddress order;
     amount := amount order;
     items := items order;
     paymentMethod := paymentMethod order;
     paymentStatus := paymentStatus order;
     paymentReference := paymentReference order;
     paymentDetails := paymentDetails order;
     vendorPayouts_snapshot := vendorPayouts_snapshot order;
     createdAt := createdAt order;
     paidAt := paidAt order;
     deliveredAt := deliveredAt order;
     riderId := rider;
     terminalId := terminal |}.

Definition updateOrderDeliveryStatus (ref : string) (rider terminal : option string)
    (orders : Orders) : Orders :=
  mutateFirst (hasReference ref) (applyDelivery rider terminal) orders.

Definition applyCompletion (now : string) (order : Order) : Order :=
  {| id := id order;
     orderReference := orderReference order;
     customerEmail := customerEmail order;
     customerName := customerName order;
     deliveryAddress := deliveryAddress order;
     amount := amount order;
     items := items order;
     paymentMethod := paymentMethod order;
     paymentStatus := delivered;
     paymentReference := paymentReference order;
     paymentDetails := paymentDetails order;
     vendorPayouts_snapshot := vendorPayouts_snapshot order;
     createdAt := createdAt order;
     paidAt := paidAt order;
     deliveredAt := Some now;
     riderId := riderId order;
     terminalId := terminalId order |}.

(** [completeOrderDelivery]: [now] is [new Date().toISOString()]. *)
Definition completeOrderDelivery (now : string) (ref : string) (orders : Orders) : Orders :=
  mutateFirst (hasReference ref) (applyCompletion now) orders.

Definition getOrderByReference (ref : string) (orders : Orders) : option Order :=
  find (hasReference ref) orders.

Definition getAllOrders (orders : Orders) : Orders := orders.

Definition getOrdersByStatus (status : PaymentStatus) (orders : Orders) : Orders :=
  filter (fun o => PaymentStatus_eqb (paymentStatus o) status) orders.

End OrderTrackingService.

(** ** src/app/api/webhooks/paystack/route.ts: [handleChargeSuccess] *)

Section Webhook.
Context {N : JSNumber}.
Variable env : Env.
Local Open Scope js_scope.

(** Method 2: [order => order.paymentReference === paymentData.reference]. *)
Definition byPaymentReference (paymentData : PaymentData) (order : Order) : bool :=
  opt_string_eqb (paymentReference order) (reference paymentData).

(** Method 3: [order.customerEmail === paymentData.customer.email &&
    order.amount === paymentData.amount / 100].  A payload without an
    amount gives [NaN], which equals nothing. *)
Definition byEmailAndAmount (paymentData : PaymentData) (order : Order) : bool :=
  match customer_email paymentData, pd_amount paymentData with
  | Some email, Some kobo =>
      String.eqb (customerEmail order) email && num_eqb (amount order) (kobo / of_Z 100)
  | _, _ => false
  end.

(** The three lookups of [handleChargeSuccess], in order; the result is
    the final value of the local [orderReference] with [existingOrder],
    or [None] when [existingOrder] is still [null]. *)
Definition resolveOrder (paymentData : PaymentData) (orders : Orders)
  : option (string * Order) :=
  let method1 :=
    match metadata_orderReference paymentData with
    | Some ref =>
        if truthy (Some ref)
        then option_map (pair ref) (getOrderByReference ref orders)
        else None
    | None => None
    end in
  match method1 with
  | Some found => Some found
  | None =>
      match find (byPaymentReference paymentData) (getAllOrders orders) with
      | Some existingOrder => Some (orderReference existingOrder, existingOrder)
      | None =>
          if truthy (customer_email paymentData) then
            match filter (byEmailAndAmount paymentData) (getAllOrders orders) with
            | [existingOrder] => Some (orderReference existingOrder, existingOrder)
            | _ => None
            end
          else None
      end
  end.

(** What the statements of [handleChargeSuccess] did.  When [simulated]
    is [Some reference] the handler has called [simulateTestModePayment]
    and awaits a POST of [{ orderReference: reference, status: 'paid',
    paymentData: ... }] to
    [${NEXTAUTH_URL}/api/orders/update-payment-status] before it goes
    on: the request is recorded here and not run.  It may reject, and
    the handler with it, and when it reaches this application the update
    route writes the store once more; the store given with the outcome
    is the store at the time of the request.  For every other
    notification the outcome and the store are those of the whole
    call. *)
Inductive ChargeOutcome : Type :=
| Unresolved
    (* no order found: logged, nothing else *)
| Applied (orderReference : string) (simulated : option string)
    (* the order was marked paid; [simulated] is the reference posted to
       /api/orders/update-payment-status by [simulateTestModePayment] *).

Definition developmentMode (paymentData : PaymentData) : bool :=
  match env "NODE_ENV" with
  | Some mode => String.eqb mode "development"
  | None => false
  end || metadata_test_mode paymentData.

Definition handleChargeSuccess (now : string) (paymentData : PaymentData)
    (orders : Orders) : Orders * completion ChargeOutcome :=
  match resolveOrder paymentData orders with
  | None => (orders, Return Unresolved)
  | Some (orderReference, existingOrder) =>
      let payload :=
        {| reference := reference paymentData;
           pd_amount := pd_amount paymentData;
           channel := channel paymentData;
           pd_status := pd_status paymentData;
           paid_at := paid_at paymentData;
           metadata_orderReference := metadata_orderReference paymentData;
           metadata_test_mode := metadata_test_mode paymentData;
           customer_email := customer_email paymentData;
           receiver_bank_account_number := receiver_bank_account_number paymentData;
           pd_orderReference := Some orderReference;
           transactionReference := reference paymentData |} in
      let orders := updateOrderPaymentStatus now orderReference paid (Some payload) orders in
      if developmentMode paymentData && opt_string_eqb (channel paymentData) (Some "terminal")
      then
        match reference paymentData with
        | None =>
            (orders,
             Throw (TypeError "Cannot read properties of undefined (reading 'startsWith')"))
        | Some ref =>
            (orders,
             Return (Applied orderReference
                       (if startsWith "ORDER_" ref then Some ref else None)))
        end
      else (orders, Return (Applied orderReference None))
  end.

End Webhook.

(** ** Comparisons and truthiness of numbers *)

Section NumberTests.
Context {N : JSNumber}.

(** [a >= b]. *)
Definition num_geb (a b : number) : bool := num_leb b a.

(** [a > b]: false as soon as one side is NaN. *)
Definition num_gtb (a b : number) : bool := num_leb b a && negb (num_eqb b a).

(** Truthiness of a number: [0], [-0] and [NaN] are falsy. *)
Definition truthyNumber (a : number) : bool := num_eqb a a && negb (num_eqb a (of_Z 0)).

End NumberTests.

(** [s.split('@')[0]]: what comes before the first ['@'], the whole
    string when there is none. *)
Fixpoint beforeAt (s : string) : string :=
  match s with
  | EmptyString => EmptyString
  | String c rest => if Ascii.eqb c "@" then EmptyString else String c (beforeAt rest)
  end.

(** The message of a thrown value ([error.message]). *)
Definition messageOf (e : JsError) : string :=
  match e with
  | TypeError message => message
  | Error message => message
  end.

(** ** src/providers/CartProvider.tsx: [cartReducer] *)

Section CartReducer.
Context {N : JSNumber}.
Local Open Scope js_scope.

Record CartState : Type := {
  cs_items : list CartItem;
  cs_total : number
}.

Inductive CartAction : Type :=
| ADD_ITEM (p : Product)
| REMOVE_ITEM (productId : string)
| UPDATE_QUANTITY (productId : string) (q : number)
| CLEAR_CART.

(** [item => item.product.id === productId]. *)
Definition sameProduct (productId : string) (item : CartItem) : bool :=
  String.eqb (p_id (product item)) productId.

(** [{ ...item, quantity: q }]. *)
Definition withQuantity (q : number) (item : CartItem) : CartItem :=
  {| product := product item; quantity := q |}.

(** The ['REMOVE_ITEM'] case. *)
Definition removeItem (state : CartState) (productId : string) : CartState :=
  let filteredItems := filter (fun item => negb (sameProduct productId item)) (cs_items state) in
  {| cs_items := filteredItems; cs_total := cartTotal filteredItems |}.

Definition cartReducer (state : CartState) (action : CartAction) : CartState :=
  match action with
  | ADD_ITEM p =>
      match find (sameProduct (p_id p)) (cs_items state) with
      | Some existingItem =>
          if num_geb (quantity existingItem) (inventory p) then state
          else
            let updatedItems :=
              map (fun item =>
                     if sameProduct (p_id p) item
                     then withQuantity (quantity item + of_Z 1) item
                     else item) (cs_items state) in
            {| cs_items := updatedItems; cs_total := cartTotal updatedItems |}
      | None =>
          let newItems := cs_items state ++ [ {| product := p; quantity := of_Z 1 |} ] in
          {| cs_items := newItems; cs_total := cartTotal newItems |}
      end
  | REMOVE_ITEM productId => removeItem state productId
  | UPDATE_QUANTITY productId q =>
      if num_eqb q (of_Z 0) then removeItem state productId
      else
        let exceeds :=
          match find (sameProduct productId) (cs_items state) with
          | Some productItem => num_gtb q (inventory (product productItem))
          | None => false
          end in
        if exceeds then state
        else
          let updatedItems :=
            map (fun item =>
                   if sameProduct productId item then withQuantity q item else item)
                (cs_items state) in
          {| cs_items := updatedItems; cs_total := cartTotal updatedItems |}
  | CLEAR_CART => {| cs_items := []; cs_total := of_Z 0 |}
  end.

(** The state [useReducer] starts from. *)
Definition emptyCart : CartState := {| cs_items := []; cs_total := of_Z 0 |}.

(** The state after a sequence of dispatched actions. *)
Definition dispatchAll (actions : list CartAction) (state : CartState) : CartState :=
  fold_left cartReducer actions state.

End CartReducer.

(** ** src/services/orderTrackingService.ts: [getOrdersByPaymentMethod] *)

Section OrdersByPaymentMethod.
Context {N : JSNumber}.

(** The string a payment method is at run time. *)
Definition PaymentMethod_name (m : PaymentMethod) : string :=
  match m with
  | prepay_now => "prepay_now"
  | bank_transfer_delivery => "bank_transfer_delivery"
  | terminal_delivery => "terminal_delivery"
  end.

(** The argument is any string. *)
Definition getOrdersByPaymentMethod (method : string) (orders : Orders) : Orders :=
  filter (fun o => String.eqb (PaymentMethod_name (paymentMethod o)) method) orders.

End OrdersByPaymentMethod.

(** ** src/services/vendorPayoutService.ts: [processVendorPayouts] *)

Section ProcessVendorPayouts.
Context {N : JSNumber}.
Variable env : Env.
Local Open Scope js_scope.

(** The request posted to https://api.paystack.co/transfer. *)
Record TransferRequest : Type := {
  tr_authorization : string;
  tr_source : string;
  tr_amount : number;          (* in kobo *)
  tr_recipient : string;
  tr_reason : string;
  tr_reference : string
}.

(** What the function reads of the gateway's answer. *)
Record TransferData : Type := {
  td_status : bool;                    (* transferData.status === true *)
  td_reference : option string;        (* transferData.data?.reference *)
  td_message : option string
}.

Record PayoutResult : Type := {
  pr_vendorId : string;
  pr_vendorName : string;
  pr_amount : number;
  pr_success : bool;
  pr_transferReference : option string;
  pr_message : option string;
  pr_error : option string
}.

(** The gateway: [transfer k request] is the outcome of [await fetch(...)]
    followed by [await transferResponse.json()] and the reads of the
    answer, for the request sent after [k] earlier ones; a rejected
    fetch, an unreadable body and an answer that is [null] throw. *)
Variable transfer : nat -> TransferRequest -> completion TransferData.

(** [`Bearer ${process.env.PAYSTACK_SECRET_KEY}`]. *)
Definition bearer : string :=
  ("Bearer " ++ match env "PAYSTACK_SECRET_KEY" with
                | Some key => key
                | None => "undefined"
                end)%string.

Definition transferRequest (orderReference : string) (payout : PayoutCalculation)
    (vendor : Vendor) : TransferRequest :=
  {| tr_authorization := bearer;
     tr_source := "balance";
     tr_amount := Math_round (vendorPayout payout * of_Z 100);
     tr_recipient := bank_account_number vendor;
     tr_reason := ("Payout for order " ++ orderReference)%string;
     tr_reference := ("PAYOUT_" ++ orderReference ++ "_" ++ v_id vendor)%string |}.

(** The body of the loop, with its [try]/[catch]: the requests sent so
    far and the results pushed so far. *)
Definition payoutStep (orderReference : string)
    (state : list TransferRequest * list PayoutResult) (payout : PayoutCalculation)
  : list TransferRequest * list PayoutResult :=
  let '(sent, payoutResults) := state in
  match findVendor env (vendorId payout) with
  | None => state
  | Some vendor =>
      let request := transferRequest orderReference payout vendor in
      let result :=
        match transfer (List.length sent) request with
        | Return transferData =>
            {| pr_vendorId := vendorId payout;
               pr_vendorName := pc_vendorName payout;
               pr_amount := vendorPayout payout;
               pr_success := td_status transferData;
               pr_transferReference := td_reference transferData;
               pr_message := td_message transferData;
               pr_error := None |}
        | Throw error =>
            {| pr_vendorId := vendorId payout;
               pr_vendorName := pc_vendorName payout;
               pr_amount := vendorPayout payout;
               pr_success := false;
               pr_transferReference := None;
               pr_message := None;
               pr_error := Some (messageOf error) |}
        end in
      (sent ++ [request], payoutResults ++ [result])
  end.

(** The requests sent to the gateway, oldest first, and [payoutResults]. *)
Definition processVendorPayouts (payouts : list PayoutCalculation) (orderReference : string)
  : list TransferRequest * list PayoutResult :=
  fold_left (payoutStep orderReference) payouts ([], []).

End ProcessVendorPayouts.

(** ** Request bodies

    A route reads its body with [await request.json()] and tests the
    fields for truthiness.  A field is [None] when the body does not
    carry it. *)

(** The value of a string field, when it is truthy. *)
Definition present (s : option string) : option string :=
  if truthy s then s else None.

(** [a || fallback] for a string field. *)
Definition orDefault (a : option string) (fallback : string) : string :=
  match present a with
  | Some s => s
  | None => fallback
  end.

(** [`${process.env.NAME}`]. *)
Definition env_text (env : Env) (name : string) : string :=
  match env name with
  | Some value => value
  | None => "undefined"
  end.

(** ** src/app/api/webhooks/paystack/route.ts: [processWebhook], [POST] *)

Module PaystackWebhook.

Section Route.
Context {N : JSNumber}.
Variable env : Env.

(** [data.data], when it is neither [undefined] nor [null]: the fields
    [handleChargeSuccess] reads, and whether [bank] and [customer] are
    there for [handleVirtualAccountAssignment]. *)
Record EventData : Type := {
  ed_payment : PaymentData;
  ed_bank : bool;
  ed_customer : bool
}.

(** The parsed payload, when it is not [null]; [we_event] is [None] when
    [data.event] is not a string. *)
Record WebhookEvent : Type := {
  we_event : option string;
  we_data : option EventData
}.

(** [crypto.createHmac('sha512', key).update(payload).digest('hex')]. *)
Variable hmac_sha512_hex : string -> string -> string.

(** [JSON.parse]: it throws on a malformed payload; [Return None] is the
    value [null]. *)
Variable JSON_parse : string -> completion (option WebhookEvent).

(** A handler that only logs properties of its argument: reading the
    first one throws when the argument is [undefined] or [null]. *)
Definition logs (data : option EventData) (firstRead : string)
  : completion (option ChargeOutcome) :=
  match data with
  | Some _ => Return None
  | None =>
      Throw (TypeError ("Cannot read properties of undefined (reading '"
                        ++ firstRead ++ "')")%string)
  end.

Definition handleVirtualAccountAssignment (data : option EventData)
  : completion (option ChargeOutcome) :=
  match data with
  | None => Throw (TypeError "Cannot read properties of undefined (reading 'account_number')")
  | Some accountData =>
      if negb (ed_bank accountData)
      then Throw (TypeError "Cannot read properties of undefined (reading 'name')")
      else if negb (ed_customer accountData)
      then Throw (TypeError "Cannot read properties of undefined (reading 'email')")
      else Return None
  end.

(** The store after the call, and how the call ended: the outcome of
    [handleChargeSuccess] for a ['charge.success'] event, [None] for the
    events that are only logged. *)
Definition processWebhook (now : string) (data : WebhookEvent) (orders : Orders)
  : Orders * completion (option ChargeOutcome) :=
  match we_event data with
  | None => (orders, Return None)
  | Some event =>
      if String.eqb event "charge.success" then
        match we_data data with
        | None =>
            (orders,
             Throw (TypeError "Cannot read properties of undefined (reading 'reference')"))
        | Some paymentData =>
            let '(orders, outcome) :=
              handleChargeSuccess env now (ed_payment paymentData) orders in
            (orders, bind outcome (fun o => Return (Some o)))
        end
      else if String.eqb event "paymentrequest.success" then
        (orders, logs (we_data data) "id")
      else if String.eqb event "paymentrequest.pending" then
        (orders, logs (we_data data) "id")
      else if String.eqb event "invoice.payment_failed" then
        (orders, logs (we_data data) "id")
      else if String.eqb event "transfer.success" then
        (orders, logs (we_data data) "recipient")
      else if String.eqb event "dedicatedaccount.assign.success" then
        (orders, handleVirtualAccountAssignment (we_data data))
      else if String.eqb event "transfer.failed" then
        (orders, logs (we_data data) "recipient")
      else (orders, Return None)
  end.

Record Request : Type := {
  payload : string;                  (* await request.text() *)
  signature : option string          (* the x-paystack-signature header *)
}.

Inductive Response : Type :=
| InvalidSignature      (* 401 { error: 'Invalid signature' } *)
| Received.             (* 200 { received: true } *)

(** The signature is checked only when the secret key and the header
    are both there. *)
Definition signatureRefused (request : Request) : bool :=
  match present (env "PAYSTACK_SECRET_KEY"), present (signature request) with
  | Some key, Some given =>
      negb (String.eqb given (hmac_sha512_hex key (payload request)))
  | _, _ => false
  end.

(** The reference posted to /api/orders/update-payment-status by
    [simulateTestModePayment], when the handler got that far. *)
Definition posted (outcome : completion (option ChargeOutcome)) : option string :=
  match outcome with
  | Return (Some (Applied _ simulated)) => simulated
  | _ => None
  end.

(** The store after the request, the response, and the request posted
    to the application itself.  Whatever is thrown after the signature
    check is caught and answered like a success. *)
Definition POST (now : string) (request : Request) (orders : Orders)
  : Orders * Response * option string :=
  if signatureRefused request then (orders, InvalidSignature, None)
  else
    match JSON_parse (payload request) with
    | Throw _ => (orders, Received, None)
    | Return None => (orders, Received, None)
    | Return (Some data) =>
        let '(orders, outcome) := processWebhook now data orders in
        (orders, Received, posted outcome)
    end.

End Route.

End PaystackWebhook.

(** ** src/app/api/rider/dispatch/route.ts *)

Module RiderDispatch.

Record Rider : Type := {
  rider_id : string;
  rider_name : string;
  terminal_id : string;
  rider_status : string
}.

Definition riders : list Rider :=
  [ {| rider_id := "RIDER_001"; rider_name := "John Rider";
       terminal_id := "TERMINAL_001"; rider_status := "available" |};
    {| rider_id := "RIDER_002"; rider_name := "Jane Rider";
       terminal_id := "TERMINAL_002"; rider_status := "available" |} ].

Section Route.
Context {N : JSNumber}.

Inductive Response : Type :=
| BadRequest (error : string)                         (* 400 *)
| NotFound (error : string)                           (* 404 *)
| Dispatched (order : option Order) (rider : Rider).  (* 200 *)

Definition POST (order_id rider_id : option string) (orders : Orders)
  : Orders * Response :=
  match present order_id, present rider_id with
  | Some order_id, Some rider_id =>
      match find (fun r => String.eqb (RiderDispatch.rider_id r) rider_id) riders with
      | None => (orders, NotFound "Rider not found")
      | Some rider =>
          match getOrderByReference order_id orders with
          | None => (orders, NotFound "Order not found in tracking system")
          | Some _ =>
              let orders :=
                updateOrderDeliveryStatus order_id
                  (Some (RiderDispatch.rider_id rider)) (Some (terminal_id rider)) orders in
              let updatedOrder := getOrderByReference order_id orders in
              (orders, Dispatched updatedOrder rider)
          end
      end
  | _, _ => (orders, BadRequest "Order ID and Rider ID are required")
  end.

End Route.

End RiderDispatch.

(** ** src/app/api/terminal/collect-payment/route.ts *)

Module TerminalCollectPayment.

Section Route.
Context {N : JSNumber}.
Local Open Scope js_scope.

(** The body posted to /api/orders/update-payment-status by the timer
    callback. *)
Record StatusUpdate : Type := {
  su_orderReference : string;
  su_status : PaymentStatus;
  su_paymentData : PaymentData
}.

Inductive Response : Type :=
| BadRequest (error : string)      (* 400 *)
| NotFound (error : string)        (* 404 *)
| Requested (event_id : string) (order : Order) (terminal_id : string).   (* 200 *)

(** What the callback passed to [setTimeout] posts when it fires at
    [firedAt]; [order] is the stored object. *)
Definition simulatedPayment (order_id : string) (order : Order) (firedAt : string)
  : StatusUpdate :=
  {| su_orderReference := order_id;
     su_status := paid;
     su_paymentData :=
       {| reference := Some order_id;
          pd_amount := Some (amount order * of_Z 100);
          channel := Some "terminal";
          pd_status := Some "success";
          paid_at := Some firedAt;
          metadata_orderReference := Some order_id;
          metadata_test_mode := true;
          customer_email := None;
          receiver_bank_account_number := None;
          pd_orderReference := None;
          transactionReference := None |} |}.

(** The store after the request, the response, and the callback the
    request leaves on the timer.  [nowMs] is [Date.now()].  The clock is
    not read by [updateOrderPaymentStatus] here, the status not being
    ['paid'].  [order] is the stored object, so the response shows it as
    the update left it. *)
Definition POST (nowMs : Z) (order_id terminal_id : option string) (orders : Orders)
  : Orders * Response * option (string -> StatusUpdate) :=
  match present order_id, present terminal_id with
  | Some order_id, Some terminal_id =>
      match getOrderByReference order_id orders with
      | None => (orders, NotFound "Order not found in tracking system", None)
      | Some order =>
          if negb (PaymentStatus_eqb (paymentStatus order) pending)
          then (orders, BadRequest "Order is not in pending payment state", None)
          else
            let orders := updateOrderPaymentStatus "" order_id pending None orders in
            let order := applyPayment "" pending None order in
            (orders,
             Requested ("terminal_event_" ++ NilZero.string_of_int (Z.to_int nowMs))%string
                       order terminal_id,
             Some (simulatedPayment order_id order))
      end
  | _, _ => (orders, BadRequest "Order ID and Terminal ID are required", None)
  end.

End Route.

End TerminalCollectPayment.

(** ** src/app/api/orders/terminal-delivery/route.ts *)

Module TerminalDeliveryOrder.

Section Route.
Context {N : JSNumber}.
Variable env : Env.

Record Body : Type := {
  email : option string;
  b_amount : option number;
  b_items : option (list CartItem);
  customer_name : option string;
  delivery_address : option string;
  b_orderReference : option string
}.

Inductive Response : Type :=
| BadRequest (error : string)                          (* 400 *)
| ServerError                                          (* 500 *)
| Created (order : Order) (order_split : OrderSplit).  (* 200 *)

(** [calculateOrderSplit(items)]: without [items] the first loop throws. *)
Definition splitOfBody (body : Body) : completion OrderSplit :=
  match b_items body with
  | Some items => calculateOrderSplit env items
  | None => Throw (TypeError "Cannot read properties of undefined (reading 'forEach')")
  end.

(** [referenceMs] is the [Date.now()] of the generated reference;
    [nowMs] and [nowIso] are the clock readings of [createOrder]. *)
Definition POST (referenceMs nowMs : Z) (nowIso : string) (body : Body) (orders : Orders)
  : Orders * Response :=
  match present (email body), b_amount body with
  | Some email, Some amount =>
      if truthyNumber amount then
        match splitOfBody body, b_items body with
        | Return orderSplit, Some items =>
            let finalOrderReference :=
              orDefault (b_orderReference body)
                        ("ORDER_" ++ NilZero.string_of_int (Z.to_int referenceMs))%string in
            let '(trackedOrder, orders) :=
              createOrder nowMs nowIso
                {| od_orderReference := finalOrderReference;
                   od_customerEmail := email;
                   od_customerName := orDefault (customer_name body) (beforeAt email);
                   od_deliveryAddress :=
                     Some (orDefault (delivery_address body) "Lagos, Nigeria");
                   od_amount := amount;
                   od_items := items;
                   od_paymentMethod := terminal_delivery;
                   od_paymentReference := None;
                   od_paymentDetails := None;
                   od_vendorPayouts := Some (vendorPayouts orderSplit);
                   od_paidAt := None;
                   od_deliveredAt := None;
                   od_riderId := None;
                   od_terminalId := None |} orders in
            (orders, Created trackedOrder orderSplit)
        | _, _ => (orders, ServerError)
        end
      else (orders, BadRequest "Email and amount are required")
  | _, _ => (orders, BadRequest "Email and amount are required")
  end.

End Route.

End TerminalDeliveryOrder.

(** ** src/app/api/payment/initialize/route.ts *)

Module PaymentInitialize.

Section Route.
Context {N : JSNumber}.
Variable env : Env.
Local Open Scope js_scope.

(** The body the checkout page sends; it always carries the reference. *)
Record Body : Type := {
  email : option string;
  b_amount : option number;
  cartItems : option (list CartItem);
  b_orderReference : string
}.

(** One element of [metadata.cartItems]. *)
Record MetadataItem : Type := {
  mi_productId : string;
  mi_name : string;
  mi_price : number;
  mi_quantity : number;
  mi_vendor : string;
  mi_vendorName : string
}.

(** How the charge is shared: [transactionData.split] (type ['flat'],
    bearer type ['subaccount']) for several vendors; [subaccount],
    [transaction_charge] and bearer ['subaccount'] for one. *)
Inductive Configuration : Type :=
| Split (bearer_subaccount : option string) (subaccounts : list Subaccount)
| Direct (subaccount : string) (transaction_charge : number).

Record TransactionData : Type := {
  t_email : string;
  t_amount : number;                   (* in kobo *)
  t_reference : string;
  t_callback_url : string;
  t_orderReference : string;           (* metadata.orderReference *)
  t_cartItems : list MetadataItem;     (* metadata.cartItems *)
  t_orderSplit : OrderSplit;           (* metadata.orderSplit *)
  t_hasMultipleVendors : bool;
  t_configuration : Configuration
}.

(** What the route reads of the gateway's answer. *)
Record Reply : Type := {
  r_status : bool;                 (* truthiness of paystackData.status *)
  r_message : option string
}.

(** The gateway: the outcome of [await fetch(...)] followed by
    [await paystackResponse.json()] and the read of [status]; a rejected
    fetch, an unreadable body and an answer that is [null] throw. *)
Variable initialize : TransactionData -> completion Reply.

Inductive Response : Type :=
| BadRequest (error : string)            (* 400 *)
| ServerError                            (* 500 *)
| Initialized (reply : Reply) (orderSplit : OrderSplit) (hasMultipleVendors : bool)
    (orderReference trackedOrderId paymentConfig : string).   (* 200 *)

(** Lines 91 to 140: the configuration for the gateway. *)
Definition configure (orderSplit : OrderSplit) : completion Configuration :=
  if shouldUseSplitPayment orderSplit then
    bind (generateSubaccountsForSplit env orderSplit) (fun subaccounts =>
    Return (Split (env "PAYSTACK_GRUNDY_SUBACCOUNT") subaccounts))
  else
    bind (getSingleVendorSubaccount env orderSplit) (fun singleVendorConfig =>
    Return (Direct (sv_subaccount singleVendorConfig)
                   (transaction_charge singleVendorConfig))).

Definition metadataItem (item : CartItem) : MetadataItem :=
  {| mi_productId := p_id (product item);
     mi_name := p_name (product item);
     mi_price := price (product item);
     mi_quantity := quantity item;
     mi_vendor := vendor (product item);
     mi_vendorName := vendorName (product item) |}.

Definition POST (nowMs : Z) (nowIso : string) (body : Body) (orders : Orders)
  : Orders * Response :=
  match present (email body), b_amount body, cartItems body with
  | Some email, Some amount, Some cartItems =>
      if truthyNumber amount then
        match calculateOrderSplit env cartItems with
        | Throw _ => (orders, ServerError)
        | Return orderSplit =>
            let hasMultipleVendors := shouldUseSplitPayment orderSplit in
            let orderReference := b_orderReference body in
            let '(trackedOrder, orders) :=
              createOrder nowMs nowIso
                {| od_orderReference := orderReference;
                   od_customerEmail := email;
                   od_customerName := beforeAt email;
                   od_deliveryAddress := None;
                   od_amount := amount;
                   od_items := cartItems;
                   od_paymentMethod := prepay_now;
                   od_paymentReference := None;
                   od_paymentDetails := None;
                   od_vendorPayouts := Some (vendorPayouts orderSplit);
                   od_paidAt := None;
                   od_deliveredAt := None;
                   od_riderId := None;
                   od_terminalId := None |} orders in
            match configure orderSplit with
            | Throw _ => (orders, ServerError)
            | Return configuration =>
                let transactionData :=
                  {| t_email := email;
                     t_amount := amount * of_Z 100;
                     t_reference := orderReference;
                     t_callback_url :=
                       (env_text env "NEXTAUTH_URL" ++ "/payment-verification")%string;
                     t_orderReference := orderReference;
                     t_cartItems := map metadataItem cartItems;
                     t_orderSplit := orderSplit;
                     t_hasMultipleVendors := hasMultipleVendors;
                     t_configuration := configuration |} in
                match initialize transactionData with
                | Throw _ => (orders, ServerError)
                | Return paystackData =>
                    if r_status paystackData then
                      (orders,
                       Initialized paystackData orderSplit hasMultipleVendors
                         orderReference (id trackedOrder)
                         (if hasMultipleVendors
                          then "multi_vendor_split_payment"
                          else "single_vendor_direct_payment"))
                    else
                      (orders,
                       BadRequest (orDefault (r_message paystackData)
                                             "Payment initialization failed"))
                end
            end
        end
      else (orders, BadRequest "Email, amount, and cartItems are required")
  | _, _, _ => (orders, BadRequest "Email, amount, and cartItems are required")
  end.

End Route.

End PaymentInitialize.

(** ** src/app/api/payment/verify/route.ts *)

Module PaymentVerify.

Section Route.
Context {N : JSNumber}.

(** What the route reads of the gateway's answer: the truthiness of
    [data.status], and [data.data] when it is an object. *)
Record Verification : Type := {
  v_status : bool;
  v_data : option PaymentData
}.

(** The gateway: [await fetch(...)] followed by
    [await paystackResponse.json()] and the read of [status]; a rejected
    fetch, an unreadable body and an answer that is [null] throw. *)
Variable verify : string -> completion Verification.

Inductive Response : Type :=
| BadRequest (error : string)        (* 400 *)
| ServerError                        (* 500 *)
| Answer (data : Verification).      (* 200, the gateway's answer *)

Definition GET (now : string) (reference : option string) (orders : Orders)
  : Orders * Response :=
  match present reference with
  | None => (orders, BadRequest "Reference is required")
  | Some reference =>
      match verify reference with
      | Throw _ => (orders, ServerError)
      | Return data =>
          if v_status data then
            match v_data data with
            | None => (orders, ServerError)
            | Some paymentData =>
                if opt_string_eqb (pd_status paymentData) (Some "success")
                then (updateOrderPaymentStatus now reference paid (Some paymentData) orders,
                      Answer data)
                else (orders, Answer data)
            end
          else (orders, Answer data)
      end
  end.

End Route.

End PaymentVerify.

(** ** src/app/api/orders/route.ts *)

Module OrdersRoute.

Section Route.
Context {N : JSNumber}.

(** [requested] is the query parameter [paymentMethod], [None] when it
    is absent. *)
Definition GET (requested : option string) (orders : Orders) : Orders :=
  match present requested with
  | Some method =>
      filter (fun order => String.eqb (PaymentMethod_name (paymentMethod order)) method)
             (getAllOrders orders)
  | None => getAllOrders orders
  end.

End Route.

End OrdersRoute.

(** ** src/app/api/vendors/orders/route.ts *)

Module VendorOrders.

Section Route.
Context {N : JSNumber}.
Local Open Scope js_scope.

Record VendorTotals : Type := {
  vt_vendorId : string;
  vt_vendorName : string;
  vt_totalSales : number;
  vt_totalPayouts : number;
  vt_ordersCount : number
}.

(** The three [+=] of the inner loop. *)
Definition addTo (payout : PayoutCalculation) (t : VendorTotals) : VendorTotals :=
  {| vt_vendorId := vt_vendorId t;
     vt_vendorName := vt_vendorName t;
     vt_totalSales := vt_totalSales t + totalSales payout;
     vt_totalPayouts := vt_totalPayouts t + vendorPayout payout;
     vt_ordersCount := vt_ordersCount t + of_Z 1 |}.

(** The body of the inner [forEach].  For a vendor id that names a
    property inherited from [Object.prototype], [acc[payout.vendorId]] is
    truthy: no entry is created and the sums are written on the
    inherited value, not on [acc]. *)
Definition addPayout (acc : object VendorTotals) (payout : PayoutCalculation)
  : object VendorTotals :=
  match own (vendorId payout) acc with
  | Some _ => alter (addTo payout) (vendorId payout) acc
  | None =>
      if inherited (vendorId payout) then acc
      else define (vendorId payout)
             (addTo payout {| vt_vendorId := vendorId payout;
                              vt_vendorName := pc_vendorName payout;
                              vt_totalSales := of_Z 0;
                              vt_totalPayouts := of_Z 0;
                              vt_ordersCount := of_Z 0 |}) acc
  end.

(** The callback of [orders.reduce]. *)
Definition addOrder (acc : object VendorTotals) (order : Order) : object VendorTotals :=
  match vendorPayouts_snapshot order with
  | Some payouts => fold_left addPayout payouts acc
  | None => acc
  end.

(** [data.orders] and [data.vendorPayouts] of the response. *)
Definition GET (orders : Orders) : Orders * list VendorTotals :=
  let vendorPayouts := fold_left addOrder (getAllOrders orders) [] in
  (getAllOrders orders, map snd (Object_entries vendorPayouts)).

End Route.

End VendorOrders.

(** ** src/app/api/orders/update-payment-status/route.ts *)

Module UpdatePaymentStatus.

Section Route.
Context {N : JSNumber}.

(** The body, as the application posts it to itself: [status] is one of
    the statuses of the [Order] type.  The route does not look at it
    beyond its truthiness, which every status has, and would store any
    other truthy value of a request as it is; such a request is not
    represented. *)
Record Body : Type := {
  b_orderReference : option string;
  status : option PaymentStatus;
  paymentData : option PaymentData
}.

Inductive Response : Type :=
| BadRequest (error : string)            (* 400 *)
| Updated (data : option Order).         (* 200 *)

Definition POST (now : string) (body : Body) (orders : Orders) : Orders * Response :=
  match present (b_orderReference body), status body with
  | Some orderReference, Some status =>
      let orders :=
        updateOrderPaymentStatus now orderReference status (paymentData body) orders in
      let updatedOrder := getOrderByReference orderReference orders in
      (orders, Updated updatedOrder)
  | _, _ => (orders, BadRequest "Order reference and status are required")
  end.

End Route.

End UpdatePaymentStatus.

(** ** Sequences of calls on the store *)

Section StoreCalls.
Context {N : JSNumber}.

(** One call of the store's interface, with the clock readings it sees. *)
Inductive StoreCall : Type :=
| CreateOrder (nowMs : Z) (nowIso : string) (orderData : OrderData)
| UpdateOrderPaymentStatus (now ref : string) (status : PaymentStatus)
    (paymentData : option PaymentData)
| UpdateOrderDeliveryStatus (ref : string) (rider terminal : option string)
| CompleteOrderDelivery (now ref : string).

Definition perform (orders : Orders) (call : StoreCall) : Orders :=
  match call with
  | CreateOrder nowMs nowIso orderData => snd (createOrder nowMs nowIso orderData orders)
  | UpdateOrderPaymentStatus now ref status paymentData =>
      updateOrderPaymentStatus now ref status paymentData orders
  | UpdateOrderDeliveryStatus ref rider terminal =>
      updateOrderDeliveryStatus ref rider terminal orders
  | CompleteOrderDelivery now ref => completeOrderDelivery now ref orders
  end.

Definition performAll (calls : list StoreCall) (orders : Orders) : Orders :=
  fold_left perform calls orders.

(** The position of the object that [orders.find(p)] returns. *)
Fixpoint findIndex (p : Order -> bool) (orders : Orders) : option nat :=
  match orders with
  | [] => None
  | o :: rest => if p o then Some O else option_map S (findIndex p rest)
  end.

(** [i] is the position found. *)
Definition isPosition (found : option nat) (i : nat) : bool :=
  match found with
  | Some k => Nat.eqb k i
  | None => false
  end.

(** The status a call asks for on the order that [ref] resolves to. *)
Definition statusRequested (ref : string) (call : StoreCall) : option PaymentStatus :=
  match call with
  | UpdateOrderPaymentStatus _ r status _ => if String.eqb r ref then Some status else None
  | CompleteOrderDelivery _ r => if String.eqb r ref then Some delivered else None
  | _ => None
  end.

(** The status asked for by the last call that addresses [ref], or
    [current] when no call does. *)
Definition lastRequested (ref : string) (calls : list StoreCall) (current : PaymentStatus)
  : PaymentStatus :=
  fold_left (fun status call =>
               match statusRequested ref call with
               | Some requested => requested
               | None => status
               end) calls current.

(** The assignments made by the store keep the reference of an order. *)
Definition keepsReference (f : Order -> Order) : Prop :=
  forall o, orderReference (f o) = orderReference o.


End StoreCalls.

(** ** The conservation properties, as predicates on results *)

Section Conservation.
Context {N : JSNumber}.
Local Open Scope js_scope.

(** [xs.reduce((sum, x) => sum + f(x), 0)]. *)
Definition total {A} (f : A -> number) (xs : list A) : number :=
  fold_left (fun sum x => sum + f x) xs (of_Z 0).

(** One minor unit (kobo), in the major unit the amounts are kept in. *)
Definition minor_unit : number := decimal 1 2.

(** What the payouts, the platform revenue and the Paystack fee add up
    to, less the order total. *)
Definition residue (s : OrderSplit) : number :=
  total vendorPayout (vendorPayouts s) + platformRevenue s + totalPaystackFee s
  - totalAmount s.

(** The sales of the payouts add up to the order total, and the payouts,
    the platform revenue and the Paystack fee add up to it within one
    minor unit. *)
Definition SplitConserved (s : OrderSplit) : Prop :=
  num_eqb (total totalSales (vendorPayouts s)) (totalAmount s) = true /\
  num_leb (Math_abs (residue s)) minor_unit = true.

(** A call returned a value that satisfies [P]. *)
Definition returned {A} (c : completion A) (P : A -> Prop) : Prop :=
  match c with
  | Return a => P a
  | Throw _ => False
  end.

(** The shares of a split configuration add up to the order total in
    kobo, exactly. *)
Definition SharesConserved (s : OrderSplit) (subaccounts : list Subaccount) : Prop :=
  num_eqb (total share subaccounts) (totalAmount s * of_Z 100) = true.

End Conservation.

(** ** Sample data *)

Module Sample.

Definition noEnv : Env := fun _ => None.

Section Data.
Context {N : JSNumber}.

(** Three entries of the catalogue, src/data/products.tsx. *)
Definition freshApples : Product :=
  {| p_id := "1"; p_name := "Fresh Apples"; price := of_Z 1200;
     image := "https://images.unsplash.com/photo-1568702846914-96b305d2aaeb?w=300&h=200&fit=crop";
     vendor := "VENDOR_001"; vendorName := "Fresh Farms"; category := "Fruits";
     description := "Crisp and sweet red apples"; inventory := of_Z 50 |}.

Definition carrots : Product :=
  {| p_id := "2"; p_name := "Carrots"; price := of_Z 800;
     image := "https://images.unsplash.com/photo-1598170845058-32b9d6a5da37?w=300&h=200&fit=crop";
     vendor := "VENDOR_002"; vendorName := "Vegetable King"; category := "Vegetables";
     description := "Fresh organic carrots"; inventory := of_Z 30 |}.

Definition chickenBreast : Product :=
  {| p_id := "3"; p_name := "Chicken Breast"; price := of_Z 2500;
     image := "https://images.unsplash.com/photo-1604503468506-a8da13d82791?w=300&h=200&fit=crop";
     vendor := "VENDOR_003"; vendorName := "Meat Masters"; category := "Meat & Poultry";
     description := "Boneless chicken breast"; inventory := of_Z 20 |}.

(** A product of a vendor that is not in the registry. *)
Definition strayProduct : Product :=
  {| p_id := "99"; p_name := "Stray Goods"; price := of_Z 500; image := "";
     vendor := "VENDOR_999"; vendorName := "Nobody"; category := "Other";
     description := "Sold by an unregistered vendor"; inventory := of_Z 1 |}.

Definition line (p : Product) (q : Z) : CartItem :=
  {| product := p; quantity := of_Z q |}.

(** The spec's two-vendor scenario. *)
Definition twoVendorCart : list CartItem := [line freshApples 2; line carrots 3].

(** [sampleCartItems] of the vendor dashboard. *)
Definition dashboardCart : list CartItem :=
  [line freshApples 2; line carrots 3; line chickenBreast 1].

Definition strayCart : list CartItem := [line freshApples 1; line strayProduct 1].

Definition zeroTotalCart : list CartItem := [line freshApples 0].




(** An order as [createOrder] stores it, and a few later states of it. *)
Definition orderData (ref : string) : OrderData :=
  {| od_orderReference := ref;
     od_customerEmail := "ada@example.com";
     od_customerName := "ada";
     od_deliveryAddress := None;
     od_amount := of_Z 4800;
     od_items := twoVendorCart;
     od_paymentMethod := prepay_now;
     od_paymentReference := None;
     od_paymentDetails := None;
     od_vendorPayouts := None;
     od_paidAt := None;
     od_deliveredAt := None;
     od_riderId := None;
     od_terminalId := None |}.

Definition placed (ref : string) : Order :=
  fst (createOrder 1700000000000 "2023-11-14T22:13:20.000Z" (orderData ref) []).

(** A successful charge notification for [ref] with gateway reference
    [gatewayRef]. *)
Definition charge (ref gatewayRef : option string) : PaymentData :=
  {| reference := gatewayRef;
     pd_amount := Some (of_Z 480000);
     channel := Some "card";
     pd_status := Some "success";
     paid_at := Some "2023-11-14T22:15:00.000Z";
     metadata_orderReference := ref;
     metadata_test_mode := false;
     customer_email := Some "ada@example.com";
     receiver_bank_account_number := None;
     pd_orderReference := None;
     transactionReference := None |}.

(** The notification of the first successful payment of GRUNDY_1. *)
Definition notification : PaymentData := charge (Some "GRUNDY_1") (Some "PSK_A").

(** The store after GRUNDY_1 was placed and paid. *)
Definition paidOnce : Orders :=
  updateOrderPaymentStatus "2023-11-14T22:15:01.000Z" "GRUNDY_1" paid
    (Some notification) [placed "GRUNDY_1"].

(** Two unpaid orders of one customer for the same amount. *)
Definition twoAlike : Orders := [placed "GRUNDY_1"; placed "GRUNDY_2"].

End Data.

End Sample.

(** ** The split, described without the loops *)

Section SplitDescription.
Context {N : JSNumber}.
Variable env : Env.
Local Open Scope js_scope.

Definition vendorOf (item : CartItem) : string := vendor (product item).

(** The line's vendor id names a property inherited from
    [Object.prototype]. *)
Definition inheritedVendor (item : CartItem) : bool := inherited (vendorOf item).

(** The vendor id is in the registry. *)
Definition registered (vendorId : string) : bool :=
  match findVendor env vendorId with
  | Some _ => true
  | None => false
  end.

(** Every line is sold by a registered vendor. *)
Definition allRegistered (cart : list CartItem) : bool :=
  forallb (fun item => registered (vendorOf item)) cart.

(** Vendor ids in the order in which they are first seen. *)
Definition noteVendor (seen : list string) (vendorId : string) : list string :=
  if existsb (fun k => String.eqb k vendorId) seen then seen else seen ++ [vendorId].

Definition firstSeen (vendorIds : list string) : list string :=
  fold_left noteVendor vendorIds [].

Fixpoint filterMap {A B} (f : A -> option B) (xs : list A) : list B :=
  match xs with
  | [] => []
  | x :: rest =>
      match f x with
      | Some y => y :: filterMap f rest
      | None => filterMap f rest
      end
  end.

(** [groupItem] when nothing is inherited. *)
Definition groupPure (vendorSales : object VendorSales) (item : CartItem)
  : object VendorSales :=
  let record (s : VendorSales) :=
    {| vs_items := vs_items s ++ [item]; vs_total := vs_total s + lineTotal item |} in
  match own (vendorOf item) vendorSales with
  | Some _ => alter record (vendorOf item) vendorSales
  | None => define (vendorOf item) (record {| vs_items := []; vs_total := of_Z 0 |}) vendorSales
  end.

(** The payout that [payoutOf] pushes for an entry, if it pushes one. *)
Definition payoutEntry (totalAmount totalPaystackFee : number)
    (entry : string * VendorSales) : option PayoutCalculation :=
  match findVendor env (fst entry) with
  | None => None
  | Some vendor =>
      let totalSales := vs_total (snd entry) in
      let platformFee := totalSales * decimal 10 2 in
      let paystackFeeShare := totalSales / totalAmount * totalPaystackFee in
      Some {| vendorId := fst entry;
              pc_vendorName := v_name vendor;
              totalSales := totalSales;
              platformFee := platformFee;
              paystackFeeShare := paystackFeeShare;
              vendorPayout := totalSales - platformFee - paystackFeeShare;
              pc_items := vs_items (snd entry) |}
  end.

(** The lines of the cart sold by [vendorId], in cart order. *)
Definition linesOf (vendorId : string) (cartItems : list CartItem) : list CartItem :=
  filter (fun item => String.eqb (vendorOf item) vendorId) cartItems.

(** The entry of [vendorSales] for a vendor with the given lines. *)
Definition salesOf (vendorId : string) (lines : list CartItem) : string * VendorSales :=
  (vendorId, {| vs_items := lines; vs_total := total lineTotal lines |}).

(** The split that [calculateOrderSplit] returns, when it returns. *)
Definition splitOf (cartItems : list CartItem) : OrderSplit :=
  let totalAmount := cartTotal cartItems in
  let totalPaystackFee := totalAmount * decimal 15 3 + of_Z 100 in
  let payouts :=
    filterMap (payoutEntry totalAmount totalPaystackFee) (fold_left groupPure cartItems []) in
  {| totalAmount := totalAmount;
     platformRevenue := total platformFee payouts;
     totalPaystackFee := totalPaystackFee;
     vendorPayouts := payouts |}.

(** A split with another [totalAmount] and the rest as it is. *)
Definition withTotal (amount : number) (orderSplit : OrderSplit) : OrderSplit :=
  {| totalAmount := amount;
     platformRevenue := platformRevenue orderSplit;
     totalPaystackFee := totalPaystackFee orderSplit;
     vendorPayouts := vendorPayouts orderSplit |}.

(** The first payout whose vendor the registry does not know. *)
Definition unknownPayout (orderSplit : OrderSplit) : option PayoutCalculation :=
  find (fun payout => negb (registered (vendorId payout))) (vendorPayouts orderSplit).

(** The error thrown for a vendor id that names an inherited property. *)
Definition pushOfUndefined : JsError :=
  TypeError "Cannot read properties of undefined (reading 'push')".

End SplitDescription.

(** ** Sums of rationals *)

Definition sumQc (xs : list Qc) : Qc := fold_right Qcplus (Q2Qc 0) xs.

(** [n] halves. *)
Definition halves (n : nat) : Qc := Q2Qc (Z.of_nat n # 2).

(** The totals kept in the dictionary [vendorSales]. *)
Definition totals (vs : object (VendorSales (N := exact))) : list Qc :=
  map (fun e => vs_total (snd e)) vs.

(** ** What the store keeps of an order *)

Section StoreDescriptions.
Context {N : JSNumber}.

(** What an order is placed with: the fields that [createOrder] sets and
    that no later call assigns. *)
Record Placement : Type := {
  placed_id : string;
  placed_orderReference : string;
  placed_customerEmail : string;
  placed_customerName : string;
  placed_deliveryAddress : option string;
  placed_amount : number;
  placed_items : list CartItem;
  placed_paymentMethod : PaymentMethod;
  placed_vendorPayouts : option (list PayoutCalculation);
  placed_createdAt : string
}.

Definition placement (o : Order) : Placement :=
  {| placed_id := id o;
     placed_orderReference := orderReference o;
     placed_customerEmail := customerEmail o;
     placed_customerName := customerName o;
     placed_deliveryAddress := deliveryAddress o;
     placed_amount := amount o;
     placed_items := items o;
     placed_paymentMethod := paymentMethod o;
     placed_vendorPayouts := vendorPayouts_snapshot o;
     placed_createdAt := createdAt o |}.

(** What payments write on an order. *)
Definition paymentState (o : Order)
  : PaymentStatus * option string * option PaymentData * option string * option string :=
  (paymentStatus o, paymentReference o, paymentDetails o, paidAt o, deliveredAt o).

(** The rider and the terminal assigned to an order. *)
Definition assignment (o : Order) : option string * option string :=
  (riderId o, terminalId o).

(** The reference a call addresses, for the calls that look one up. *)
Definition addressee (call : StoreCall) : option string :=
  match call with
  | CreateOrder _ _ _ => None
  | UpdateOrderPaymentStatus _ ref _ _ => Some ref
  | UpdateOrderDeliveryStatus ref _ _ => Some ref
  | CompleteOrderDelivery _ ref => Some ref
  end.

(** The number of [createOrder] calls in a sequence. *)
Definition creations (calls : list StoreCall) : nat :=
  List.length (filter (fun call => match call with
                                   | CreateOrder _ _ _ => true
                                   | _ => false
                                   end) calls).

(** The payment methods, the only values [createOrder] is ever given. *)
Definition paymentMethods : list PaymentMethod :=
  [prepay_now; bank_transfer_delivery; terminal_delivery].

(** The number of orders in the answers of a query, one answer per key. *)
Definition answered {K} (query : K -> Orders) (keys : list K) : nat :=
  fold_right (fun key n => (List.length (query key) + n)%nat) 0%nat keys.

End StoreDescriptions.

(** ** What the webhook stores *)

Section WebhookDescriptions.
Context {N : JSNumber}.

(** [{ ...paymentData, orderReference, transactionReference:
    paymentData.reference }]: the payload [handleChargeSuccess] stores on
    the order. *)
Definition storedPayload (orderReference : string) (paymentData : PaymentData)
  : PaymentData :=
  {| reference := reference paymentData;
     pd_amount := pd_amount paymentData;
     channel := channel paymentData;
     pd_status := pd_status paymentData;
     paid_at := paid_at paymentData;
     metadata_orderReference := metadata_orderReference paymentData;
     metadata_test_mode := metadata_test_mode paymentData;
     customer_email := customer_email paymentData;
     receiver_bank_account_number := receiver_bank_account_number paymentData;
     pd_orderReference := Some orderReference;
     transactionReference := reference paymentData |}.

(** The assignments [handleChargeSuccess] makes to the order it marks. *)
Definition markPaid (now orderReference : string) (paymentData : PaymentData)
  : Order -> Order :=
  applyPayment now paid (Some (storedPayload orderReference paymentData)).

(** The store as the statements of [handleChargeSuccess] leave it. *)
Definition afterCharge (env : Env) (now : string) (paymentData : PaymentData)
    (orders : Orders) : Orders :=
  fst (handleChargeSuccess env now paymentData orders).

(** The reference that [handleChargeSuccess] passes to
    [simulateTestModePayment], once it has marked an order: in
    development or test mode, for a charge on the 'terminal' channel
    whose reference starts with 'ORDER_'.  The handler then awaits a
    request to the application's own update route, which writes the
    store again, before it returns; for every other notification it
    posts nothing and the store it leaves is [afterCharge]. *)
Definition simulatedPayment (env : Env) (paymentData : PaymentData) : option string :=
  if developmentMode env paymentData
     && opt_string_eqb (channel paymentData) (Some "terminal")
  then match reference paymentData with
       | Some ref => if startsWith "ORDER_" ref then Some ref else None
       | None => None
       end
  else None.

(** The error of [paymentData.reference.startsWith] for a notification
    without a reference. *)
Definition startsWithOfUndefined : JsError :=
  TypeError "Cannot read properties of undefined (reading 'startsWith')".

(** The three lookups of [resolveOrder], one by one. *)
Definition byMetadataReference (paymentData : PaymentData) (orders : Orders)
  : option (string * Order) :=
  match metadata_orderReference paymentData with
  | Some ref =>
      if truthy (Some ref)
      then option_map (pair ref) (getOrderByReference ref orders)
      else None
  | None => None
  end.

Definition byGatewayReference (paymentData : PaymentData) (orders : Orders)
  : option (string * Order) :=
  option_map (fun o => (orderReference o, o)) (find (byPaymentReference paymentData) orders).

Definition bySingleMatch (paymentData : PaymentData) (orders : Orders)
  : option (string * Order) :=
  if truthy (customer_email paymentData) then
    match filter (byEmailAndAmount paymentData) orders with
    | [o] => Some (orderReference o, o)
    | _ => None
    end
  else None.

End WebhookDescriptions.

(** ** The split configuration, entry by entry *)

Section ConfigurationDescriptions.
Context {N : JSNumber}.
Variable env : Env.
Local Open Scope js_scope.

(** The registry's subaccount code for a vendor id. *)
Definition subaccountCode (vendorId : string) : option string :=
  option_map subaccount_code (findVendor env vendorId).

(** A payout in kobo, as the gateway is given it. *)
Definition kobo (x : number) : number := Math_round (x * of_Z 100).

(** The entry of the split configuration for a payout. *)
Definition subaccountOf (payout : PayoutCalculation) : Subaccount :=
  {| subaccount := subaccountCode (vendorId payout);
     share := kobo (vendorPayout payout) |}.

(** The platform's entry, the last one. *)
Definition platformSubaccount (orderSplit : OrderSplit) : Subaccount :=
  {| subaccount := env "PAYSTACK_GRUNDY_SUBACCOUNT";
     share := kobo (platformRevenue orderSplit + totalPaystackFee orderSplit) |}.

(** The error of [getSingleVendorSubaccount] for a split that has not
    exactly one payout. *)
Definition notOneVendor : JsError :=
  Error "Expected exactly one vendor for single subaccount payment".

End ConfigurationDescriptions.

(** ** The cart *)

Section CartDescriptions.
Context {N : JSNumber}.

(** The product ids of the lines of a cart, in cart order. *)
Definition productIds (cartItems : list CartItem) : list string :=
  map (fun item => p_id (product item)) cartItems.

(** The body the checkout page posts to /api/payment/initialize. *)
Definition checkoutBody (state : CartState) (email orderReference : string)
  : PaymentInitialize.Body :=
  {| PaymentInitialize.email := Some email;
     PaymentInitialize.b_amount := Some (cs_total state);
     PaymentInitialize.cartItems := Some (cs_items state);
     PaymentInitialize.b_orderReference := orderReference |}.

End CartDescriptions.

(** ** The transfers of [processVendorPayouts], without the loop *)

Section TransferDescriptions.
Context {N : JSNumber}.
Variable env : Env.
Variable transfer : nat -> TransferRequest -> completion TransferData.

(** The payouts of vendors the registry knows. *)
Definition payable (payouts : list PayoutCalculation) : list PayoutCalculation :=
  filter (fun payout => registered env (vendorId payout)) payouts.

(** The request for a payout, when its vendor is known. *)
Definition requestFor (orderReference : string) (payout : PayoutCalculation)
  : option TransferRequest :=
  option_map (transferRequest env orderReference payout) (findVendor env (vendorId payout)).

(** What is reported of a payout whose transfer ended with [outcome]. *)
Definition reported (payout : PayoutCalculation) (outcome : completion TransferData)
  : bool * option string * option string * option string :=
  match outcome with
  | Return transferData =>
      (td_status transferData, td_reference transferData, td_message transferData, None)
  | Throw error => (false, None, None, Some (messageOf error))
  end.

(** The result pushed for a payout whose transfer ended with [outcome]. *)
Definition resultOf (payout : PayoutCalculation) (outcome : completion TransferData)
  : PayoutResult :=
  match outcome with
  | Return transferData =>
      {| pr_vendorId := vendorId payout;
         pr_vendorName := pc_vendorName payout;
         pr_amount := vendorPayout payout;
         pr_success := td_status transferData;
         pr_transferReference := td_reference transferData;
         pr_message := td_message transferData;
         pr_error := None |}
  | Throw error =>
      {| pr_vendorId := vendorId payout;
         pr_vendorName := pc_vendorName payout;
         pr_amount := vendorPayout payout;
         pr_success := false;
         pr_transferReference := None;
         pr_message := None;
         pr_error := Some (messageOf error) |}
  end.

(** What a result says of the transfer. *)
Definition report (result : PayoutResult)
  : bool * option string * option string * option string :=
  (pr_success result, pr_transferReference result, pr_message result, pr_error result).

End TransferDescriptions.

(** ** Requests the application posts to itself *)

Section InternalRequests.
Context {N : JSNumber}.

(** The body of the request that the timer callback of the
    collect-payment route posts to /api/orders/update-payment-status. *)
Definition bodyOf (update : TerminalCollectPayment.StatusUpdate) : UpdatePaymentStatus.Body :=
  {| UpdatePaymentStatus.b_orderReference :=
       Some (TerminalCollectPayment.su_orderReference update);
     UpdatePaymentStatus.status := Some (TerminalCollectPayment.su_status update);
     UpdatePaymentStatus.paymentData :=
       Some (TerminalCollectPayment.su_paymentData update) |}.

End InternalRequests.

(** ** The order of the terminal-delivery route *)

Section TerminalOrderDescription.
Context {N : JSNumber}.
Variable env : Env.

(** What the route passes to [createOrder] for a body with the given
    email, amount and items. *)
Definition terminalOrderData (referenceMs : Z) (body : TerminalDeliveryOrder.Body)
    (email : string) (asked : number) (lines : list CartItem) : OrderData :=
  {| od_orderReference :=
       orDefault (TerminalDeliveryOrder.b_orderReference body)
                 ("ORDER_" ++ NilZero.string_of_int (Z.to_int referenceMs))%string;
     od_customerEmail := email;
     od_customerName := orDefault (TerminalDeliveryOrder.customer_name body) (beforeAt email);
     od_deliveryAddress :=
       Some (orDefault (TerminalDeliveryOrder.delivery_address body) "Lagos, Nigeria");
     od_amount := asked;
     od_items := lines;
     od_paymentMethod := terminal_delivery;
     od_paymentReference := None;
     od_paymentDetails := None;
     od_vendorPayouts := Some (vendorPayouts (splitOf env lines));
     od_paidAt := None;
     od_deliveredAt := None;
     od_riderId := None;
     od_terminalId := None |}.

End TerminalOrderDescription.

(** ** The vendor totals of the dashboard, vendor by vendor *)

Section VendorTotalsDescriptions.
Context {N : JSNumber}.
Local Open Scope js_scope.

(** The payouts of the stored orders, in store order. *)
Definition allPayouts (orders : Orders) : list PayoutCalculation :=
  flat_map (fun order => match vendorPayouts_snapshot order with
                         | Some payouts => payouts
                         | None => []
                         end) orders.

(** The payouts of one vendor. *)
Definition payoutsOf (vendor : string) (payouts : list PayoutCalculation)
  : list PayoutCalculation :=
  filter (fun payout => String.eqb (vendorId payout) vendor) payouts.

(** The row of a vendor: the name on its first payout, and its sales,
    its payouts and the number of its payouts, each added up from 0 in
    store order.  There is no row for a vendor without payouts, nor for
    an id that names a property inherited from [Object.prototype]. *)
Definition totalsOf (vendor : string) (payouts : list PayoutCalculation)
  : option VendorOrders.VendorTotals :=
  match payoutsOf vendor payouts with
  | [] => None
  | first :: others =>
      if inherited vendor then None
      else Some {| VendorOrders.vt_vendorId := vendor;
                   VendorOrders.vt_vendorName := pc_vendorName first;
                   VendorOrders.vt_totalSales := total totalSales (first :: others);
                   VendorOrders.vt_totalPayouts := total vendorPayout (first :: others);
                   VendorOrders.vt_ordersCount :=
                     total (fun _ => of_Z 1) (first :: others) |}
  end.

End VendorTotalsDescriptions.

(** ** The order of the initialize route *)

Section PrepayOrderDescription.
Context {N : JSNumber}.
Variable env : Env.

(** What the route passes to [createOrder] for a body with the given
    email, amount and cart. *)
Definition prepayOrderData (body : PaymentInitialize.Body)
    (email : string) (asked : number) (cart : list CartItem) : OrderData :=
  {| od_orderReference := PaymentInitialize.b_orderReference body;
     od_customerEmail := email;
     od_customerName := beforeAt email;
     od_deliveryAddress := None;
     od_amount := asked;
     od_items := cart;
     od_paymentMethod := prepay_now;
     od_paymentReference := None;
     od_paymentDetails := None;
     od_vendorPayouts := Some (vendorPayouts (splitOf env cart));
     od_paidAt := None;
     od_deliveredAt := None;
     od_riderId := None;
     od_terminalId := None |}.

End PrepayOrderDescription.

(** ** src/data/products.tsx *)

Section Catalogue.
Context {N : JSNumber}.

Definition milk : Product :=
  {| p_id := "4"; p_name := "Milk"; price := of_Z 1500;
     image := "https://images.unsplash.com/photo-1563636619-e9143da7973b?w=300&h=200&fit=crop";
     vendor := "VENDOR_004"; vendorName := "Dairy Delight"; category := "Dairy";
     description := "Fresh whole milk 1L"; inventory := of_Z 40 |}.

Definition bread : Product :=
  {| p_id := "5"; p_name := "Bread"; price := of_Z 700;
     image := "https://images.unsplash.com/photo-1549931319-a545dcf3bc73?w=300&h=200&fit=crop";
     vendor := "VENDOR_005"; vendorName := "Bakery Corner"; category := "Bakery";
     description := "Fresh whole wheat bread"; inventory := of_Z 25 |}.

Definition rice : Product :=
  {| p_id := "6"; p_name := "Rice"; price := of_Z 3000;
     image := "https://images.unsplash.com/photo-1586201375761-83865001e31c?w=300&h=200&fit=crop";
     vendor := "VENDOR_006"; vendorName := "Grains Galore"; category := "Grains";
     description := "Premium long grain rice 5kg"; inventory := of_Z 15 |}.

Definition oranges : Product :=
  {| p_id := "7"; p_name := "Oranges"; price := of_Z 900;
     image := "https://images.unsplash.com/photo-1547514701-42782101795e?w=300&h=200&fit=crop";
     vendor := "VENDOR_001"; vendorName := "Fresh Farms"; category := "Fruits";
     description := "Sweet and juicy oranges"; inventory := of_Z 35 |}.

Definition spinach : Product :=
  {| p_id := "8"; p_name := "Spinach"; price := of_Z 600;
     image := "https://images.unsplash.com/photo-1576045057995-568f588f82fb?w=300&h=200&fit=crop";
     vendor := "VENDOR_002"; vendorName := "Vegetable King"; category := "Vegetables";
     description := "Fresh leafy spinach"; inventory := of_Z 25 |}.

(** The catalogue; its first three entries are among the sample data. *)
Definition products : list Product :=
  [ Sample.freshApples; Sample.carrots; Sample.chickenBreast;
    milk; bread; rice; oranges; spinach ].

(** An action of the shop page: what it adds comes from the catalogue. *)
Definition fromCatalogue (action : CartAction) : Prop :=
  match action with
  | ADD_ITEM p => In p products
  | _ => True
  end.

End Catalogue.

(** ** Sample requests *)

Module SampleRequests.
Import Sample.

Section Data.
Context {N : JSNumber}.

(** The body the checkout page posts for the two-vendor cart. *)
Definition checkout : PaymentInitialize.Body :=
  {| PaymentInitialize.email := Some "ada@example.com";
     PaymentInitialize.b_amount := Some (of_Z 4800);
     PaymentInitialize.cartItems := Some twoVendorCart;
     PaymentInitialize.b_orderReference := "ORDER_1700000000000" |}.

(** A gateway that accepts every transaction. *)
Definition accepting (transactionData : PaymentInitialize.TransactionData)
  : completion PaymentInitialize.Reply :=
  Return {| PaymentInitialize.r_status := true;
            PaymentInitialize.r_message := Some "Authorization URL created" |}.

(** A gateway that makes every transfer. *)
Definition paying (k : nat) (request : TransferRequest) : completion TransferData :=
  Return {| td_status := true;
            td_reference := Some (tr_reference request);
            td_message := Some "Transfer has been queued" |}.

(** The body the checkout page posts for a terminal delivery. *)
Definition terminalBody : TerminalDeliveryOrder.Body :=
  {| TerminalDeliveryOrder.email := Some "ada@example.com";
     TerminalDeliveryOrder.b_amount := Some (of_Z 4800);
     TerminalDeliveryOrder.b_items := Some twoVendorCart;
     TerminalDeliveryOrder.customer_name := Some "ada";
     TerminalDeliveryOrder.delivery_address := Some "12 Marina, Lagos";
     TerminalDeliveryOrder.b_orderReference := Some "ORDER_1700000000000" |}.

(** John Rider. *)
Definition john : RiderDispatch.Rider :=
  {| RiderDispatch.rider_id := "RIDER_001";
     RiderDispatch.rider_name := "John Rider";
     RiderDispatch.terminal_id := "TERMINAL_001";
     RiderDispatch.rider_status := "available" |}.

(** A webhook request without a signature header, and what its payload
    parses to: the charge of ORDER_1700000000000. *)
Definition unsigned : PaystackWebhook.Request :=
  {| PaystackWebhook.payload := "charge.success ORDER_1700000000000 PSK_B";
     PaystackWebhook.signature := None |}.

Definition chargeEvent : PaystackWebhook.WebhookEvent :=
  {| PaystackWebhook.we_event := Some "charge.success";
     PaystackWebhook.we_data :=
       Some {| PaystackWebhook.ed_payment :=
                 charge (Some "ORDER_1700000000000") (Some "PSK_B");
               PaystackWebhook.ed_bank := false;
               PaystackWebhook.ed_customer := true |} |}.

(** A charge made on a terminal in test mode, whose gateway reference
    is the order reference of a terminal delivery. *)
Definition terminalTestCharge : PaymentData :=
  {| reference := Some "ORDER_1700000000000";
     pd_amount := Some (of_Z 480000);
     channel := Some "terminal";
     pd_status := Some "success";
     paid_at := Some "2023-11-14T22:15:00.000Z";
     metadata_orderReference := Some "GRUNDY_1";
     metadata_test_mode := true;
     customer_email := Some "ada@example.com";
     receiver_bank_account_number := None;
     pd_orderReference := None;
     transactionReference := None |}.

Definition parsed (payload : string) : completion (option PaystackWebhook.WebhookEvent) :=
  Return (Some chargeEvent).

(** A stand-in for the HMAC, which an unsigned request never reaches. *)
Definition unkeyed (key payload : string) : string := "".

End Data.

End SampleRequests.

(* ===================================================================== *)
(** * Part II.  Properties                                                *)
(* ===================================================================== *)

(** ** The store: [find] then mutate *)

Section StoreFacts.
Context {N : JSNumber}.
Implicit Types (o : Order) (orders : Orders) (ref : string).

Lemma hasReference_true ref o : hasReference ref o = true <-> orderReference o = ref.
Proof. unfold hasReference. apply String.eqb_eq. Qed.

Lemma hasReference_false ref o : hasReference ref o = false <-> orderReference o <> ref.
Proof. unfold hasReference. apply String.eqb_neq. Qed.

Lemma applyPayment_keepsReference now status data :
  keepsReference (applyPayment now status data).
Proof. intro o. reflexivity. Qed.

Lemma applyDelivery_keepsReference rider terminal :
  keepsReference (applyDelivery rider terminal).
Proof. intro o. reflexivity. Qed.

Lemma applyCompletion_keepsReference now : keepsReference (applyCompletion now).
Proof. intro o. reflexivity. Qed.

Lemma keepsReference_hasReference f ref o :
  keepsReference f -> hasReference ref (f o) = hasReference ref o.
Proof. intro K. unfold hasReference. now rewrite K. Qed.

Lemma mutateFirst_length p f orders :
  List.length (mutateFirst p f orders) = List.length orders.
Proof.
  induction orders as [|o rest IH]; simpl; [reflexivity|].
  destruct (p o); simpl; congruence.
Qed.

Lemma mutateFirst_none p f orders :
  find p orders = None -> mutateFirst p f orders = orders.
Proof.
  induction orders as [|o rest IH]; simpl; [reflexivity|].
  destruct (p o); [discriminate|]. intro H. now rewrite IH.
Qed.

(** Looking up the reference that was just updated finds the updated
    object. *)
Lemma get_mutateFirst_same f ref orders :
  keepsReference f ->
  getOrderByReference ref (mutateFirst (hasReference ref) f orders)
  = option_map f (getOrderByReference ref orders).
Proof.
  intro K. unfold getOrderByReference.
  induction orders as [|o rest IH]; simpl; [reflexivity|].
  destruct (hasReference ref o) eqn:E; simpl.
  - now rewrite keepsReference_hasReference, E.
  - now rewrite E.
Qed.

(** Looking up another reference is not affected. *)
Lemma get_mutateFirst_other f ref ref' orders :
  keepsReference f -> ref <> ref' ->
  getOrderByReference ref (mutateFirst (hasReference ref') f orders)
  = getOrderByReference ref orders.
Proof.
  intros K D. unfold getOrderByReference.
  induction orders as [|o rest IH]; simpl; [reflexivity|].
  destruct (hasReference ref' o) eqn:E'; simpl.
  - rewrite keepsReference_hasReference by assumption.
    apply hasReference_true in E'.
    destruct (hasReference ref o) eqn:E; [|reflexivity].
    apply hasReference_true in E. congruence.
  - destruct (hasReference ref o); [reflexivity | exact IH].
Qed.

Lemma get_app_found ref orders extra o :
  getOrderByReference ref orders = Some o ->
  getOrderByReference ref (orders ++ extra) = Some o.
Proof.
  unfold getOrderByReference.
  induction orders as [|x rest IH]; simpl; [discriminate|].
  destruct (hasReference ref x); [trivial | exact IH].
Qed.




(** Only the element at [findIndex] is assigned to. *)
Lemma nth_mutateFirst_other p f orders i :
  findIndex p orders <> Some i ->
  nth_error (mutateFirst p f orders) i = nth_error orders i.
Proof.
  revert i. induction orders as [|x rest IH]; simpl; intros i H; [reflexivity|].
  destruct (p x) eqn:E.
  - destruct i; [congruence | reflexivity].
  - destruct i as [|i]; [reflexivity|]. simpl. apply IH.
    intro F. apply H. now rewrite F.
Qed.

Lemma nth_mutateFirst_found p f orders i :
  findIndex p orders = Some i ->
  nth_error (mutateFirst p f orders) i = option_map f (nth_error orders i).
Proof.
  revert i. induction orders as [|x rest IH]; simpl; intros i H; [discriminate|].
  destruct (p x) eqn:E.
  - now injection H as <-.
  - destruct (findIndex p rest) as [k|] eqn:F; [|discriminate].
    injection H as <-. simpl. now apply IH.
Qed.

(** [mutateFirst], position by position. *)
Lemma nth_mutateFirst_spec p f orders i :
  nth_error (mutateFirst p f orders) i =
  if isPosition (findIndex p orders) i
  then option_map f (nth_error orders i)
  else nth_error orders i.
Proof.
  unfold isPosition. destruct (findIndex p orders) as [k|] eqn:F.
  - destruct (Nat.eqb_spec k i) as [->|D].
    + now apply nth_mutateFirst_found.
    + apply nth_mutateFirst_other. congruence.
  - apply nth_mutateFirst_other. congruence.
Qed.


End StoreFacts.

(** ** Payment application: C2, C7 *)

Section PaymentFacts.
Context {N : JSNumber}.
Implicit Types (o : Order) (orders : Orders) (ref now : string).

Lemma or_else_idempotent a b : or_else a (or_else a b) = or_else a b.
Proof. unfold or_else. now destruct (truthy a) eqn:E; rewrite ?E. Qed.

Lemma applyPayment_twice now1 now2 data o :
  applyPayment now2 paid data (applyPayment now1 paid data o) = applyPayment now2 paid data o.
Proof. unfold applyPayment; simpl. now rewrite or_else_idempotent. Qed.

Lemma mutateFirst_twice f g ref orders :
  keepsReference g ->
  mutateFirst (hasReference ref) f (mutateFirst (hasReference ref) g orders)
  = mutateFirst (hasReference ref) (fun o => f (g o)) orders.
Proof.
  intro K. induction orders as [|o rest IH]; simpl; [reflexivity|].
  destruct (hasReference ref o) eqn:E; simpl.
  - now rewrite keepsReference_hasReference, E.
  - now rewrite E, IH.
Qed.

Lemma mutateFirst_ext p f g orders :
  (forall o, f o = g o) -> mutateFirst p f orders = mutateFirst p g orders.
Proof.
  intro H. induction orders as [|o rest IH]; simpl; [reflexivity|].
  now rewrite H, IH.
Qed.

(** C2, as the code has it.  Applying the same successful-payment event
    a second time keeps [paymentStatus] ('paid') and [paymentReference],
    and replaces [paidAt] by the clock reading of the second application:
    the two applications leave the store as the second one alone would. *)
Theorem second_payment_restamps_paidAt now1 now2 ref
    (data : option PaymentData) orders :
  let once := updateOrderPaymentStatus now1 ref paid data orders in
  let twice := updateOrderPaymentStatus now2 ref paid data once in
  option_map paymentStatus (getOrderByReference ref twice)
    = option_map paymentStatus (getOrderByReference ref once) /\
  option_map paymentReference (getOrderByReference ref twice)
    = option_map paymentReference (getOrderByReference ref once) /\
  option_map paidAt (getOrderByReference ref twice)
    = option_map (fun _ => Some now2) (getOrderByReference ref once) /\
  twice = updateOrderPaymentStatus now2 ref paid data orders.
Proof.
  cbv zeta. unfold updateOrderPaymentStatus.
  rewrite mutateFirst_twice by apply applyPayment_keepsReference.
  rewrite (mutateFirst_ext _ _ (applyPayment now2 paid data))
    by (intro; apply applyPayment_twice).
  rewrite !get_mutateFirst_same by apply applyPayment_keepsReference.
  destruct (getOrderByReference ref orders) as [o|]; simpl; auto.
Qed.

(** C7, as the code has it.  After [updateOrderPaymentStatus] the
    addressed order carries the payload's [reference] whenever the payload
    has a non-empty one, also when a reference was stored before; the
    stored reference is kept only when the payload is absent or its
    [reference] is absent or empty. *)
Theorem paymentReference_follows_payload now ref status
    (data : option PaymentData) orders :
  option_map paymentReference
    (getOrderByReference ref (updateOrderPaymentStatus now ref status data orders))
  = option_map
      (fun o =>
         let incoming := match data with Some d => reference d | None => None end in
         if truthy incoming then incoming else paymentReference o)
      (getOrderByReference ref orders).
Proof.
  unfold updateOrderPaymentStatus.
  rewrite get_mutateFirst_same by apply applyPayment_keepsReference.
  destruct (getOrderByReference ref orders) as [o|]; reflexivity.
Qed.

End PaymentFacts.

(** ** Delivery completion: C9 *)

Section DeliveryFacts.
Context {N : JSNumber}.
Implicit Types (o : Order) (orders : Orders) (ref now : string).

(** C9, as the code has it.  [completeOrderDelivery] does not look at the
    current status and rejects nothing.  Whenever the reference resolves,
    the order found, at the first position with that reference, gets
    [paymentStatus = 'delivered'] and [deliveredAt = now] and keeps its
    other fields; every other position of the store is left as it was;
    when the reference does not resolve, so is the whole store. *)
Theorem completeOrderDelivery_from_any_status now ref orders :
  getOrderByReference ref (completeOrderDelivery now ref orders)
    = option_map (applyCompletion now) (getOrderByReference ref orders) /\
  option_map paymentStatus (getOrderByReference ref (completeOrderDelivery now ref orders))
    = option_map (fun _ => delivered) (getOrderByReference ref orders) /\
  option_map deliveredAt (getOrderByReference ref (completeOrderDelivery now ref orders))
    = option_map (fun _ => Some now) (getOrderByReference ref orders) /\
  List.length (completeOrderDelivery now ref orders) = List.length orders /\
  (forall i,
     nth_error (completeOrderDelivery now ref orders) i =
     if isPosition (findIndex (hasReference ref) orders) i
     then option_map (applyCompletion now) (nth_error orders i)
     else nth_error orders i) /\
  match getOrderByReference ref orders with
  | Some _ => True
  | None => completeOrderDelivery now ref orders = orders
  end.
Proof.
  unfold completeOrderDelivery.
  rewrite get_mutateFirst_same by apply applyCompletion_keepsReference.
  rewrite mutateFirst_length.
  destruct (getOrderByReference ref orders) as [o|] eqn:E; simpl; repeat split;
    try (intro i; apply nth_mutateFirst_spec).
  now apply mutateFirst_none.
Qed.

End DeliveryFacts.

(** ** The status after a sequence of calls: C3 *)

Section StatusFacts.
Context {N : JSNumber}.
Implicit Types (o : Order) (orders : Orders) (ref now : string).

(** One call: the order that [ref] resolves to is still there, with the
    status the call asked for, or with its old status when the call
    addresses another reference or is not a status change. *)
Lemma perform_status ref call orders o :
  getOrderByReference ref orders = Some o ->
  exists o',
    getOrderByReference ref (perform orders call) = Some o' /\
    paymentStatus o' =
      match statusRequested ref call with
      | Some requested => requested
      | None => paymentStatus o
      end.
Proof.
  intro H. destruct call as [ms iso d | t r s d | r rider term | t r]; simpl.
  - exists o. split; [now apply get_app_found | reflexivity].
  - unfold updateOrderPaymentStatus. destruct (String.eqb_spec r ref) as [->|D].
    + rewrite get_mutateFirst_same, H by apply applyPayment_keepsReference.
      eexists; split; reflexivity.
    + rewrite get_mutateFirst_other by (apply applyPayment_keepsReference || congruence).
      exists o. now split.
  - unfold updateOrderDeliveryStatus. destruct (String.eqb_spec r ref) as [->|D].
    + rewrite get_mutateFirst_same, H by apply applyDelivery_keepsReference.
      eexists; split; reflexivity.
    + rewrite get_mutateFirst_other by (apply applyDelivery_keepsReference || congruence).
      exists o. now split.
  - unfold completeOrderDelivery. destruct (String.eqb_spec r ref) as [->|D].
    + rewrite get_mutateFirst_same, H by apply applyCompletion_keepsReference.
      eexists; split; reflexivity.
    + rewrite get_mutateFirst_other by (apply applyCompletion_keepsReference || congruence).
      exists o. now split.
Qed.

(** C3, as the code has it.  No call validates a transition: after any
    sequence of calls, the order a reference resolves to has the status
    asked for by the last call that addressed it
    ([updateOrderPaymentStatus] with any status, or
    [completeOrderDelivery]), whatever its status was before; it keeps its
    status only when no call addressed it. *)
Theorem status_is_last_requested ref calls orders o :
  getOrderByReference ref orders = Some o ->
  option_map paymentStatus (getOrderByReference ref (performAll calls orders))
  = Some (lastRequested ref calls (paymentStatus o)).
Proof.
  unfold performAll, lastRequested.
  revert orders o. induction calls as [|call rest IH]; intros orders o H; simpl.
  - now rewrite H.
  - destruct (perform_status ref call orders H) as (o' & G & S).
    rewrite (IH _ _ G), S. reflexivity.
Qed.

End StatusFacts.

(** ** Duplicate references: C10 *)

Section DuplicateFacts.
Context {N : JSNumber}.
Implicit Types (o d : Order) (orders : Orders) (ref now : string).








End DuplicateFacts.

(** ** Unresolved notifications: C8 *)

Section WebhookFacts.
Context {N : JSNumber}.
Variable env : Env.
Implicit Types (o : Order) (orders : Orders) (paymentData : PaymentData).

Lemma find_none_iff {A} (p : A -> bool) (l : list A) :
  find p l = None <-> forall x, In x l -> p x = false.
Proof.
  split.
  - intros H x I. now apply (find_none p l H).
  - induction l as [|a l IH]; simpl; intro H; [reflexivity|].
    rewrite (H a) by now left. apply IH. intros x I. apply H. now right.
Qed.

(** The dropped path, with the program's own comparisons.  A
    charge-success notification whose metadata carries no order reference
    (absent or empty), whose gateway reference is [===] to the
    [paymentReference] of no stored order (an absent reference is [===]
    to an unset [paymentReference]), and whose email and amount select a
    number of orders other than one, is dropped:
    [handleChargeSuccess] returns normally with outcome [Unresolved], and
    the store it leaves is the store it found, with no order changed and
    none added. *)
Theorem unresolved_charge_is_dropped now paymentData orders :
  truthy (metadata_orderReference paymentData) = false ->
  (forall o, In o orders -> byPaymentReference paymentData o = false) ->
  List.length (filter (byEmailAndAmount paymentData) orders) <> 1%nat ->
  resolveOrder paymentData orders = None /\
  handleChargeSuccess env now paymentData orders = (orders, Return Unresolved).
Proof.
  intros M R A.
  assert (E : resolveOrder paymentData orders = None).
  { unfold resolveOrder, getAllOrders.
    destruct (metadata_orderReference paymentData) as [ref|] eqn:Q.
    - rewrite M.
      rewrite (proj2 (find_none_iff _ _) R).
      destruct (truthy (customer_email paymentData)); [|reflexivity].
      destruct (filter (byEmailAndAmount paymentData) orders) as [|x [|y rest]];
        simpl in A; congruence.
    - rewrite (proj2 (find_none_iff _ _) R).
      destruct (truthy (customer_email paymentData)); [|reflexivity].
      destruct (filter (byEmailAndAmount paymentData) orders) as [|x [|y rest]];
        simpl in A; congruence. }
  split; [exact E|]. unfold handleChargeSuccess. now rewrite E.
Qed.

End WebhookFacts.

(** ** What the grouping loop builds *)

Section GroupingFacts.
Context {N : JSNumber}.
Local Open Scope js_scope.
Implicit Types (item : CartItem) (cart : list CartItem) (vs : object VendorSales).

Lemma total_snoc {A} (f : A -> number) xs x : total f (xs ++ [x]) = total f xs + f x.
Proof. unfold total. now rewrite fold_left_app. Qed.

Lemma linesOf_snoc_same cart item :
  linesOf (vendorOf item) (cart ++ [item]) = linesOf (vendorOf item) cart ++ [item].
Proof. unfold linesOf. rewrite filter_app. simpl. now rewrite String.eqb_refl. Qed.

Lemma linesOf_snoc_other k cart item :
  String.eqb (vendorOf item) k = false -> linesOf k (cart ++ [item]) = linesOf k cart.
Proof. intro D. unfold linesOf. rewrite filter_app. simpl. rewrite D. apply app_nil_r. Qed.

Lemma linesOf_unseen k cart :
  existsb (fun v => String.eqb v k) (map vendorOf cart) = false -> linesOf k cart = [].
Proof.
  unfold linesOf. induction cart as [|item rest IH]; simpl; [reflexivity|].
  destruct (String.eqb (vendorOf item) k); [discriminate | exact IH].
Qed.

Lemma noteVendor_seen seen k v :
  existsb (fun x => String.eqb x k) (noteVendor seen v)
  = existsb (fun x => String.eqb x k) seen || String.eqb v k.
Proof.
  unfold noteVendor. destruct (existsb (fun x => String.eqb x v) seen) eqn:E.
  - destruct (String.eqb_spec v k) as [<-|D].
    + rewrite E. reflexivity.
    + now rewrite orb_false_r.
  - rewrite existsb_app. simpl. now rewrite orb_false_r.
Qed.

Lemma firstSeen_snoc ids v : firstSeen (ids ++ [v]) = noteVendor (firstSeen ids) v.
Proof. unfold firstSeen. now rewrite fold_left_app. Qed.

(** A vendor id has been noted exactly when it occurs. *)
Lemma firstSeen_seen ids k :
  existsb (fun x => String.eqb x k) (firstSeen ids)
  = existsb (fun x => String.eqb x k) ids.
Proof.
  induction ids as [|v rest IH] using rev_ind; [reflexivity|].
  rewrite firstSeen_snoc, noteVendor_seen, IH, existsb_app. simpl.
  now rewrite orb_false_r.
Qed.

Lemma own_salesOf k (lines : string -> list CartItem) keys :
  own k (map (fun v => salesOf v (lines v)) keys) =
  if existsb (fun x => String.eqb x k) keys
  then Some (snd (salesOf k (lines k)))
  else None.
Proof.
  induction keys as [|v rest IH]; simpl; [reflexivity|].
  destruct (String.eqb_spec v k) as [->|D]; [reflexivity | exact IH].
Qed.

(** Updating the entry of [k] in a dictionary of summaries. *)
Lemma alter_salesOf record k (lines lines' : string -> list CartItem) keys :
  (forall v, In v keys -> v <> k -> lines' v = lines v) ->
  (k, record (snd (salesOf k (lines k)))) = salesOf k (lines' k) ->
  NoDup keys ->
  In k keys ->
  alter record k (map (fun v => salesOf v (lines v)) keys)
  = map (fun v => salesOf v (lines' v)) keys.
Proof.
  intros O R. induction keys as [|v rest IH]; intros ND I; [contradiction|].
  inversion ND as [|? ? NI ND']; subst. simpl.
  destruct (String.eqb_spec v k) as [->|D].
  - unfold salesOf at 1 in R. simpl in R. unfold salesOf at 2. rewrite R. f_equal.
    apply map_ext_in. intros v Iv.
    rewrite O; [reflexivity | now right | intros ->; contradiction].
  - unfold salesOf at 1. fold (salesOf v (lines v)).
    rewrite (O v) by (try (now left); assumption).
    f_equal. apply IH.
    + intros w Iw. apply O. now right.
    + assumption.
    + destruct I as [->|I]; [contradiction | assumption].
Qed.

Lemma firstSeen_NoDup ids : NoDup (firstSeen ids).
Proof.
  induction ids as [|v rest IH] using rev_ind; [constructor|].
  rewrite firstSeen_snoc. unfold noteVendor.
  destruct (existsb (fun x => String.eqb x v) (firstSeen rest)) eqn:E; [assumption|].
  apply NoDup_app; [assumption | repeat constructor; intros [] |].
  intros x I [Q|[]]. subst x.
  assert (existsb (fun y => String.eqb y v) (firstSeen rest) = true).
  { apply existsb_exists. exists v. split; [assumption | apply String.eqb_refl]. }
  congruence.
Qed.

(** The dictionary after the first loop: one entry per vendor id, in the
    order in which the ids are first seen, holding the vendor's lines in
    cart order and their total, added up from 0 in that order. *)
Lemma grouped_spec cart :
  fold_left groupPure cart []
  = map (fun k => salesOf k (linesOf k cart)) (firstSeen (map vendorOf cart)).
Proof.
  induction cart as [|item rest IH] using rev_ind; [reflexivity|].
  rewrite fold_left_app. cbn [fold_left]. rewrite IH, map_app. cbn [map].
  rewrite firstSeen_snoc. unfold groupPure, noteVendor.
  rewrite own_salesOf.
  destruct (existsb (fun x => String.eqb x (vendorOf item))
              (firstSeen (map vendorOf rest))) eqn:E.
  - apply alter_salesOf.
    + intros v _ D. apply linesOf_snoc_other.
      apply String.eqb_neq. congruence.
    + unfold salesOf. cbn [snd vs_items vs_total].
      now rewrite linesOf_snoc_same, total_snoc.
    + apply firstSeen_NoDup.
    + apply existsb_exists in E. destruct E as (x & I & Q).
      apply String.eqb_eq in Q. now subst.
  - unfold define. rewrite map_app. cbn [map]. f_equal.
    + apply map_ext_in. intros v I. f_equal.
      symmetry. apply linesOf_snoc_other. apply String.eqb_neq. intros <-.
      assert (existsb (fun x => String.eqb x (vendorOf item))
                (firstSeen (map vendorOf rest)) = true); [|congruence].
      apply existsb_exists. exists (vendorOf item). split; [assumption|].
      apply String.eqb_refl.
    + unfold salesOf. rewrite linesOf_snoc_same.
      rewrite firstSeen_seen in E. rewrite (linesOf_unseen _ _ E).
      reflexivity.
Qed.

End GroupingFacts.

(** ** The payout split: C5, C6 *)

Section DictionaryFacts.
Variable V : Type.
Implicit Types (o : object V) (key : string).

Lemma own_keys key o :
  match own key o with Some _ => true | None => false end
  = existsb (fun k => String.eqb k key) (map fst o).
Proof.
  induction o as [|[k v] rest IH]; simpl; [reflexivity|].
  destruct (String.eqb k key); [reflexivity | exact IH].
Qed.

Lemma keys_alter f key o : map fst (alter f key o) = map fst o.
Proof.
  induction o as [|[k v] rest IH]; simpl; [reflexivity|].
  destruct (String.eqb k key); simpl; congruence.
Qed.

Lemma keys_define key v o : map fst (define key v o) = map fst o ++ [key].
Proof. unfold define. now rewrite map_app. Qed.

Lemma insert_by_index_In n (e : string * V) sorted x :
  In x (insert_by_index n e sorted) <-> x = (n, e) \/ In x sorted.
Proof.
  induction sorted as [|[m e'] rest IH]; simpl.
  - intuition.
  - destruct (n <? m)%N; simpl; [intuition|]. rewrite IH. intuition.
Qed.

Lemma index_entries_In n (e : string * V) o :
  In (n, e) (index_entries o) -> array_index (fst e) = Some n.
Proof.
  induction o as [|[k v] rest IH]; simpl; [contradiction|].
  destruct (array_index k) as [m|] eqn:E; [|exact IH].
  rewrite insert_by_index_In. intros [H|H]; [|now apply IH].
  injection H as -> ->. exact E.
Qed.

Lemma filterMap_app {A B} (f : A -> option B) xs ys :
  filterMap f (xs ++ ys) = filterMap f xs ++ filterMap f ys.
Proof.
  induction xs as [|x rest IH]; simpl; [reflexivity|].
  destruct (f x); simpl; now rewrite IH.
Qed.

Lemma filterMap_nil {A B} (f : A -> option B) xs :
  (forall x, In x xs -> f x = None) -> filterMap f xs = [].
Proof.
  induction xs as [|x rest IH]; simpl; intro H; [reflexivity|].
  rewrite (H x) by now left. apply IH. intros y I. apply H. now right.
Qed.

(** A callback that ignores array-index keys sees the entries in creation
    order. *)
Lemma filterMap_entries {B} (f : string * V -> option B) o :
  (forall e, array_index (fst e) <> None -> f e = None) ->
  filterMap f (Object_entries o) = filterMap f o.
Proof.
  intro H. unfold Object_entries. rewrite filterMap_app, filterMap_nil.
  - unfold named_entries. simpl.
    induction o as [|e rest IH]; simpl; [reflexivity|].
    destruct (array_index (fst e)) eqn:E; simpl.
    + rewrite (H e) by congruence. exact IH.
    + destruct (f e); now rewrite IH.
  - intros e I. apply in_map_iff in I. destruct I as ([n e'] & <- & I).
    apply index_entries_In in I. apply H. simpl. congruence.
Qed.

End DictionaryFacts.

Section RegistryFacts.
Context {N : JSNumber}.
Variable env : Env.

(** The ids of the registry. *)
Lemma registered_ids vendorId :
  registered env vendorId = true ->
  In vendorId ["VENDOR_001"; "VENDOR_002"; "VENDOR_003";
               "VENDOR_004"; "VENDOR_005"; "VENDOR_006"].
Proof.
  unfold registered, findVendor. intro H.
  destruct (find _ (vendors env)) as [v|] eqn:F; [|discriminate].
  apply find_some in F. destruct F as [I E].
  apply String.eqb_eq in E. subst vendorId.
  unfold vendors in I. simpl in I.
  repeat (destruct I as [<-|I]; [simpl; tauto|]). contradiction.
Qed.

Lemma registered_not_index vendorId :
  registered env vendorId = true -> array_index vendorId = None.
Proof.
  intro H. apply registered_ids in H. simpl in H.
  repeat (destruct H as [<-|H]; [reflexivity|]). contradiction.
Qed.

Lemma registered_not_inherited vendorId :
  registered env vendorId = true -> inherited vendorId = false.
Proof.
  intro H. apply registered_ids in H. simpl in H.
  repeat (destruct H as [<-|H]; [reflexivity|]). contradiction.
Qed.

End RegistryFacts.

Section SplitFacts.
Context {N : JSNumber}.
Variable env : Env.
Local Open Scope js_scope.
Implicit Types (item : CartItem) (cart : list CartItem) (vs : object VendorSales).

Lemma keys_groupPure vs item :
  map fst (groupPure vs item) = noteVendor (map fst vs) (vendorOf item).
Proof.
  unfold groupPure, noteVendor.
  pose proof (own_keys (vendorOf item) vs) as K.
  destruct (own (vendorOf item) vs); rewrite <- K.
  - apply keys_alter.
  - apply keys_define.
Qed.

Lemma keys_grouped cart vs :
  map fst (fold_left groupPure cart vs)
  = fold_left noteVendor (map vendorOf cart) (map fst vs).
Proof.
  revert vs. induction cart as [|item rest IH]; intro vs; simpl; [reflexivity|].
  now rewrite IH, keys_groupPure.
Qed.

Lemma own_in_keys key vs (s : VendorSales) : own key vs = Some s -> In key (map fst vs).
Proof.
  induction vs as [|[k v] rest IH]; simpl; [discriminate|].
  destruct (String.eqb_spec k key); [now left | intro H; right; now apply IH].
Qed.

Lemma groupItem_spec vs item :
  Forall (fun k => inherited k = false) (map fst vs) ->
  groupItem vs item =
  if inheritedVendor item then Throw pushOfUndefined else Return (groupPure vs item).
Proof.
  intro I. unfold groupItem, groupPure, inheritedVendor, vendorOf.
  destruct (own (vendor (product item)) vs) as [s|] eqn:O.
  - rewrite Forall_forall in I. now rewrite (I _ (own_in_keys _ _ O)).
  - now destruct (inherited (vendor (product item))).
Qed.

Lemma groupPure_keys_not_inherited vs item :
  Forall (fun k => inherited k = false) (map fst vs) ->
  inheritedVendor item = false ->
  Forall (fun k => inherited k = false) (map fst (groupPure vs item)).
Proof.
  intros I H. rewrite keys_groupPure. unfold noteVendor.
  destruct (existsb _ (map fst vs)); [assumption|].
  apply Forall_app. split; [assumption | now constructor].
Qed.

(** The first loop throws exactly when some line's vendor id names an
    inherited property; otherwise it groups the lines. *)
Lemma group_all cart vs :
  Forall (fun k => inherited k = false) (map fst vs) ->
  forEachM groupItem cart vs =
  if existsb inheritedVendor cart
  then Throw pushOfUndefined
  else Return (fold_left groupPure cart vs).
Proof.
  revert vs. induction cart as [|item rest IH]; intros vs I; simpl; [reflexivity|].
  rewrite groupItem_spec by assumption.
  destruct (inheritedVendor item) eqn:H; simpl; [reflexivity|].
  apply IH. now apply groupPure_keys_not_inherited.
Qed.

Lemma payoutOf_spec totalAmount totalPaystackFee acc (entry : string * VendorSales) :
  payoutOf env totalAmount totalPaystackFee acc entry =
  match payoutEntry env totalAmount totalPaystackFee entry with
  | Some p => (fst acc ++ [p], snd acc + platformFee p)
  | None => acc
  end.
Proof.
  destruct entry as [k s]. unfold payoutOf, payoutEntry. simpl fst. simpl snd.
  now destruct (findVendor env k).
Qed.

(** The second loop pushes the payouts of the registered vendors, in the
    order of the entries, and adds up their platform fees. *)
Lemma payouts_all totalAmount totalPaystackFee entries acc :
  fold_left (payoutOf env totalAmount totalPaystackFee) entries acc =
  (fst acc ++ filterMap (payoutEntry env totalAmount totalPaystackFee) entries,
   fold_left (fun sum p => sum + platformFee p)
             (filterMap (payoutEntry env totalAmount totalPaystackFee) entries)
             (snd acc)).
Proof.
  revert acc. induction entries as [|entry rest IH]; intros [ps rev].
  - simpl. now rewrite app_nil_r.
  - cbn [fold_left filterMap]. rewrite payoutOf_spec, IH.
    destruct (payoutEntry env totalAmount totalPaystackFee entry) as [p|].
    + cbn [fst snd fold_left]. now rewrite <- app_assoc.
    + reflexivity.
Qed.

Lemma payoutEntry_skips_index totalAmount totalPaystackFee (e : string * VendorSales) :
  array_index (fst e) <> None -> payoutEntry env totalAmount totalPaystackFee e = None.
Proof.
  intro H. unfold payoutEntry.
  destruct (findVendor env (fst e)) eqn:F; [|reflexivity].
  exfalso. apply H. apply (registered_not_index env).
  unfold registered. now rewrite F.
Qed.

(** [calculateOrderSplit], loop-free. *)
Lemma calculateOrderSplit_spec cart :
  calculateOrderSplit env cart =
  if existsb inheritedVendor cart
  then Throw pushOfUndefined
  else Return (splitOf env cart).
Proof.
  unfold calculateOrderSplit. rewrite group_all by constructor.
  destruct (existsb inheritedVendor cart); simpl; [reflexivity|].
  rewrite payouts_all. simpl.
  rewrite filterMap_entries by (intro; apply payoutEntry_skips_index).
  reflexivity.
Qed.

Lemma payout_vendorIds totalAmount totalPaystackFee vs :
  map vendorId (filterMap (payoutEntry env totalAmount totalPaystackFee) vs)
  = filter (registered env) (map fst vs).
Proof.
  induction vs as [|[k s] rest IH]; simpl; [reflexivity|].
  unfold payoutEntry at 1, registered at 1. simpl fst.
  destruct (findVendor env k); simpl; now rewrite IH.
Qed.

Lemma filterMap_map {A B C} (f : B -> option C) (g : A -> B) xs :
  filterMap f (map g xs) = filterMap (fun x => f (g x)) xs.
Proof.
  induction xs as [|x rest IH]; simpl; [reflexivity|].
  destruct (f (g x)); now rewrite IH.
Qed.

(** Every payout pushed is the vendor's sales less the two fees. *)
Lemma payouts_are_net totalAmount totalPaystackFee vs :
  Forall (fun p => platformFee p = totalSales p * decimal 10 2 /\
                   paystackFeeShare p = totalSales p / totalAmount * totalPaystackFee /\
                   vendorPayout p = totalSales p - platformFee p - paystackFeeShare p)
         (filterMap (payoutEntry env totalAmount totalPaystackFee) vs).
Proof.
  induction vs as [|[k s] rest IH]; cbn [filterMap]; [constructor|].
  unfold payoutEntry at 1. cbn [fst snd].
  destruct (findVendor env k) as [v|]; [|exact IH].
  constructor; [|exact IH]. repeat split.
Qed.

(** C5, as the code has it.  [calculateOrderSplit] validates nothing and
    has no InvalidCart outcome.  For the empty cart it returns the split
    with total 0, revenue 0, fee [0 * 0.015 + 100] and no payouts.  For
    any cart, whatever its total, it returns a split whose [totalAmount]
    is the sum of the lines, unless a line's vendor id names a property
    inherited from [Object.prototype], in which case the grouping loop
    throws a TypeError. *)
Theorem calculateOrderSplit_has_no_InvalidCart cart :
  calculateOrderSplit env [] =
    Return {| totalAmount := of_Z 0;
              platformRevenue := of_Z 0;
              totalPaystackFee := of_Z 0 * decimal 15 3 + of_Z 100;
              vendorPayouts := [] |} /\
  match calculateOrderSplit env cart with
  | Return s =>
      existsb inheritedVendor cart = false /\
      totalAmount s = cartTotal cart /\
      totalPaystackFee s = cartTotal cart * decimal 15 3 + of_Z 100
  | Throw e =>
      existsb inheritedVendor cart = true /\ e = pushOfUndefined
  end.
Proof.
  split; [reflexivity|].
  rewrite calculateOrderSplit_spec.
  destruct (existsb inheritedVendor cart); simpl; auto.
Qed.

(** C6, as the code has it.  A vendor id that is absent from the registry
    does not abort the calculation.  For every cart in which no vendor id
    names an inherited property, [calculateOrderSplit] returns a split
    whose payouts are those of the registered vendors of the cart, in the
    order in which they are first seen, each computed from the vendor's
    own lines, while [totalAmount] (and with it the Paystack fee) is
    taken over all lines, those of unregistered vendors included;
    [platformRevenue] adds up the platform fees of the payouts listed. *)
Theorem unregistered_vendor_is_skipped cart :
  existsb inheritedVendor cart = false ->
  exists s,
    calculateOrderSplit env cart = Return s /\
    totalAmount s = cartTotal cart /\
    totalPaystackFee s = cartTotal cart * decimal 15 3 + of_Z 100 /\
    map vendorId (vendorPayouts s)
      = filter (registered env) (firstSeen (map vendorOf cart)) /\
    vendorPayouts s
      = filterMap (fun k => payoutEntry env (totalAmount s) (totalPaystackFee s)
                              (salesOf k (linesOf k cart)))
                  (firstSeen (map vendorOf cart)) /\
    platformRevenue s = total platformFee (vendorPayouts s).
Proof.
  intro H. exists (splitOf env cart).
  rewrite calculateOrderSplit_spec, H. repeat split.
  - unfold splitOf. simpl. now rewrite payout_vendorIds, keys_grouped.
  - unfold splitOf. cbn [vendorPayouts totalAmount totalPaystackFee].
    now rewrite grouped_spec, filterMap_map.
Qed.

End SplitFacts.

Section RegisteredCarts.
Context {N : JSNumber}.
Variable env : Env.
Implicit Types (item : CartItem) (cart : list CartItem).

Lemma noteVendor_all (P : string -> Prop) ids seen :
  Forall P seen -> Forall P ids -> Forall P (fold_left noteVendor ids seen).
Proof.
  revert seen. induction ids as [|k rest IH]; intros seen S I; simpl; [assumption|].
  inversion I; subst. apply IH; [|assumption].
  unfold noteVendor. destruct (existsb _ seen); [assumption|].
  apply Forall_app. split; [assumption | now constructor].
Qed.

Lemma allRegistered_keys cart :
  allRegistered env cart = true ->
  Forall (fun k => registered env k = true) (map fst (fold_left groupPure cart [])).
Proof.
  intro H. rewrite keys_grouped. apply noteVendor_all; [constructor|].
  unfold allRegistered in H. rewrite forallb_forall in H.
  apply Forall_forall. intros k I. apply in_map_iff in I.
  destruct I as (item & <- & I). now apply H.
Qed.

Lemma allRegistered_not_inherited cart :
  allRegistered env cart = true -> existsb inheritedVendor cart = false.
Proof.
  unfold allRegistered. induction cart as [|item rest IH]; simpl; [reflexivity|].
  intro H. apply andb_prop in H. destruct H as [R H].
  unfold inheritedVendor at 1. rewrite (registered_not_inherited env _ R). simpl.
  now apply IH.
Qed.

(** The payouts of a split all have registered vendors, so the split
    configuration is built without a throw; its shares are the payouts in
    kobo, each rounded on its own, then the platform's share. *)
Lemma subaccounts_of_registered (ps : list PayoutCalculation) :
  Forall (fun p => registered env (vendorId p) = true) ps ->
  exists subaccounts,
    mapM (vendorSubaccount env) ps = Return subaccounts /\
    map share subaccounts
    = map (fun p => Math_round (mul (vendorPayout p) (of_Z 100))) ps.
Proof.
  induction ps as [|p rest IH]; intro R.
  - exists []. split; reflexivity.
  - inversion R as [|? ? Rp Rrest]; subst.
    destruct (IH Rrest) as (subs & M & S).
    unfold registered in Rp.
    destruct (findVendor env (vendorId p)) as [v|] eqn:F; [|discriminate].
    eexists. split.
    + cbn [mapM]. unfold vendorSubaccount at 1. rewrite F. cbn [bind].
      rewrite M. cbn [bind]. reflexivity.
    + cbn [map share]. now rewrite S.
Qed.

Lemma payouts_registered totalAmount totalPaystackFee (vs : object VendorSales) :
  Forall (fun p => registered env (vendorId p) = true)
         (filterMap (payoutEntry env totalAmount totalPaystackFee) vs).
Proof.
  induction vs as [|[k s] rest IH]; cbn [filterMap]; [constructor|].
  unfold payoutEntry at 1. cbn [fst snd].
  destruct (findVendor env k) as [v|] eqn:F; [|exact IH].
  constructor; [|exact IH]. cbn [vendorId]. unfold registered. now rewrite F.
Qed.

End RegisteredCarts.

(** ** What the split keeps, in any arithmetic: C1, C4 *)

Section LinesOfVendors.
Context {N : JSNumber}.
Implicit Types (item : CartItem) (cart : list CartItem) (keys : list string).








End LinesOfVendors.

Section ConservationFacts.
Context {N : JSNumber}.
Variable env : Env.
Local Open Scope js_scope.
Implicit Types (item : CartItem) (cart : list CartItem).




(** The vendor entries of the split configuration, for any list of
    payouts: the first payout of an unknown vendor throws. *)
Lemma vendorSubaccounts_total (ps : list PayoutCalculation) :
  mapM (vendorSubaccount env) ps =
  match find (fun p => negb (registered env (vendorId p))) ps with
  | Some p => Throw (Error ("Vendor not found: " ++ vendorId p)%string)
  | None => Return (map (subaccountOf env) ps)
  end.
Proof.
  induction ps as [|p rest IH]; [reflexivity|].
  cbn [mapM find map]. rewrite IH.
  unfold vendorSubaccount, subaccountOf, subaccountCode, kobo, registered.
  destruct (findVendor env (vendorId p)) as [v|]; cbn [negb bind option_map]; [|reflexivity].
  destruct (find _ rest); reflexivity.
Qed.

(** C4, as the code has it.  For every [OrderSplit],
    [generateSubaccountsForSplit] throws 'Vendor not found' for the first
    payout whose vendor is not in the registry, which cannot happen for
    a split that [calculateOrderSplit] returned, and otherwise returns
    one share per payout, [Math.round(vendorPayout * 100)], with the
    registry's subaccount code, in payout order, followed by the
    platform's share,
    [Math.round((platformRevenue + totalPaystackFee) * 100)].  Each
    share is rounded on its own and the function does not read
    [totalAmount]: no share takes up what the rounding of the others
    leaves, and nothing makes the shares add up to the total in kobo. *)
Theorem shares_are_rounded_one_by_one (s : OrderSplit) :
  match generateSubaccountsForSplit env s with
  | Return subaccounts =>
      unknownPayout env s = None /\
      map share subaccounts
      = map (fun p => Math_round (vendorPayout p * of_Z 100)) (vendorPayouts s)
        ++ [Math_round ((platformRevenue s + totalPaystackFee s) * of_Z 100)] /\
      map subaccount subaccounts
      = map (fun p => subaccountCode env (vendorId p)) (vendorPayouts s)
        ++ [env "PAYSTACK_GRUNDY_SUBACCOUNT"]
  | Throw e =>
      exists p, unknownPayout env s = Some p /\
                e = Error ("Vendor not found: " ++ vendorId p)%string
  end /\
  (forall amount,
     generateSubaccountsForSplit env (withTotal amount s)
     = generateSubaccountsForSplit env s) /\
  (forall cart, calculateOrderSplit env cart = Return s -> unknownPayout env s = None).
Proof.
  split; [|split].
  - unfold generateSubaccountsForSplit, unknownPayout.
    rewrite vendorSubaccounts_total.
    destruct (find _ (vendorPayouts s)) as [p|]; cbn [bind].
    + exists p. split; reflexivity.
    + split; [reflexivity|]. rewrite !map_app, !map_map. split; reflexivity.
  - intro amount. reflexivity.
  - intros cart C. unfold unknownPayout.
    rewrite calculateOrderSplit_spec in C.
    destruct (existsb inheritedVendor cart); [discriminate|].
    injection C as <-. apply find_none_iff. intros p I.
    pose proof (payouts_registered env (cartTotal cart)
                  (cartTotal cart * decimal 15 3 + of_Z 100)
                  (fold_left groupPure cart [])) as G.
    rewrite Forall_forall in G. unfold splitOf in I. cbn [vendorPayouts] in I.
    now rewrite (G p I).
Qed.

End ConservationFacts.

(** ** What the doubles round away: the sums over the rationals *)

Section ExactFacts.
Variable env : Env.
Local Open Scope Qc_scope.
#[local] Existing Instance exact.

Ltac exact_ops :=
  cbn [number of_Z add sub mul div num_eqb num_leb Math_abs Math_round exact] in *.

Lemma total_sumQc {A} (f : A -> Qc) (xs : list A) :
  total (N := exact) f xs = sumQc (map f xs).
Proof.
  unfold total. exact_ops.
  assert (G : forall a, fold_left (fun sum x => sum + f x) xs a = a + sumQc (map f xs)).
  { induction xs as [|x rest IH]; intro a; simpl.
    - ring.
    - rewrite IH. ring. }
  rewrite G. unfold Exact.of_Z. change (Q2Qc (inject_Z 0)) with (Q2Qc 0). ring.
Qed.

Lemma sumQc_cons x xs : sumQc (x :: xs) = x + sumQc xs.
Proof. reflexivity. Qed.

Lemma sumQc_nil : sumQc [] = Q2Qc 0.
Proof. reflexivity. Qed.

Lemma sumQc_app xs ys : sumQc (xs ++ ys) = sumQc xs + sumQc ys.
Proof. induction xs as [|x rest IH]; simpl; [ring | rewrite IH; ring]. Qed.

Lemma totals_alter (delta : Qc) (record : VendorSales (N := exact) -> VendorSales (N := exact))
    key vs s :
  (forall s, vs_total (record s) = vs_total s + delta) ->
  own key vs = Some s ->
  sumQc (totals (alter record key vs)) = sumQc (totals vs) + delta.
Proof.
  intros R. induction vs as [|[k v] rest IH]; simpl; [discriminate|].
  destruct (String.eqb k key); simpl; intro O.
  - rewrite R. ring.
  - rewrite (IH O). ring.
Qed.

Lemma totals_groupPure vs item :
  sumQc (totals (groupPure vs item)) = sumQc (totals vs) + lineTotal (N := exact) item.
Proof.
  unfold groupPure.
  destruct (own (vendorOf item) vs) as [s|] eqn:O.
  - apply totals_alter with (s := s); [|exact O]. intro; reflexivity.
  - unfold define, totals. rewrite map_app, sumQc_app. simpl. exact_ops.
    unfold Exact.of_Z. change (Q2Qc (inject_Z 0)) with (Q2Qc 0). ring.
Qed.

Lemma totals_grouped cart vs :
  sumQc (totals (fold_left groupPure cart vs))
  = sumQc (totals vs) + sumQc (map (lineTotal (N := exact)) cart).
Proof.
  revert vs. induction cart as [|item rest IH]; intro vs; cbn [fold_left map].
  - change (sumQc []) with (Q2Qc 0). ring.
  - rewrite IH, totals_groupPure. exact_ops. rewrite sumQc_cons. ring.
Qed.

Lemma cartTotal_sumQc cart :
  cartTotal (N := exact) cart = sumQc (map (lineTotal (N := exact)) cart).
Proof. apply (total_sumQc (lineTotal (N := exact))). Qed.

Lemma payoutEntry_registered (T F : Qc) (e : string * VendorSales (N := exact)) :
  registered (N := exact) env (fst e) = true ->
  exists p,
    payoutEntry env T F e = Some p /\
    vendorId p = fst e /\
    totalSales p = vs_total (snd e) /\
    platformFee p = vs_total (snd e) * decimal (N := exact) 10 2 /\
    paystackFeeShare p = vs_total (snd e) / T * F /\
    vendorPayout p = vs_total (snd e) - vs_total (snd e) * decimal (N := exact) 10 2
                     - vs_total (snd e) / T * F.
Proof.
  unfold registered, payoutEntry. intro R.
  destruct (findVendor env (fst e)) as [v|]; [|discriminate].
  eexists. split; [reflexivity|]. repeat split.
Qed.

(** The sums over the payouts of a dictionary whose keys are all
    registered. *)
Lemma payout_sums (T F : Qc) vs :
  Forall (fun k => registered (N := exact) env k = true) (map fst vs) ->
  let ps := filterMap (payoutEntry env T F) vs in
  let c := decimal (N := exact) 10 2 in
  List.length ps = List.length vs /\
  sumQc (map totalSales ps) = sumQc (totals vs) /\
  sumQc (map platformFee ps) = sumQc (totals vs) * c /\
  sumQc (map paystackFeeShare ps) = sumQc (totals vs) / T * F /\
  sumQc (map vendorPayout ps)
    = sumQc (totals vs) - sumQc (totals vs) * c - sumQc (totals vs) / T * F.
Proof.
  cbv zeta. intro R.
  induction vs as [|e rest IH].
  - cbn [filterMap map totals]. change (sumQc []) with (Q2Qc 0).
    repeat split; unfold Qcdiv; ring.
  - cbn [map] in R. inversion R as [|? ? Rk Rrest]; subst.
    destruct (IH Rrest) as (L & S1 & S2 & S3 & S4).
    destruct (payoutEntry_registered T F e Rk) as (p & E & _ & P1 & P2 & P3 & P4).
    unfold totals in *. cbn [filterMap map List.length]. rewrite E.
    cbn [map List.length]. exact_ops. rewrite !sumQc_cons.
    rewrite L, S1, S2, S3, S4, P1, P2, P3, P4.
    repeat split; unfold Qcdiv; ring.
Qed.

(** What [splitOf] adds up to, for a cart of registered vendors. *)
Lemma splitOf_sums cart :
  allRegistered (N := exact) env cart = true ->
  let s := splitOf (N := exact) env cart in
  let T := cartTotal (N := exact) cart in
  let c := decimal (N := exact) 10 2 in
  totalAmount s = T /\
  sumQc (map totalSales (vendorPayouts s)) = T /\
  platformRevenue s = T * c /\
  sumQc (map paystackFeeShare (vendorPayouts s)) = T / T * totalPaystackFee s /\
  sumQc (map vendorPayout (vendorPayouts s)) = T - T * c - T / T * totalPaystackFee s.
Proof.
  intro R. cbv zeta.
  pose proof (allRegistered_keys env cart R) as K.
  pose proof (totals_grouped cart []) as G.
  change (sumQc (totals [])) with (Q2Qc 0) in G.
  rewrite <- cartTotal_sumQc in G.
  assert (G' : sumQc (totals (fold_left groupPure cart [])) = cartTotal (N := exact) cart)
    by (rewrite G; ring).
  unfold splitOf. cbn [totalAmount platformRevenue totalPaystackFee vendorPayouts].
  destruct (payout_sums (cartTotal (N := exact) cart)
              (add (mul (cartTotal (N := exact) cart) (decimal 15 3)) (of_Z 100))
              (fold_left groupPure cart []) K)
    as (_ & S1 & S2 & S3 & S4).
  rewrite G' in S1, S2, S3, S4.
  repeat split; try assumption.
  eapply eq_trans; [apply total_sumQc | exact S2].
Qed.

(** The formulas of the split, read over the rationals.  For every cart
    whose lines are all sold by registered vendors and whose total is not
    zero, the sales of the payouts add up to [totalAmount], the fee
    shares add up to [totalPaystackFee], and the payouts, the platform
    revenue and the Paystack fee add up to [totalAmount], with no
    residue.  The running program evaluates the same formulas in
    doubles, where each operation rounds: what it loses of these
    equations is rounding, which nothing in the code bounds or makes
    up for. *)
Lemma rational_split_adds_up cart :
  allRegistered (N := exact) env cart = true ->
  cartTotal (N := exact) cart <> Q2Qc 0 ->
  exists s,
    calculateOrderSplit (N := exact) env cart = Return s /\
    totalAmount s = cartTotal (N := exact) cart /\
    total (N := exact) totalSales (vendorPayouts s) = totalAmount s /\
    total (N := exact) paystackFeeShare (vendorPayouts s) = totalPaystackFee s /\
    total (N := exact) vendorPayout (vendorPayouts s)
      + platformRevenue s + totalPaystackFee s = totalAmount s /\
    Forall (fun p => vendorPayout p = totalSales p - platformFee p - paystackFeeShare p)
           (vendorPayouts s) /\
    SplitConserved s.
Proof.
  intros R Z. exists (splitOf env cart).
  rewrite calculateOrderSplit_spec, (allRegistered_not_inherited env cart R).
  destruct (splitOf_sums cart R) as (S0 & S1 & S2 & S3 & S4).
  set (s := splitOf env cart) in *.
  set (T := cartTotal (N := exact) cart) in *.
  assert (E1 : total (N := exact) totalSales (vendorPayouts s) = totalAmount s)
    by (rewrite total_sumQc; exact_ops; now rewrite S1, S0).
  assert (E2 : total (N := exact) vendorPayout (vendorPayouts s)
               + platformRevenue s + totalPaystackFee s = totalAmount s).
  { rewrite total_sumQc. exact_ops. rewrite S4, S2, S0. field. exact Z. }
  repeat split; try assumption.
  - rewrite total_sumQc. exact_ops. rewrite S3. field. exact Z.
  - unfold s, splitOf. cbn [vendorPayouts].
    eapply Forall_impl; [|apply payouts_are_net]. intros p (_ & _ & P). exact P.
  - rewrite E1. exact_ops. unfold Exact.eqb.
    now destruct (Qc_eq_dec (totalAmount s) (totalAmount s)).
  - unfold residue. exact_ops. rewrite E2.
    replace (totalAmount s - totalAmount s) with (Q2Qc 0) by ring.
    reflexivity.
Qed.

(** The same sums, packaged for the split configuration. *)
Lemma split_adds_up cart :
  allRegistered (N := exact) env cart = true ->
  cartTotal (N := exact) cart <> Q2Qc 0 ->
  exists s,
    calculateOrderSplit (N := exact) env cart = Return s /\
    total (N := exact) vendorPayout (vendorPayouts s)
      + platformRevenue s + totalPaystackFee s = totalAmount s.
Proof.
  intros R Z. exists (splitOf env cart).
  rewrite calculateOrderSplit_spec, (allRegistered_not_inherited env cart R).
  destruct (splitOf_sums cart R) as (S0 & S1 & S2 & S3 & S4).
  split; [reflexivity|].
  rewrite total_sumQc. exact_ops. rewrite S4, S2, S0. field. exact Z.
Qed.

Lemma calculateOrderSplit_spec_payouts cart (s : OrderSplit (N := exact)) :
  calculateOrderSplit env cart = Return s ->
  Forall (fun p => registered env (vendorId p) = true) (vendorPayouts s).
Proof.
  rewrite calculateOrderSplit_spec.
  destruct (existsb inheritedVendor cart); [discriminate|].
  intro H. injection H as <-. apply payouts_registered.
Qed.

(** *** Rounding *)

Lemma round_close (x : Qc) : Qcabs (Exact.round x - x) <= Q2Qc (1 # 2).
Proof.
  apply Qcabs_Qcle_condition.
  unfold Exact.round, Exact.of_Z.
  pose proof (Qfloor_le (x + Q2Qc (1 # 2))%Qc) as L.
  pose proof (Qlt_floor (x + Q2Qc (1 # 2))%Qc) as U.
  set (n := Qfloor (x + Q2Qc (1 # 2))%Qc) in *. clearbody n.
  unfold Qcle, Qcminus, Qcplus, Qcopp, Q2Qc in *. cbn [this] in *.
  rewrite ?Qred_correct in *.
  rewrite inject_Z_plus in U. change (inject_Z 1) with 1%Q in U.
  split; lra.
Qed.

Lemma halves_S n : halves (S n) = Q2Qc (1 # 2) + halves n.
Proof.
  unfold halves. apply Qc_is_canon.
  unfold Qcplus, Q2Qc. cbn [this]. rewrite !Qred_correct.
  rewrite Nat2Z.inj_succ. unfold Qeq, Qplus. cbn [Qnum Qden]. lia.
Qed.

(** Rounding [n] numbers one by one moves their sum by at most [n]
    halves. *)
Lemma round_sum_close xs :
  Qcabs (sumQc (map Exact.round xs) - sumQc xs) <= halves (List.length xs).
Proof.
  induction xs as [|x rest IH]; cbn [map List.length].
  - change (sumQc []) with (Q2Qc 0).
    replace (Q2Qc 0 - Q2Qc 0) with (Q2Qc 0) by ring. now vm_compute.
  - rewrite !sumQc_cons, halves_S.
    replace (Exact.round x + sumQc (map Exact.round rest) - (x + sumQc rest))
      with ((Exact.round x - x) + (sumQc (map Exact.round rest) - sumQc rest)) by ring.
    eapply Qcle_trans; [apply Qcabs_triangle|].
    apply Qcplus_le_compat; [apply round_close | exact IH].
Qed.

(** The shares of the split configuration, read over the rationals.
    For every cart whose lines are all sold by registered vendors and
    whose total is not zero, the amounts before rounding add up to the
    total in kobo, and rounding them one by one moves their sum by at
    most half a kobo per share.  In doubles the amounts before rounding
    are themselves rounded, and a share can differ from the one computed
    here. *)
Lemma rational_shares_are_close cart :
  allRegistered (N := exact) env cart = true ->
  cartTotal (N := exact) cart <> Q2Qc 0 ->
  exists s subaccounts,
    calculateOrderSplit (N := exact) env cart = Return s /\
    generateSubaccountsForSplit env s = Return subaccounts /\
    map share subaccounts
    = map (fun p => Math_round (vendorPayout p * Exact.of_Z 100)) (vendorPayouts s)
      ++ [Math_round ((platformRevenue s + totalPaystackFee s) * Exact.of_Z 100)] /\
    Qcabs (total (N := exact) share subaccounts - totalAmount s * Exact.of_Z 100)
    <= halves (List.length (vendorPayouts s) + 1).
Proof.
  intros R Z.
  destruct (split_adds_up cart R Z) as (s & C & E).
  destruct (subaccounts_of_registered env (calculateOrderSplit_spec_payouts cart C))
    as (subs & M & S).
  set (platform :=
         {| subaccount := env "PAYSTACK_GRUNDY_SUBACCOUNT";
            share := @Math_round exact
                       (mul (add (platformRevenue s) (totalPaystackFee s)) (of_Z 100)) |}).
  set (xs := map (fun p : PayoutCalculation (N := exact) =>
                    vendorPayout p * Exact.of_Z 100) (vendorPayouts s)
             ++ [(platformRevenue s + totalPaystackFee s) * Exact.of_Z 100]).
  assert (Sh : map share (subs ++ [platform]) = map Exact.round xs).
  { unfold xs. rewrite !map_app, S, map_map. reflexivity. }
  assert (X : sumQc xs = totalAmount s * Exact.of_Z 100).
  { unfold xs. rewrite sumQc_app. rewrite <- E.
    assert (D : forall ps : list (PayoutCalculation (N := exact)),
              sumQc (map (fun p => vendorPayout p * Exact.of_Z 100) ps)
              = sumQc (map vendorPayout ps) * Exact.of_Z 100).
    { induction ps as [|p rest IH]; cbn [map].
      - change (sumQc []) with (Q2Qc 0). ring.
      - exact_ops. rewrite !sumQc_cons, IH. ring. }
    rewrite D, total_sumQc. exact_ops. rewrite sumQc_cons.
    change (sumQc []) with (Q2Qc 0). ring. }
  exists s, (subs ++ [platform]). split; [exact C|]. split.
  { unfold generateSubaccountsForSplit. rewrite M. reflexivity. }
  split.
  { rewrite Sh. unfold xs. rewrite map_app, map_map. reflexivity. }
  rewrite total_sumQc. exact_ops. rewrite Sh, <- X.
  replace (List.length (vendorPayouts s) + 1)%nat with (List.length xs).
  - apply round_sum_close.
  - unfold xs. rewrite length_app, length_map. reflexivity.
Qed.

End ExactFacts.

(** ** Concrete runs *)

Section Runs.
Import Sample.
#[local] Existing Instance binary64.
Set Warnings "-inexact-float".
Local Open Scope js_scope.

(** The literals of the source, as doubles. *)
Example literals_in_doubles :
  decimal (N := binary64) 15 3 = 0.015%float /\
  decimal (N := binary64) 10 2 = 0.10%float /\
  of_Z (JSNumber := binary64) 100 = 100%float.
Proof. vm_compute. repeat split. Qed.

(** [Math.round] on doubles: ties go up, and a negative argument that
    rounds to zero gives -0. *)
Example Math_round_in_doubles :
  map Binary64.round [2.5; -2.5; 0.49999999999999994; -0.2; 209112.32876712328; nan]%float
  = [3; -2; 0; -0; 209112; nan]%float.
Proof. vm_compute. reflexivity. Qed.

(** The spec's two-vendor scenario, as the program computes it in
    doubles: total 4800, fee 172, and for each vendor sales 2400, platform
    fee 240, fee share 86, payout 2074. *)
Example two_vendor_scenario :
  returned (calculateOrderSplit (N := binary64) noEnv twoVendorCart)
    (fun s =>
       totalAmount s = 4800%float /\
       platformRevenue s = 480%float /\
       totalPaystackFee s = 172%float /\
       map (fun p => (vendorId p, totalSales p, platformFee p,
                      paystackFeeShare p, vendorPayout p)) (vendorPayouts s)
       = [("VENDOR_001", 2400, 240, 86, 2074);
          ("VENDOR_002", 2400, 240, 86, 2074)]%float).
Proof. vm_compute. repeat split. Qed.

(** The same scenario and the dashboard's sample cart satisfy the
    conservation property in doubles; the fee shares of the sample cart
    add up to 209.49999999999997, the fee being 209.5. *)
Example sample_carts_in_doubles :
  returned (calculateOrderSplit (N := binary64) noEnv twoVendorCart)
    (fun s => SplitConserved s /\ residue s = 0%float) /\
  returned (calculateOrderSplit (N := binary64) noEnv dashboardCart)
    (fun s => SplitConserved s /\ residue s = 0%float /\
              totalPaystackFee s = 209.5%float /\
              total paystackFeeShare (vendorPayouts s) = 209.49999999999997%float).
Proof. vm_compute. repeat split. Qed.

(** Three apples, two carrots and one chicken breast, in doubles: the
    sales add up to the total, 7700, and the payouts, the revenue and
    the fee to 7699.999999999999, some 9 * 10^-13 less. *)
Example ordinary_cart_in_doubles :
  returned (calculateOrderSplit (N := binary64) noEnv
              [line freshApples 3; line carrots 2; line chickenBreast 1])
    (fun s =>
       totalAmount s = 7700%float /\
       total totalSales (vendorPayouts s) = 7700%float /\
       total vendorPayout (vendorPayouts s) + platformRevenue s + totalPaystackFee s
         = 7699.999999999999%float /\
       residue s = (-9.094947017729282e-13)%float /\
       SplitConserved s).
Proof. vm_compute. repeat split. Qed.


(** C4 fails as stated.  For the dashboard's sample cart (total 7300) the
    four shares are 209112, 209112, 217825 and 93950 kobo: they add up to
    729999, one kobo short of 730000, and the platform's share (93950) is
    exactly its own amount, 939.50, in kobo. *)
Lemma shares_fall_short_on_sample_cart :
  returned (calculateOrderSplit (N := binary64) noEnv dashboardCart)
    (fun s =>
       returned (generateSubaccountsForSplit noEnv s)
         (fun subaccounts =>
            map share subaccounts = [209112; 209112; 217825; 93950]%float /\
            total share subaccounts = 729999%float /\
            totalAmount s * of_Z 100 = 730000%float /\
            ~ SharesConserved s subaccounts)) /\
  returned (calculateOrderSplit (N := exact) noEnv dashboardCart)
    (fun s =>
       returned (generateSubaccountsForSplit noEnv s)
         (fun subaccounts =>
            num_eqb (total share subaccounts) (of_Z 729999) = true /\
            num_eqb (totalAmount s * of_Z 100) (of_Z 730000) = true /\
            ~ SharesConserved s subaccounts)).
Proof. vm_compute. repeat split; discriminate. Qed.

(** C5 fails as stated.  The empty cart is answered with a split, not
    with an error, and so is a cart whose total is zero: in doubles its
    single payout has fee share and payout NaN. *)
Lemma empty_and_zero_total_carts_return_a_split :
  returned (calculateOrderSplit (N := binary64) noEnv [])
    (fun s =>
       totalAmount s = 0%float /\
       platformRevenue s = 0%float /\
       totalPaystackFee s = 100%float /\
       List.length (vendorPayouts s) = 0%nat) /\
  returned (calculateOrderSplit (N := binary64) noEnv zeroTotalCart)
    (fun s =>
       totalAmount s = 0%float /\
       totalPaystackFee s = 100%float /\
       map (fun p => (vendorId p, totalSales p, paystackFeeShare p, vendorPayout p))
           (vendorPayouts s)
       = [("VENDOR_001", 0%float, nan, nan)]) /\
  returned (calculateOrderSplit (N := exact) noEnv [])
    (fun s => num_eqb (totalPaystackFee s) (of_Z 100) = true /\
              List.length (vendorPayouts s) = 0%nat).
Proof. vm_compute. repeat split. Qed.

(** C6 fails as stated.  A cart with a line of VENDOR_999, which the
    registry does not know, is answered with a split: its total (1700)
    and its fee (125.5) count that line, and its only payout is the one
    of VENDOR_001, for sales of 1200. *)
Lemma stray_vendor_yields_partial_split :
  registered (N := binary64) noEnv "VENDOR_999" = false /\
  returned (calculateOrderSplit (N := binary64) noEnv strayCart)
    (fun s =>
       totalAmount s = 1700%float /\
       totalPaystackFee s = 125.5%float /\
       platformRevenue s = 120%float /\
       map (fun p => (vendorId p, totalSales p)) (vendorPayouts s)
       = [("VENDOR_001", 1200%float)]).
Proof. vm_compute. repeat split. Qed.

(** C2 fails as stated.  GRUNDY_1 was paid at 22:15:01; the same
    notification applied again at 22:20:00, directly or through the
    webhook handler, leaves the status and the reference as they were and
    moves [paidAt] to 22:20:00. *)
Lemma second_payment_moves_paidAt :
  let stored := getOrderByReference "GRUNDY_1" (paidOnce (N := binary64)) in
  let again :=
    getOrderByReference "GRUNDY_1"
      (updateOrderPaymentStatus "2023-11-14T22:20:00.000Z" "GRUNDY_1" paid
         (Some notification) paidOnce) in
  let redelivered :=
    getOrderByReference "GRUNDY_1"
      (fst (handleChargeSuccess noEnv "2023-11-14T22:20:00.000Z" notification paidOnce)) in
  option_map paymentStatus stored = Some paid /\
  option_map paymentReference stored = Some (Some "PSK_A") /\
  option_map paidAt stored = Some (Some "2023-11-14T22:15:01.000Z") /\
  option_map paymentStatus again = Some paid /\
  option_map paymentReference again = Some (Some "PSK_A") /\
  option_map paidAt again = Some (Some "2023-11-14T22:20:00.000Z") /\
  option_map paidAt redelivered = Some (Some "2023-11-14T22:20:00.000Z") /\
  option_map paidAt again <> option_map paidAt stored.
Proof. vm_compute. repeat split. discriminate. Qed.

(** C3 fails as stated.  A delivered order is moved back to 'pending',
    and a failed order is moved to 'paid', by [updateOrderPaymentStatus];
    a failed order is moved to 'delivered' by [completeOrderDelivery]. *)
Lemma terminal_statuses_are_left :
  let status (orders : Orders (N := binary64)) :=
    option_map paymentStatus (getOrderByReference "GRUNDY_1" orders) in
  let delivered1 := completeOrderDelivery "2023-11-15T09:00:00.000Z" "GRUNDY_1" paidOnce in
  let failed1 :=
    updateOrderPaymentStatus "2023-11-14T22:16:00.000Z" "GRUNDY_1" failed None
      [placed "GRUNDY_1"] in
  status delivered1 = Some delivered /\
  status (updateOrderPaymentStatus "2023-11-15T10:00:00.000Z" "GRUNDY_1" pending None
            delivered1) = Some pending /\
  status failed1 = Some failed /\
  status (updateOrderPaymentStatus "2023-11-15T10:00:00.000Z" "GRUNDY_1" paid
            (Some notification) failed1) = Some paid /\
  status (completeOrderDelivery "2023-11-15T10:00:00.000Z" "GRUNDY_1" failed1)
  = Some delivered.
Proof. vm_compute. repeat split. Qed.

(** C7 fails as stated.  GRUNDY_1 carries the reference PSK_A; a later
    update whose payload carries PSK_B stores PSK_B. *)
Lemma stored_reference_is_replaced :
  let stored := getOrderByReference "GRUNDY_1" (paidOnce (N := binary64)) in
  let updated :=
    getOrderByReference "GRUNDY_1"
      (updateOrderPaymentStatus "2023-11-14T22:20:00.000Z" "GRUNDY_1" paid
         (Some (charge (Some "GRUNDY_1") (Some "PSK_B"))) paidOnce) in
  option_map paymentReference stored = Some (Some "PSK_A") /\
  option_map paymentReference updated = Some (Some "PSK_B").
Proof. vm_compute. split; reflexivity. Qed.

(** C9 fails as stated.  An order that is still 'pending', and one that
    is 'failed', are marked 'delivered' and stamped by
    [completeOrderDelivery]. *)
Lemma unpaid_order_is_delivered :
  let fresh : Orders (N := binary64) := [placed "GRUNDY_1"] in
  let failed1 :=
    updateOrderPaymentStatus "2023-11-14T22:16:00.000Z" "GRUNDY_1" failed None fresh in
  let completed orders :=
    getOrderByReference "GRUNDY_1"
      (completeOrderDelivery "2023-11-15T09:00:00.000Z" "GRUNDY_1" orders) in
  option_map paymentStatus (getOrderByReference "GRUNDY_1" fresh) = Some pending /\
  option_map paymentStatus (completed fresh) = Some delivered /\
  option_map deliveredAt (completed fresh) = Some (Some "2023-11-15T09:00:00.000Z") /\
  option_map paymentStatus (getOrderByReference "GRUNDY_1" failed1) = Some failed /\
  option_map paymentStatus (completed failed1) = Some delivered.
Proof. vm_compute. repeat split. Qed.

(** C8: the input on which the program departs from it.  Two unpaid
    orders of one customer for the same amount are stored, neither with
    a [paymentReference].  A charge notification with no order reference
    in its metadata and no gateway reference is resolved by the second
    lookup, since [undefined === undefined]: the older order, GRUNDY_1,
    is marked paid. *)
Lemma unreferenced_charge_marks_oldest_unpaid_order :
  let event : PaymentData (N := binary64) := charge None None in
  let result := handleChargeSuccess noEnv "2023-11-14T22:20:00.000Z" event twoAlike in
  map paymentReference twoAlike = [None; None] /\
  List.length (filter (byEmailAndAmount event) twoAlike) = 2%nat /\
  option_map fst (resolveOrder event twoAlike) = Some "GRUNDY_1" /\
  map paymentStatus (fst result) = [paid; pending] /\
  map paidAt (fst result) = [Some "2023-11-14T22:20:00.000Z"; None] /\
  match snd result with
  | Return (Applied ref _) => ref = "GRUNDY_1"
  | _ => False
  end.
Proof. vm_compute. repeat split. Qed.

(** *** The theorems at concrete inputs *)

(** C6 on the cart with a line of VENDOR_999. *)
Lemma stray_cart_is_answered :
  existsb inheritedVendor (strayCart (N := binary64)) = false /\
  exists s,
    calculateOrderSplit (N := binary64) noEnv strayCart = Return s /\
    totalAmount s = cartTotal strayCart /\
    totalPaystackFee s = cartTotal strayCart * decimal 15 3 + of_Z 100 /\
    map vendorId (vendorPayouts s)
      = filter (registered noEnv) (firstSeen (map vendorOf strayCart)) /\
    vendorPayouts s
      = filterMap (fun k => payoutEntry noEnv (totalAmount s) (totalPaystackFee s)
                              (salesOf k (linesOf k strayCart)))
                  (firstSeen (map vendorOf strayCart)) /\
    platformRevenue s = total platformFee (vendorPayouts s).
Proof.
  assert (H : existsb inheritedVendor (strayCart (N := binary64)) = false)
    by reflexivity.
  exact (conj H (unregistered_vendor_is_skipped noEnv strayCart H)).
Defined.


(** C3 on a placed order that is paid, delivered, then set back to
    'pending'. *)
Lemma delivered_order_ends_pending :
  let calls : list (StoreCall (N := binary64)) :=
    [ UpdateOrderPaymentStatus "2023-11-14T22:15:01.000Z" "GRUNDY_1" paid
        (Some notification);
      CompleteOrderDelivery "2023-11-15T09:00:00.000Z" "GRUNDY_1";
      UpdateOrderPaymentStatus "2023-11-15T10:00:00.000Z" "GRUNDY_1" pending None ] in
  getOrderByReference "GRUNDY_1" [placed (N := binary64) "GRUNDY_1"]
  = Some (placed "GRUNDY_1") /\
  lastRequested "GRUNDY_1" calls (paymentStatus (placed "GRUNDY_1")) = pending /\
  option_map paymentStatus
    (getOrderByReference "GRUNDY_1" (performAll calls [placed "GRUNDY_1"]))
  = Some pending.
Proof.
  cbv zeta.
  assert (H : getOrderByReference "GRUNDY_1" [placed (N := binary64) "GRUNDY_1"]
              = Some (placed "GRUNDY_1")) by reflexivity.
  split; [exact H|]. split; [reflexivity|].
  exact (status_is_last_requested "GRUNDY_1" _ _ H).
Defined.


End Runs.

Section ExactRuns.
Import Sample.
#[local] Existing Instance exact.

(** The two-vendor cart over the rationals. *)
Lemma two_vendor_cart_adds_up :
  allRegistered (N := exact) noEnv twoVendorCart = true /\
  cartTotal (N := exact) twoVendorCart <> Q2Qc 0 /\
  exists s,
    calculateOrderSplit (N := exact) noEnv twoVendorCart = Return s /\
    totalAmount s = cartTotal (N := exact) twoVendorCart /\
    total (N := exact) totalSales (vendorPayouts s) = totalAmount s /\
    total (N := exact) paystackFeeShare (vendorPayouts s) = totalPaystackFee s /\
    (total (N := exact) vendorPayout (vendorPayouts s)
      + platformRevenue s + totalPaystackFee s = totalAmount s)%Qc /\
    Forall (fun p => vendorPayout p = totalSales p - platformFee p - paystackFeeShare p)%Qc
           (vendorPayouts s) /\
    SplitConserved s.
Proof.
  assert (R : allRegistered (N := exact) noEnv twoVendorCart = true)
    by (vm_compute; reflexivity).
  assert (Z : cartTotal (N := exact) twoVendorCart <> Q2Qc 0)
    by (intro H; apply (f_equal this) in H; vm_compute in H; discriminate).
  exact (conj R (conj Z (rational_split_adds_up noEnv twoVendorCart R Z))).
Defined.

(** The dashboard's sample cart over the rationals: four shares, within
    four halves of 730000. *)
Lemma sample_cart_shares_are_close :
  allRegistered (N := exact) noEnv dashboardCart = true /\
  cartTotal (N := exact) dashboardCart <> Q2Qc 0 /\
  exists s subaccounts,
    calculateOrderSplit (N := exact) noEnv dashboardCart = Return s /\
    generateSubaccountsForSplit noEnv s = Return subaccounts /\
    map share subaccounts
    = map (fun p => Math_round (vendorPayout p * Exact.of_Z 100)%Qc) (vendorPayouts s)
      ++ [Math_round ((platformRevenue s + totalPaystackFee s) * Exact.of_Z 100)%Qc] /\
    (Qcabs (total (N := exact) share subaccounts - totalAmount s * Exact.of_Z 100)
     <= halves (List.length (vendorPayouts s) + 1))%Qc.
Proof.
  assert (R : allRegistered (N := exact) noEnv dashboardCart = true)
    by (vm_compute; reflexivity).
  assert (Z : cartTotal (N := exact) dashboardCart <> Q2Qc 0)
    by (intro H; apply (f_equal this) in H; vm_compute in H; discriminate).
  exact (conj R (conj Z (rational_shares_are_close noEnv dashboardCart R Z))).
Defined.

End ExactRuns.

(* ===================================================================== *)
(** * Part III.  More of the program                                      *)
(* ===================================================================== *)

(** ** The order store *)

Section StoreMore.
Context {N : JSNumber}.

Lemma applyPayment_placement now status data o :
  placement (applyPayment now status data o) = placement o.
Proof. reflexivity. Qed.

Lemma applyDelivery_placement rider terminal o :
  placement (applyDelivery rider terminal o) = placement o.
Proof. reflexivity. Qed.

Lemma applyCompletion_placement now o : placement (applyCompletion now o) = placement o.
Proof. reflexivity. Qed.

Lemma mutateFirst_placement p f (orders : Orders) :
  (forall o, placement (f o) = placement o) ->
  map placement (mutateFirst p f orders) = map placement orders.
Proof.
  intros Hf. induction orders as [|o rest IH]; cbn; [reflexivity|].
  destruct (p o); cbn; [rewrite Hf | rewrite IH]; reflexivity.
Qed.

Lemma perform_placement call (orders : Orders) :
  exists added,
    map placement (perform orders call) = map placement orders ++ added /\
    List.length added = creations [call].
Proof.
  destruct call; cbn [perform creations filter List.length].
  - exists [placement (fst (createOrder nowMs nowIso orderData orders))].
    unfold createOrder; cbn [snd fst]. rewrite map_app. split; reflexivity.
  - exists []. rewrite app_nil_r. split; [|reflexivity].
    apply mutateFirst_placement, applyPayment_placement.
  - exists []. rewrite app_nil_r. split; [|reflexivity].
    apply mutateFirst_placement, applyDelivery_placement.
  - exists []. rewrite app_nil_r. split; [|reflexivity].
    apply mutateFirst_placement, applyCompletion_placement.
Qed.

Lemma creations_cons call calls :
  creations (call :: calls) = (creations [call] + creations calls)%nat.
Proof. unfold creations; cbn [filter]. destruct call; reflexivity. Qed.

Lemma performAll_placement calls (orders : Orders) :
  exists added,
    map placement (performAll calls orders) = map placement orders ++ added /\
    List.length added = creations calls.
Proof.
  revert orders. induction calls as [|call calls IH]; intros orders.
  - exists []. rewrite app_nil_r. split; reflexivity.
  - cbn [performAll fold_left].
    destruct (perform_placement call orders) as (a1 & E1 & L1).
    destruct (IH (perform orders call)) as (a2 & E2 & L2).
    exists (a1 ++ a2). unfold performAll in E2. rewrite E2, E1, <- app_assoc.
    split; [reflexivity|].
    rewrite length_app, creations_cons. lia.
Qed.

Lemma get_fresh_append ref (orders : Orders) o :
  getOrderByReference ref orders = None ->
  orderReference o = ref ->
  getOrderByReference ref (orders ++ [o]) = Some o.
Proof.
  unfold getOrderByReference. intros Hnone Href.
  induction orders as [|x rest IH]; cbn in *.
  - unfold hasReference. now rewrite Href, String.eqb_refl.
  - destruct (hasReference ref x); [discriminate|]. now apply IH.
Qed.

Lemma get_other_append ref (orders : Orders) o :
  orderReference o <> ref ->
  getOrderByReference ref (orders ++ [o]) = getOrderByReference ref orders.
Proof.
  unfold getOrderByReference. intros Hne.
  induction orders as [|x rest IH]; cbn.
  - apply hasReference_false in Hne. now rewrite Hne.
  - destruct (hasReference ref x); [reflexivity|]. exact IH.
Qed.

(** X1.  [createOrder] with a reference that no stored order carries:
    the reference resolves to the order returned, which is pending and
    carries the data it was given; every other reference resolves as
    before; the order is last in the store. *)
Theorem created_order_is_found nowMs nowIso (orderData : OrderData) orders :
  getOrderByReference (od_orderReference orderData) orders = None ->
  let created := createOrder nowMs nowIso orderData orders in
  getOrderByReference (od_orderReference orderData) (snd created) = Some (fst created) /\
  paymentStatus (fst created) = pending /\
  createdAt (fst created) = nowIso /\
  (amount (fst created), items (fst created), customerEmail (fst created))
    = (od_amount orderData, od_items orderData, od_customerEmail orderData) /\
  (forall ref, ref <> od_orderReference orderData ->
     getOrderByReference ref (snd created) = getOrderByReference ref orders) /\
  getAllOrders (snd created) = getAllOrders orders ++ [fst created] /\
  getOrdersByStatus pending (snd created)
    = getOrdersByStatus pending orders ++ [fst created].
Proof.
  intros Hnone created. unfold created, createOrder; cbn [fst snd].
  repeat split.
  - now apply get_fresh_append.
  - intros ref Hne. apply get_other_append. cbn. congruence.
  - unfold getOrdersByStatus. now rewrite filter_app.
Qed.

(** X2.  The store only grows, and what an order was placed with stays:
    after any sequence of calls the orders that were there are at their
    positions with the same id, reference, customer, address, amount,
    items, payment method, payout snapshot and creation time, followed
    by one order per [createOrder] call. *)
Theorem store_is_append_only calls (orders : Orders) :
  List.length (performAll calls orders) = (List.length orders + creations calls)%nat /\
  firstn (List.length orders) (map placement (performAll calls orders))
    = map placement orders /\
  forall i o,
    nth_error orders i = Some o ->
    option_map placement (nth_error (performAll calls orders) i) = Some (placement o).
Proof.
  destruct (performAll_placement calls orders) as (added & E & L).
  assert (Hlen : List.length (performAll calls orders)
                 = (List.length orders + creations calls)%nat).
  { rewrite <- (length_map placement (performAll calls orders)), E, length_app,
      length_map. lia. }
  split; [exact Hlen|]. split.
  - rewrite E. rewrite <- (length_map placement orders).
    rewrite firstn_app, Nat.sub_diag, firstn_all. cbn. now rewrite app_nil_r.
  - intros i o Hi.
    rewrite <- nth_error_map, E.
    rewrite nth_error_app1.
    + now rewrite nth_error_map, Hi.
    + rewrite length_map. apply nth_error_Some. congruence.
Qed.

(** X3.  A call that addresses a reference no stored order carries does
    nothing: [updateOrderPaymentStatus], [updateOrderDeliveryStatus] and
    [completeOrderDelivery] return without a change and without an
    error. *)
Theorem unknown_reference_is_ignored call ref (orders : Orders) :
  addressee call = Some ref ->
  getOrderByReference ref orders = None ->
  perform orders call = orders.
Proof.
  intros Ha Hnone.
  destruct call; cbn in Ha; try discriminate; injection Ha as ->; cbn [perform];
    now apply mutateFirst_none.
Qed.

(** X4.  A call that addresses one reference leaves the orders that the
    other references resolve to as they are, and creates or removes
    none. *)
Theorem other_references_are_untouched call ref ref' (orders : Orders) :
  addressee call = Some ref ->
  ref' <> ref ->
  getOrderByReference ref' (perform orders call) = getOrderByReference ref' orders /\
  List.length (perform orders call) = List.length orders.
Proof.
  intros Ha Hne.
  destruct call; cbn in Ha; try discriminate; injection Ha as ->; cbn [perform]; split;
    try apply mutateFirst_length;
    apply get_mutateFirst_other; auto using applyPayment_keepsReference,
      applyDelivery_keepsReference, applyCompletion_keepsReference.
Qed.

(** X5.  [updateOrderDeliveryStatus] checks nothing and keeps nothing of
    an earlier assignment: the rider and the terminal of the order are
    those of the last call, absent when the call gives none, and what
    payments wrote on the order is left alone. *)
Theorem delivery_assignment_is_overwritten ref rider1 terminal1 rider2 terminal2
    (orders : Orders) :
  let once := updateOrderDeliveryStatus ref rider1 terminal1 orders in
  let twice := updateOrderDeliveryStatus ref rider2 terminal2 once in
  twice = updateOrderDeliveryStatus ref rider2 terminal2 orders /\
  option_map assignment (getOrderByReference ref twice)
    = option_map (fun _ => (rider2, terminal2)) (getOrderByReference ref orders) /\
  option_map paymentState (getOrderByReference ref twice)
    = option_map paymentState (getOrderByReference ref orders) /\
  option_map placement (getOrderByReference ref twice)
    = option_map placement (getOrderByReference ref orders).
Proof.
  intros once twice.
  assert (E : twice = updateOrderDeliveryStatus ref rider2 terminal2 orders).
  { unfold twice, once, updateOrderDeliveryStatus.
    rewrite mutateFirst_twice by apply applyDelivery_keepsReference.
    now apply mutateFirst_ext. }
  split; [exact E|]. rewrite E. unfold updateOrderDeliveryStatus.
  rewrite get_mutateFirst_same by apply applyDelivery_keepsReference.
  destruct (getOrderByReference ref orders); repeat split; reflexivity.
Qed.

Lemma filter_lengths_by_method (orders : Orders) :
  answered (fun m => getOrdersByPaymentMethod (PaymentMethod_name m) orders) paymentMethods
  = List.length orders.
Proof.
  unfold answered, paymentMethods, getOrdersByPaymentMethod; cbn [fold_right].
  induction orders as [|o rest IH]; [reflexivity|].
  cbn [filter List.length]. rewrite <- IH.
  destruct (paymentMethod o); cbn; lia.
Qed.

(** X6.  The payment methods partition the store: every order is in
    the [getOrdersByPaymentMethod] answer for its own payment method and
    in no other, so the answers for the three methods add up to the
    store.  [getOrdersByPaymentMethod] takes any string and answers a
    name that is no payment method with the empty list;
    [getOrdersByStatus] answers the stored orders that have the status
    asked for.  The orders route does the filtering of
    [getOrdersByPaymentMethod], and answers an empty parameter like an
    absent one, with every order. *)
Theorem payment_methods_partition_the_store (orders : Orders) :
  answered (fun m => getOrdersByPaymentMethod (PaymentMethod_name m) orders) paymentMethods
    = List.length orders /\
  (forall o status, In o (getOrdersByStatus status orders)
                    <-> In o orders /\ paymentStatus o = status) /\
  (forall o name, In o (getOrdersByPaymentMethod name orders)
                  <-> In o orders /\ PaymentMethod_name (paymentMethod o) = name) /\
  (forall name, (forall m, PaymentMethod_name m <> name) ->
                getOrdersByPaymentMethod name orders = []) /\
  (forall name, name <> "" ->
                OrdersRoute.GET (Some name) orders = getOrdersByPaymentMethod name orders) /\
  OrdersRoute.GET (Some "") orders = orders /\
  OrdersRoute.GET None orders = orders.
Proof.
  split; [apply filter_lengths_by_method|].
  repeat split.
  - unfold getOrdersByStatus in H. apply filter_In in H. tauto.
  - unfold getOrdersByStatus in H. apply filter_In in H.
    destruct H as [_ H]. destruct (paymentStatus o), status; cbn in H; congruence.
  - intros [Hin <-]. unfold getOrdersByStatus. apply filter_In. split; [exact Hin|].
    destruct (paymentStatus o); reflexivity.
  - unfold getOrdersByPaymentMethod in H. apply filter_In in H. tauto.
  - unfold getOrdersByPaymentMethod in H. apply filter_In in H.
    destruct H as [_ H]. now apply String.eqb_eq in H.
  - intros [Hin <-]. unfold getOrdersByPaymentMethod. apply filter_In.
    split; [exact Hin|]. apply String.eqb_refl.
  - intros name Hno. unfold getOrdersByPaymentMethod.
    induction orders as [|o rest IH]; [reflexivity|]. cbn [filter].
    destruct (String.eqb_spec (PaymentMethod_name (paymentMethod o)) name) as [E|_].
    + now destruct (Hno (paymentMethod o)).
    + exact IH.
  - intros name Hne. unfold OrdersRoute.GET, present, truthy.
    destruct name; [congruence|reflexivity].
Qed.

End StoreMore.

(** ** The webhook *)

Section WebhookMore.
Context {N : JSNumber}.
Variable env : Env.

Lemma afterCharge_spec now paymentData (orders : Orders) :
  afterCharge env now paymentData orders =
  match resolveOrder paymentData orders with
  | None => orders
  | Some (ref, _) =>
      updateOrderPaymentStatus now ref paid (Some (storedPayload ref paymentData)) orders
  end.
Proof.
  unfold afterCharge, handleChargeSuccess.
  destruct (resolveOrder paymentData orders) as [[ref found]|]; [|reflexivity].
  fold (storedPayload ref paymentData).
  destruct (developmentMode env paymentData
            && opt_string_eqb (channel paymentData) (Some "terminal")); [|reflexivity].
  destruct (reference paymentData); reflexivity.
Qed.

Lemma find_In_holds {A} (p : A -> bool) l x : find p l = Some x -> In x l /\ p x = true.
Proof. apply find_some. Qed.

Lemma resolveOrder_found paymentData (orders : Orders) ref found :
  resolveOrder paymentData orders = Some (ref, found) ->
  In found orders /\ orderReference found = ref.
Proof.
  unfold resolveOrder, getAllOrders.
  destruct (metadata_orderReference paymentData) as [m|].
  - destruct (truthy (Some m)) eqn:Tm.
    + unfold getOrderByReference.
      destruct (find (hasReference m) orders) as [o|] eqn:F1; cbn [option_map].
      * intros [= <- <-]. apply find_In_holds in F1 as [Hin Hp].
        split; [exact Hin|]. now apply hasReference_true.
      * destruct (find (byPaymentReference paymentData) orders) as [o|] eqn:F2.
        -- intros [= <- <-]. apply find_In_holds in F2 as [Hin _]. now split.
        -- destruct (truthy (customer_email paymentData)); [|discriminate].
           destruct (filter (byEmailAndAmount paymentData) orders) as [|o [|]] eqn:F3;
             try discriminate.
           intros [= <- <-]. split; [|reflexivity].
           assert (Hin : In o (filter (byEmailAndAmount paymentData) orders))
             by (rewrite F3; now left).
           now apply filter_In in Hin.
    + destruct (find (byPaymentReference paymentData) orders) as [o|] eqn:F2.
      * intros [= <- <-]. apply find_In_holds in F2 as [Hin _]. now split.
      * destruct (truthy (customer_email paymentData)); [|discriminate].
        destruct (filter (byEmailAndAmount paymentData) orders) as [|o [|]] eqn:F3;
          try discriminate.
        intros [= <- <-]. split; [|reflexivity].
        assert (Hin : In o (filter (byEmailAndAmount paymentData) orders))
          by (rewrite F3; now left).
        now apply filter_In in Hin.
  - destruct (find (byPaymentReference paymentData) orders) as [o|] eqn:F2.
    + intros [= <- <-]. apply find_In_holds in F2 as [Hin _]. now split.
    + destruct (truthy (customer_email paymentData)); [|discriminate].
      destruct (filter (byEmailAndAmount paymentData) orders) as [|o [|]] eqn:F3;
        try discriminate.
      intros [= <- <-]. split; [|reflexivity].
      assert (Hin : In o (filter (byEmailAndAmount paymentData) orders))
        by (rewrite F3; now left).
      now apply filter_In in Hin.
Qed.

Lemma mutateFirst_assignment p f (orders : Orders) :
  (forall o, assignment (f o) = assignment o) ->
  map assignment (mutateFirst p f orders) = map assignment orders.
Proof.
  intros Hf. induction orders as [|o rest IH]; cbn; [reflexivity|].
  destruct (p o); cbn; [rewrite Hf | rewrite IH]; reflexivity.
Qed.

(** The outcome of the handler for a notification that makes it post
    nothing: it returns, or throws on the missing reference of a
    terminal charge in development or test mode. *)
Lemma outcome_without_simulation now paymentData (orders : Orders) ref found :
  simulatedPayment env paymentData = None ->
  resolveOrder paymentData orders = Some (ref, found) ->
  snd (handleChargeSuccess env now paymentData orders) = Return (Applied ref None) \/
  (reference paymentData = None /\
   snd (handleChargeSuccess env now paymentData orders) = Throw startsWithOfUndefined).
Proof.
  unfold simulatedPayment, handleChargeSuccess. intros S R. rewrite R.
  destruct (developmentMode env paymentData
            && opt_string_eqb (channel paymentData) (Some "terminal")); [|now left].
  destruct (reference paymentData) as [gatewayRef|]; [|now right].
  destruct (startsWith "ORDER_" gatewayRef); [discriminate | now left].
Qed.

(** X7.  A charge notification that does not set off the test-mode
    simulation (see [simulatedPayment]) changes at most one stored
    order, and only what payments write on it: the store keeps its
    length, every order keeps what it was placed with and its rider and
    terminal; when no order is resolved the handler returns with the
    store as it was, and otherwise the first order that carries the
    resolved order's reference is the one written, and the handler
    posts nothing: it returns, or throws on the missing reference of a
    terminal charge in development or test mode. *)
Theorem charge_changes_one_order now paymentData (orders : Orders) :
  simulatedPayment env paymentData = None ->
  let after := afterCharge env now paymentData orders in
  List.length after = List.length orders /\
  map placement after = map placement orders /\
  map assignment after = map assignment orders /\
  match resolveOrder paymentData orders with
  | None =>
      handleChargeSuccess env now paymentData orders = (orders, Return Unresolved)
  | Some (ref, found) =>
      In found orders /\ orderReference found = ref /\
      (forall i,
         nth_error after i =
         if isPosition (findIndex (hasReference ref) orders) i
         then option_map (markPaid now ref paymentData) (nth_error orders i)
         else nth_error orders i) /\
      match snd (handleChargeSuccess env now paymentData orders) with
      | Return outcome => outcome = Applied ref None
      | Throw e => reference paymentData = None /\ e = startsWithOfUndefined
      end
  end.
Proof.
  intros S after. unfold after. rewrite afterCharge_spec.
  destruct (resolveOrder paymentData orders) as [[ref found]|] eqn:R.
  - unfold updateOrderPaymentStatus.
    split; [apply mutateFirst_length|].
    split; [apply mutateFirst_placement, applyPayment_placement|].
    split; [now apply mutateFirst_assignment|].
    destruct (resolveOrder_found _ _ R) as [Hin Href].
    split; [exact Hin|]. split; [exact Href|].
    split; [intros i; apply nth_mutateFirst_spec|].
    destruct (@outcome_without_simulation now paymentData orders ref found S R) as [O|[G O]]; rewrite O.
    + reflexivity.
    + now split.
  - repeat split; try reflexivity.
    unfold handleChargeSuccess. now rewrite R.
Qed.

Lemma unique_reference_found (orders : Orders) o :
  NoDup (map orderReference orders) ->
  In o orders ->
  getOrderByReference (orderReference o) orders = Some o.
Proof.
  unfold getOrderByReference.
  induction orders as [|x rest IH]; intros Hnd Hin; [destruct Hin|].
  cbn [map] in Hnd. inversion Hnd as [|? ? Hnotin Hnd']; subst.
  cbn [find]. destruct Hin as [->|Hin].
  - unfold hasReference. now rewrite String.eqb_refl.
  - destruct (hasReference (orderReference o) x) eqn:Hx.
    + apply hasReference_true in Hx. exfalso. apply Hnotin.
      rewrite Hx. now apply in_map.
    + now apply IH.
Qed.

(** X8.  When no two stored orders share a reference, the order that
    [handleChargeSuccess] resolves for a notification that does not set
    off the test-mode simulation is the order it marks: afterwards the
    reference resolves to that order with status ['paid'], [paidAt] the
    time of handling (not the gateway's [paid_at]), the gateway reference
    as [paymentReference] unless the notification has none, and the
    notification, with both references added, as [paymentDetails]. *)
Theorem resolved_order_is_marked_paid now paymentData (orders : Orders) ref found :
  simulatedPayment env paymentData = None ->
  NoDup (map orderReference orders) ->
  resolveOrder paymentData orders = Some (ref, found) ->
  let after := afterCharge env now paymentData orders in
  getOrderByReference ref after = Some (markPaid now ref paymentData found) /\
  option_map paymentStatus (getOrderByReference ref after) = Some paid /\
  option_map paidAt (getOrderByReference ref after) = Some (Some now) /\
  option_map paymentReference (getOrderByReference ref after)
    = Some (or_else (reference paymentData) (paymentReference found)) /\
  option_map paymentDetails (getOrderByReference ref after)
    = Some (Some (storedPayload ref paymentData)) /\
  pd_orderReference (storedPayload ref paymentData) = Some ref /\
  transactionReference (storedPayload ref paymentData) = reference paymentData.
Proof.
  intros _ Hnd R after.
  destruct (resolveOrder_found _ _ R) as [Hin Href].
  assert (G : getOrderByReference ref orders = Some found).
  { rewrite <- Href. now apply unique_reference_found. }
  assert (E : getOrderByReference ref after = Some (markPaid now ref paymentData found)).
  { unfold after. rewrite afterCharge_spec, R. unfold updateOrderPaymentStatus.
    rewrite get_mutateFirst_same by apply applyPayment_keepsReference.
    now rewrite G. }
  rewrite E. repeat split; reflexivity.
Qed.

End WebhookMore.

Section WebhookRedelivery.
Context {N : JSNumber}.
Variable env : Env.

Lemma resolveOrder_methods paymentData (orders : Orders) :
  resolveOrder paymentData orders =
  match byMetadataReference paymentData orders with
  | Some r => Some r
  | None =>
      match byGatewayReference paymentData orders with
      | Some r => Some r
      | None => bySingleMatch paymentData orders
      end
  end.
Proof.
  unfold resolveOrder, byMetadataReference, byGatewayReference, bySingleMatch, getAllOrders.
  destruct (metadata_orderReference paymentData) as [m|];
    [destruct (truthy (Some m)); [destruct (getOrderByReference m orders)|]|];
    cbn [option_map]; try reflexivity;
    destruct (find (byPaymentReference paymentData) orders); cbn [option_map];
    try reflexivity;
    destruct (truthy (customer_email paymentData)); try reflexivity;
    destruct (filter (byEmailAndAmount paymentData) orders) as [|o [|]]; reflexivity.
Qed.

Lemma opt_string_eqb_refl a : opt_string_eqb a a = true.
Proof. destruct a; cbn; [apply String.eqb_refl | reflexivity]. Qed.

Lemma opt_string_eqb_eq a b : opt_string_eqb a b = true <-> a = b.
Proof.
  destruct a, b; cbn; split; intros H; try congruence.
  - apply String.eqb_eq in H. congruence.
  - injection H as ->. apply String.eqb_refl.
Qed.

Lemma markPaid_keepsReference now ref paymentData :
  keepsReference (markPaid now ref paymentData).
Proof. apply applyPayment_keepsReference. Qed.

(** A marked order answers to the gateway reference it was marked with,
    and one that answered before still does. *)
Lemma markPaid_byPaymentReference now ref paymentData o :
  byPaymentReference paymentData o = true ->
  byPaymentReference paymentData (markPaid now ref paymentData o) = true.
Proof.
  unfold byPaymentReference, markPaid, applyPayment, storedPayload; cbn.
  unfold or_else. destruct (truthy (reference paymentData)).
  - intros _. apply opt_string_eqb_refl.
  - auto.
Qed.

Lemma markPaid_byEmailAndAmount now ref paymentData paymentData' o :
  byEmailAndAmount paymentData' (markPaid now ref paymentData o)
  = byEmailAndAmount paymentData' o.
Proof. reflexivity. Qed.

Lemma find_mutateFirst_same_reference (p : Order -> bool) f ref (orders : Orders) o :
  keepsReference f ->
  (forall x, p x = true -> p (f x) = true) ->
  find p orders = Some o ->
  orderReference o = ref ->
  exists o', find p (mutateFirst (hasReference ref) f orders) = Some o' /\
             orderReference o' = ref.
Proof.
  intros Hk Hp. induction orders as [|x rest IH]; cbn [find mutateFirst]; [discriminate|].
  intros F Href.
  destruct (hasReference ref x) eqn:Hx.
  - cbn [find]. destruct (p (f x)) eqn:Pfx.
    + exists (f x). split; [reflexivity|]. rewrite Hk. now apply hasReference_true.
    + destruct (p x) eqn:Px; [apply Hp in Px; congruence|].
      exists o. now split.
  - cbn [find]. destruct (p x) eqn:Px.
    + injection F as <-. apply hasReference_false in Hx. congruence.
    + now apply IH.
Qed.

Lemma find_mutateFirst_new (p q : Order -> bool) f (orders : Orders) o' :
  find p orders = None ->
  find p (mutateFirst q f orders) = Some o' ->
  exists x, In x orders /\ q x = true /\ o' = f x.
Proof.
  induction orders as [|x rest IH]; cbn [find mutateFirst]; [discriminate|].
  destruct (p x) eqn:Px; [discriminate|]. intros Fn.
  destruct (q x) eqn:Qx; cbn [find].
  - destruct (p (f x)).
    + intros [= <-]. exists x. repeat split; [now left | exact Qx].
    + rewrite Fn. discriminate.
  - rewrite Px. intros F. destruct (IH Fn F) as (y & Hin & Hq & E).
    exists y. repeat split; [now right | exact Hq | exact E].
Qed.

Lemma filter_mutateFirst_references (p q : Order -> bool) f (orders : Orders) :
  keepsReference f ->
  (forall x, p (f x) = p x) ->
  map orderReference (filter p (mutateFirst q f orders))
  = map orderReference (filter p orders).
Proof.
  intros Hk Hp. induction orders as [|x rest IH]; [reflexivity|].
  cbn [mutateFirst]. destruct (q x); cbn [filter].
  - rewrite Hp. destruct (p x); cbn [map]; [rewrite Hk|]; reflexivity.
  - destruct (p x); cbn [map]; now rewrite IH.
Qed.

Lemma in_found_reference (orders : Orders) o :
  In o orders -> getOrderByReference (orderReference o) orders <> None.
Proof.
  unfold getOrderByReference. intros Hin F.
  rewrite find_none_iff in F. specialize (F o Hin).
  apply hasReference_false in F. congruence.
Qed.

Lemma byMetadataReference_found paymentData f ref (orders : Orders) o :
  keepsReference f ->
  byMetadataReference paymentData orders = Some (ref, o) ->
  byMetadataReference paymentData (mutateFirst (hasReference ref) f orders)
  = Some (ref, f o).
Proof.
  intros Hk. unfold byMetadataReference.
  destruct (metadata_orderReference paymentData) as [m|]; [|discriminate].
  destruct (truthy (Some m)); [|discriminate].
  destruct (getOrderByReference m orders) as [x|] eqn:G; [|discriminate].
  cbn [option_map]. intros [= -> ->].
  rewrite get_mutateFirst_same by exact Hk. now rewrite G.
Qed.

Lemma byMetadataReference_none paymentData f ref (orders : Orders) :
  keepsReference f ->
  getOrderByReference ref orders <> None ->
  byMetadataReference paymentData orders = None ->
  byMetadataReference paymentData (mutateFirst (hasReference ref) f orders) = None.
Proof.
  intros Hk Hsome. unfold byMetadataReference.
  destruct (metadata_orderReference paymentData) as [m|]; [|reflexivity].
  destruct (truthy (Some m)); [|reflexivity].
  destruct (getOrderByReference m orders) as [x|] eqn:G; [discriminate|].
  intros _. assert (Hm : m <> ref) by (intros ->; congruence).
  rewrite get_mutateFirst_other by auto. now rewrite G.
Qed.

Lemma fallback_again now paymentData (orders : Orders) ref found :
  match byGatewayReference paymentData orders with
  | Some r => Some r
  | None => bySingleMatch paymentData orders
  end = Some (ref, found) ->
  exists found',
    match byGatewayReference paymentData
            (mutateFirst (hasReference ref) (markPaid now ref paymentData) orders) with
    | Some r => Some r
    | None =>
        bySingleMatch paymentData
          (mutateFirst (hasReference ref) (markPaid now ref paymentData) orders)
    end = Some (ref, found').
Proof.
  pose proof (markPaid_keepsReference now ref paymentData) as Hk.
  unfold byGatewayReference.
  destruct (find (byPaymentReference paymentData) orders) as [o|] eqn:F; cbn [option_map].
  - intros [= Href <-].
    destruct (find_mutateFirst_same_reference (byPaymentReference paymentData)
                (f := markPaid now ref paymentData) (ref := ref) orders Hk
                (markPaid_byPaymentReference now ref paymentData) F Href)
      as (o' & F' & Href').
    rewrite F'. cbn [option_map]. rewrite Href'. now eexists.
  - intros S.
    destruct (find (byPaymentReference paymentData)
                (mutateFirst (hasReference ref) (markPaid now ref paymentData) orders))
      as [o'|] eqn:F'; cbn [option_map].
    + destruct (find_mutateFirst_new _ _ _ _ F F') as (x & _ & Hx & ->).
      rewrite Hk. apply hasReference_true in Hx. rewrite Hx. now eexists.
    + unfold bySingleMatch in *.
      destruct (truthy (customer_email paymentData)); [|discriminate].
      pose proof (filter_mutateFirst_references (byEmailAndAmount paymentData)
                    (hasReference ref) orders Hk
                    (markPaid_byEmailAndAmount now ref paymentData paymentData)) as E.
      destruct (filter (byEmailAndAmount paymentData) orders) as [|o [|]];
        try discriminate.
      injection S as Href <-. cbn [map] in E.
      destruct (filter (byEmailAndAmount paymentData)
                  (mutateFirst (hasReference ref) (markPaid now ref paymentData) orders))
        as [|o' [|]]; cbn [map] in E; try discriminate.
      injection E as E. rewrite E, Href. now eexists.
Qed.

(** The notification that marked an order resolves to the same
    reference afterwards. *)
Lemma resolveOrder_again now paymentData (orders : Orders) ref found :
  resolveOrder paymentData orders = Some (ref, found) ->
  exists found',
    resolveOrder paymentData
      (mutateFirst (hasReference ref) (markPaid now ref paymentData) orders)
    = Some (ref, found').
Proof.
  intros R. destruct (resolveOrder_found _ _ R) as [Hin Href].
  pose proof (in_found_reference _ _ Hin) as Hsome. rewrite Href in Hsome.
  pose proof (markPaid_keepsReference now ref paymentData) as Hk.
  rewrite resolveOrder_methods in R. rewrite resolveOrder_methods.
  destruct (byMetadataReference paymentData orders) as [[m o]|] eqn:M.
  - injection R as -> ->.
    rewrite (@byMetadataReference_found paymentData _ ref orders found Hk M). now eexists.
  - rewrite (@byMetadataReference_none paymentData _ ref orders Hk Hsome M).
    now apply fallback_again with (found := found).
Qed.

(** X9.  A charge notification that does not set off the test-mode
    simulation and is delivered again is absorbed: it resolves to the
    same order reference as the first time, whichever of the three
    lookups found it, and the store after both deliveries is the store
    the second delivery alone would leave; only [paidAt] moves to the
    time of the second handling. *)
Theorem redelivered_charge_is_absorbed now1 now2 paymentData (orders : Orders) :
  simulatedPayment env paymentData = None ->
  option_map fst (resolveOrder paymentData (afterCharge env now1 paymentData orders))
    = option_map fst (resolveOrder paymentData orders) /\
  afterCharge env now2 paymentData (afterCharge env now1 paymentData orders)
    = afterCharge env now2 paymentData orders.
Proof.
  intros _.
  rewrite (afterCharge_spec env now2 paymentData (afterCharge env now1 paymentData orders)).
  rewrite !afterCharge_spec.
  destruct (resolveOrder paymentData orders) as [[ref found]|] eqn:R.
  - unfold updateOrderPaymentStatus. fold (markPaid now1 ref paymentData).
    destruct (resolveOrder_again now1 _ _ R) as (found' & R').
    rewrite R'. split; [reflexivity|].
    fold (markPaid now2 ref paymentData).
    rewrite mutateFirst_twice by apply markPaid_keepsReference.
    apply mutateFirst_ext. intros o. apply applyPayment_twice.
  - rewrite R. split; reflexivity.
Qed.

(** X10.  An order marked by a notification that does not set off the
    test-mode simulation is found again by the gateway reference alone:
    when no stored order carried the gateway reference before, a later
    notification that names no order and carries that reference
    resolves, by the second lookup, to the order reference the first
    one was applied to. *)
Theorem gateway_reference_finds_paid_order now first later (orders : Orders)
    ref found gatewayRef :
  simulatedPayment env first = None ->
  resolveOrder first orders = Some (ref, found) ->
  reference first = Some gatewayRef ->
  gatewayRef <> "" ->
  (forall o, In o orders -> paymentReference o <> Some gatewayRef) ->
  metadata_orderReference later = None ->
  reference later = Some gatewayRef ->
  option_map fst (resolveOrder later (afterCharge env now first orders)) = Some ref /\
  option_map fst (byGatewayReference later (afterCharge env now first orders)) = Some ref.
Proof.
  intros _ R G Hne Hfresh Hmeta Hlater.
  destruct (resolveOrder_found _ _ R) as [Hin Href].
  pose proof (in_found_reference _ _ Hin) as Hsome. rewrite Href in Hsome.
  pose proof (markPaid_keepsReference now ref first) as Hk.
  rewrite afterCharge_spec, R. unfold updateOrderPaymentStatus.
  fold (markPaid now ref first).
  assert (F : find (byPaymentReference later) orders = None).
  { apply find_none_iff. intros o Ho. unfold byPaymentReference. rewrite Hlater.
    destruct (opt_string_eqb (paymentReference o) (Some gatewayRef)) eqn:E;
      [|reflexivity].
    apply opt_string_eqb_eq in E. now destruct (Hfresh o Ho). }
  assert (B : option_map fst
                (byGatewayReference later
                   (mutateFirst (hasReference ref) (markPaid now ref first) orders))
              = Some ref).
  { unfold byGatewayReference.
    destruct (find (byPaymentReference later)
                (mutateFirst (hasReference ref) (markPaid now ref first) orders))
      as [o'|] eqn:F'.
    - destruct (find_mutateFirst_new _ _ _ _ F F') as (x & _ & Hx & ->).
      cbn [option_map fst]. rewrite Hk. apply hasReference_true in Hx. now rewrite Hx.
    - exfalso. unfold getOrderByReference in Hsome.
      destruct (find (hasReference ref) orders) as [x|] eqn:Fx; [|congruence].
      clear Hsome. rewrite find_none_iff in F'.
      assert (Hx : In (markPaid now ref first x)
                      (mutateFirst (hasReference ref) (markPaid now ref first) orders)).
      { clear -Fx. induction orders as [|y rest IH]; cbn in *; [discriminate|].
        destruct (hasReference ref y).
        - injection Fx as ->. now left.
        - right. now apply IH. }
      specialize (F' _ Hx). unfold byPaymentReference, markPaid, applyPayment in F'.
      cbn in F'. rewrite Hlater, G in F'. unfold or_else, truthy in F'.
      destruct gatewayRef; [congruence|]. cbn in F'.
      rewrite Ascii.eqb_refl, String.eqb_refl in F'. discriminate. }
  split; [|exact B].
  rewrite resolveOrder_methods. unfold byMetadataReference. rewrite Hmeta.
  destruct (byGatewayReference later
              (mutateFirst (hasReference ref) (markPaid now ref first) orders));
    [exact B | discriminate].
Qed.

End WebhookRedelivery.

Section WebhookRoute.
Context {N : JSNumber}.
Variable env : Env.
Variable hmac_sha512_hex : string -> string -> string.
Variable JSON_parse : string -> completion (option PaystackWebhook.WebhookEvent).

Lemma processWebhook_store now data (orders : Orders) :
  fst (PaystackWebhook.processWebhook env now data orders) =
  match PaystackWebhook.we_event data, PaystackWebhook.we_data data with
  | Some event, Some paymentData =>
      if String.eqb event "charge.success"
      then afterCharge env now (PaystackWebhook.ed_payment paymentData) orders
      else orders
  | _, _ => orders
  end.
Proof.
  unfold PaystackWebhook.processWebhook, afterCharge.
  destruct (PaystackWebhook.we_event data) as [event|]; [|reflexivity].
  destruct (String.eqb event "charge.success").
  - destruct (PaystackWebhook.we_data data) as [d|]; [|reflexivity].
    now destruct (handleChargeSuccess env now (PaystackWebhook.ed_payment d) orders).
  - destruct (PaystackWebhook.we_data data);
      repeat match goal with
             | |- context [if ?b then _ else _] => destruct b
             end; reflexivity.
Qed.

Lemma POST_store now request (orders : Orders) :
  fst (fst (PaystackWebhook.POST env hmac_sha512_hex JSON_parse now request orders)) =
  if PaystackWebhook.signatureRefused env hmac_sha512_hex request then orders
  else
    match JSON_parse (PaystackWebhook.payload request) with
    | Return (Some data) => fst (PaystackWebhook.processWebhook env now data orders)
    | _ => orders
    end.
Proof.
  unfold PaystackWebhook.POST.
  destruct (PaystackWebhook.signatureRefused env hmac_sha512_hex request); [reflexivity|].
  destruct (JSON_parse (PaystackWebhook.payload request)) as [[data|]|]; try reflexivity.
  now destruct (PaystackWebhook.processWebhook env now data orders).
Qed.

(** X11.  The webhook answers 401 exactly when the secret key and the
    signature header are both there and the header is not the HMAC of
    the payload; the store is then untouched and nothing is posted.
    Every other request is answered 200: one without a signature
    header, or received while no secret key is configured, is processed
    unverified, and a payload that cannot be parsed or a handler that
    throws is answered like a success. *)
Theorem webhook_signature_gate now request (orders : Orders) :
  let result :=
    PaystackWebhook.POST env hmac_sha512_hex JSON_parse now request orders in
  let key := present (env "PAYSTACK_SECRET_KEY") in
  let given := present (PaystackWebhook.signature request) in
  let mismatch :=
    exists k g, key = Some k /\ given = Some g /\
                g <> hmac_sha512_hex k (PaystackWebhook.payload request) in
  (snd (fst result) = PaystackWebhook.InvalidSignature <-> mismatch) /\
  (snd (fst result) = PaystackWebhook.Received <-> ~ mismatch) /\
  (mismatch -> fst (fst result) = orders /\ snd result = None) /\
  (key = None \/ given = None -> snd (fst result) = PaystackWebhook.Received).
Proof.
  intros result key given mismatch.
  assert (Href : PaystackWebhook.signatureRefused env hmac_sha512_hex request = true
                 <-> mismatch).
  { unfold PaystackWebhook.signatureRefused, mismatch, key, given.
    destruct (present (env "PAYSTACK_SECRET_KEY")) as [k|];
      [destruct (present (PaystackWebhook.signature request)) as [g|]|].
    - destruct (String.eqb_spec g (hmac_sha512_hex k (PaystackWebhook.payload request)))
        as [E|E]; cbn [negb]; split.
      + discriminate.
      + intros (k' & g' & [= <-] & [= <-] & Hne). congruence.
      + intros _. now exists k, g.
      + reflexivity.
    - split; [discriminate|]. intros (? & ? & _ & ? & _). discriminate.
    - split; [discriminate|]. intros (? & ? & ? & _). discriminate. }
  assert (Hres : snd (fst result) =
                 if PaystackWebhook.signatureRefused env hmac_sha512_hex request
                 then PaystackWebhook.InvalidSignature else PaystackWebhook.Received).
  { unfold result, PaystackWebhook.POST.
    destruct (PaystackWebhook.signatureRefused env hmac_sha512_hex request);
      [reflexivity|].
    destruct (JSON_parse (PaystackWebhook.payload request)) as [[data|]|];
      try reflexivity.
    now destruct (PaystackWebhook.processWebhook env now data orders). }
  assert (Hun : PaystackWebhook.signatureRefused env hmac_sha512_hex request = true ->
                fst (fst result) = orders /\ snd result = None).
  { unfold result, PaystackWebhook.POST. intros ->. now split. }
  rewrite Hres.
  destruct (PaystackWebhook.signatureRefused env hmac_sha512_hex request) eqn:S.
  - assert (M : mismatch) by now apply Href.
    repeat split; auto; try discriminate; try tauto.
    intros [K|G]; destruct M as (k & g & Hk & Hg & _); congruence.
  - assert (M : ~ mismatch) by (intros M; apply Href in M; discriminate).
    repeat split; auto; try discriminate; tauto.
Qed.


End WebhookRoute.

(** ** The gateway configuration of a split *)

Section ConfigurationMore.
Context {N : JSNumber}.
Variable env : Env.
Local Open Scope js_scope.

Lemma vendorSubaccounts_spec (ps : list PayoutCalculation) :
  Forall (fun p => registered env (vendorId p) = true) ps ->
  mapM (vendorSubaccount env) ps = Return (map (subaccountOf env) ps).
Proof.
  induction ps as [|p rest IH]; intro R; [reflexivity|].
  inversion R as [|? ? Rp Rrest]; subst.
  cbn [mapM map]. rewrite (IH Rrest).
  unfold vendorSubaccount, subaccountOf, subaccountCode, kobo, registered in *.
  destruct (findVendor env (vendorId p)) as [v|]; [reflexivity|discriminate].
Qed.

Lemma returned_split_is_registered cart split :
  calculateOrderSplit env cart = Return split ->
  split = splitOf env cart /\
  Forall (fun p => registered env (vendorId p) = true) (vendorPayouts split).
Proof.
  rewrite calculateOrderSplit_spec.
  destruct (existsb inheritedVendor cart); [discriminate|].
  intros [= <-]. split; [reflexivity|]. apply payouts_registered.
Qed.

(** X13.  On a split that [calculateOrderSplit] returned, the
    configuration is decided by the number of payouts alone and the
    error 'Vendor not found' cannot occur.
    [generateSubaccountsForSplit] returns one entry per payout, with the
    registry's subaccount code and the payout in kobo, followed by the
    platform's entry.  [getSingleVendorSubaccount] returns for exactly
    one payout, charging the platform revenue in kobo, and throws
    'Expected exactly one vendor' otherwise.  So the route's
    configuration step fails exactly for a split without payouts (an
    empty cart, or a cart of unregistered vendors only). *)
Theorem configuration_follows_payout_count cart split :
  calculateOrderSplit env cart = Return split ->
  generateSubaccountsForSplit env split
    = Return (map (subaccountOf env) (vendorPayouts split) ++ [platformSubaccount env split]) /\
  Forall (fun p => subaccountCode env (vendorId p) <> None) (vendorPayouts split) /\
  match vendorPayouts split with
  | [] =>
      shouldUseSplitPayment split = false /\
      getSingleVendorSubaccount env split = Throw notOneVendor /\
      PaymentInitialize.configure env split = Throw notOneVendor
  | [payout] =>
      exists code,
        subaccountCode env (vendorId payout) = Some code /\
        shouldUseSplitPayment split = false /\
        getSingleVendorSubaccount env split
          = Return {| sv_subaccount := code;
                      transaction_charge := kobo (platformRevenue split) |} /\
        PaymentInitialize.configure env split
          = Return (PaymentInitialize.Direct code (kobo (platformRevenue split)))
  | payouts =>
      shouldUseSplitPayment split = true /\
      getSingleVendorSubaccount env split = Throw notOneVendor /\
      PaymentInitialize.configure env split
        = Return (PaymentInitialize.Split (env "PAYSTACK_GRUNDY_SUBACCOUNT")
                    (map (subaccountOf env) payouts ++ [platformSubaccount env split]))
  end.
Proof.
  intros R. destruct (returned_split_is_registered _ R) as [_ Hreg]. clear R.
  assert (G : generateSubaccountsForSplit env split
              = Return (map (subaccountOf env) (vendorPayouts split)
                        ++ [platformSubaccount env split])).
  { unfold generateSubaccountsForSplit. rewrite (vendorSubaccounts_spec Hreg).
    reflexivity. }
  split; [exact G|]. split.
  { eapply Forall_impl; [|exact Hreg]. intros p Hp. unfold subaccountCode, registered in *.
    destruct (findVendor env (vendorId p)); [discriminate|discriminate]. }
  unfold PaymentInitialize.configure. rewrite G.
  unfold shouldUseSplitPayment, getSingleVendorSubaccount.
  destruct (vendorPayouts split) as [|p [|p' rest]] eqn:E.
  - repeat split; reflexivity.
  - inversion Hreg as [|? ? Rp _]; subst. unfold registered in Rp.
    unfold subaccountCode.
    destruct (findVendor env (vendorId p)) as [v|]; [|discriminate].
    exists (subaccount_code v). repeat split; reflexivity.
  - repeat split; reflexivity.
Qed.

Variable initialize :
  PaymentInitialize.TransactionData -> completion PaymentInitialize.Reply.

Lemma initialize_store nowMs nowIso body (orders : Orders) email asked cart :
  present (PaymentInitialize.email body) = Some email ->
  PaymentInitialize.b_amount body = Some asked ->
  truthyNumber asked = true ->
  PaymentInitialize.cartItems body = Some cart ->
  existsb inheritedVendor cart = false ->
  fst (PaymentInitialize.POST env initialize nowMs nowIso body orders)
  = snd (createOrder nowMs nowIso (prepayOrderData env body email asked cart) orders).
Proof.
  intros He Ha Ht Hc Hi.
  unfold PaymentInitialize.POST. rewrite He, Ha, Hc, Ht.
  rewrite calculateOrderSplit_spec, Hi.
  unfold createOrder, prepayOrderData. cbv zeta.
  destruct (PaymentInitialize.configure env (splitOf env cart)) as [configuration|];
    [|reflexivity].
  match goal with
  | |- context [initialize ?t] => destruct (initialize t) as [reply|]
  end; [|reflexivity].
  destruct (PaymentInitialize.r_status reply); reflexivity.
Qed.

(** X14.  The initialize route stores the order before it configures
    the payment and calls the gateway, and never takes it back: for a
    body with an email, a truthy amount and a cart that
    [calculateOrderSplit] accepts, the store gains one pending
    'prepay_now' order with the amount and the items of the body (the
    amount is not compared with the cart), whatever the gateway answers
    and whatever the response.  When the split has no payout the
    response is the 500 of the failed configuration, and the order
    stays. *)
Theorem initialize_stores_order_first nowMs nowIso body (orders : Orders)
    email asked cart :
  present (PaymentInitialize.email body) = Some email ->
  PaymentInitialize.b_amount body = Some asked ->
  truthyNumber asked = true ->
  PaymentInitialize.cartItems body = Some cart ->
  existsb inheritedVendor cart = false ->
  let result := PaymentInitialize.POST env initialize nowMs nowIso body orders in
  let split := splitOf env cart in
  exists order,
    fst result = orders ++ [order] /\
    order = fst (createOrder nowMs nowIso (prepayOrderData env body email asked cart)
                   orders) /\
    paymentStatus order = pending /\
    paymentMethod order = prepay_now /\
    (orderReference order, customerEmail order, amount order, items order)
      = (PaymentInitialize.b_orderReference body, email, asked, cart) /\
    vendorPayouts_snapshot order = Some (vendorPayouts split) /\
    (vendorPayouts split = [] -> snd result = PaymentInitialize.ServerError).
Proof.
  intros He Ha Ht Hc Hi result split.
  eexists. split; [|split; [reflexivity|]].
  - unfold result. rewrite (initialize_store nowMs nowIso body orders He Ha Ht Hc Hi).
    reflexivity.
  - repeat split.
    intros E. unfold result, PaymentInitialize.POST. rewrite He, Ha, Hc, Ht.
    rewrite calculateOrderSplit_spec, Hi. fold split.
    unfold PaymentInitialize.configure, shouldUseSplitPayment, getSingleVendorSubaccount.
    rewrite E. reflexivity.
Qed.

End ConfigurationMore.

(** ** The cart *)

Section CartMore.
Context {N : JSNumber}.
Local Open Scope js_scope.

Lemma cartReducer_total state action :
  cs_total state = cartTotal (cs_items state) ->
  cs_total (cartReducer state action) = cartTotal (cs_items (cartReducer state action)).
Proof.
  intros Inv. destruct action as [p|productId|productId q|]; cbn [cartReducer].
  - destruct (find (sameProduct (p_id p)) (cs_items state)) as [existingItem|];
      [|reflexivity].
    destruct (num_geb (quantity existingItem) (inventory p)); [exact Inv|reflexivity].
  - reflexivity.
  - destruct (num_eqb q (of_Z 0)); [reflexivity|].
    match goal with |- context [if ?b then state else _] => destruct b end;
      [exact Inv|reflexivity].
  - reflexivity.
Qed.

Lemma dispatchAll_invariant (P : CartState -> Prop) :
  (forall state action, P state -> P (cartReducer state action)) ->
  forall actions state, P state -> P (dispatchAll actions state).
Proof.
  intros Step actions. induction actions as [|a rest IH]; intros state H; [exact H|].
  cbn [dispatchAll fold_left]. apply IH, Step, H.
Qed.

Lemma productIds_map f (cartItems : list CartItem) :
  (forall item, product (f item) = product item) ->
  productIds (map f cartItems) = productIds cartItems.
Proof.
  intros Hf. unfold productIds. rewrite map_map. apply map_ext. intros item. now rewrite Hf.
Qed.

Lemma productIds_filter p (cartItems : list CartItem) :
  NoDup (productIds cartItems) -> NoDup (productIds (filter p cartItems)).
Proof.
  unfold productIds. induction cartItems as [|x rest IH]; intros H; [constructor|].
  cbn [map] in H. inversion H as [|? ? Hnotin Hrest]; subst.
  cbn [filter]. destruct (p x); [|now apply IH].
  cbn [map]. constructor; [|now apply IH].
  intros Hin. apply Hnotin. apply in_map_iff in Hin as (y & E & Hy).
  apply filter_In in Hy as [Hy _]. rewrite <- E.
  now apply in_map with (f := fun item => p_id (product item)).
Qed.

Lemma find_sameProduct_none productId (cartItems : list CartItem) :
  find (sameProduct productId) cartItems = None -> ~ In productId (productIds cartItems).
Proof.
  intros F Hin. unfold productIds in Hin. apply in_map_iff in Hin as (x & E & Hx).
  rewrite find_none_iff in F. specialize (F x Hx). unfold sameProduct in F.
  rewrite E, String.eqb_refl in F. discriminate.
Qed.

Lemma cartReducer_unique state action :
  NoDup (productIds (cs_items state)) ->
  NoDup (productIds (cs_items (cartReducer state action))).
Proof.
  intros Inv. destruct action as [p|productId|productId q|]; cbn [cartReducer].
  - destruct (find (sameProduct (p_id p)) (cs_items state)) as [existingItem|] eqn:F.
    + destruct (num_geb (quantity existingItem) (inventory p)); [exact Inv|].
      cbn [cs_items]. rewrite productIds_map; [exact Inv|].
      intros item. now destruct (sameProduct (p_id p) item).
    + cbn [cs_items]. unfold productIds. rewrite map_app. cbn [map product].
      apply find_sameProduct_none in F.
      apply NoDup_app; [exact Inv | repeat constructor; intros [] |].
      intros a Ha [<-|[]]. now apply F.
  - cbn [removeItem cs_items]. now apply productIds_filter.
  - destruct (num_eqb q (of_Z 0)); [cbn [removeItem cs_items]; now apply productIds_filter|].
    match goal with |- context [if ?b then state else _] => destruct b end;
      [exact Inv|].
    cbn [cs_items]. rewrite productIds_map; [exact Inv|].
    intros item. now destruct (sameProduct productId item).
  - constructor.
Qed.

(** X15.  The total of the cart is always the total of its lines: after
    any sequence of dispatched actions, starting from the empty cart,
    [total] is what the reduction over [items] gives, also after the
    actions that are refused for lack of inventory. *)
Theorem cart_total_is_the_sum_of_its_lines actions :
  let state := dispatchAll actions emptyCart in
  cs_total state = cartTotal (cs_items state) /\
  cs_total state = total lineTotal (cs_items state).
Proof.
  intros state.
  assert (H : cs_total state = cartTotal (cs_items state)).
  { unfold state. apply dispatchAll_invariant with
      (P := fun s => cs_total s = cartTotal (cs_items s)).
    - apply cartReducer_total.
    - reflexivity. }
  split; [exact H|]. rewrite H. reflexivity.
Qed.

(** X16.  A product has at most one line in the cart: after any sequence
    of dispatched actions, starting from the empty cart, no two lines
    carry the same product id.  Adding a product that has a line changes
    the quantity of that line, or nothing. *)
Theorem cart_has_one_line_per_product actions :
  NoDup (productIds (cs_items (dispatchAll actions emptyCart))) /\
  forall p,
    productIds (cs_items (cartReducer (dispatchAll actions emptyCart) (ADD_ITEM p)))
    = if existsb (String.eqb (p_id p)) (productIds (cs_items (dispatchAll actions emptyCart)))
      then productIds (cs_items (dispatchAll actions emptyCart))
      else productIds (cs_items (dispatchAll actions emptyCart)) ++ [p_id p].
Proof.
  split.
  - apply dispatchAll_invariant with
      (P := fun s => NoDup (productIds (cs_items s))).
    + apply cartReducer_unique.
    + constructor.
  - intros p. generalize (dispatchAll actions emptyCart). intros state.
    cbn [cartReducer].
    destruct (find (sameProduct (p_id p)) (cs_items state)) as [existingItem|] eqn:F.
    + assert (E : existsb (String.eqb (p_id p)) (productIds (cs_items state)) = true).
      { apply find_some in F as [Hin Hp]. apply existsb_exists.
        exists (p_id (product existingItem)). split.
        - unfold productIds. now apply in_map with (f := fun item => p_id (product item)).
        - unfold sameProduct in Hp. now rewrite String.eqb_sym. }
      rewrite E.
      destruct (num_geb (quantity existingItem) (inventory p)); [reflexivity|].
      cbn [cs_items]. apply productIds_map.
      intros item. now destruct (sameProduct (p_id p) item).
    + assert (E : existsb (String.eqb (p_id p)) (productIds (cs_items state)) = false).
      { apply find_sameProduct_none in F.
        destruct (existsb (String.eqb (p_id p)) (productIds (cs_items state))) eqn:X;
          [|reflexivity].
        apply existsb_exists in X as (k & Hk & Ek). apply String.eqb_eq in Ek.
        subst k. now destruct F. }
      rewrite E. cbn [cs_items]. unfold productIds. now rewrite map_app.
Qed.

End CartMore.

Section CheckoutMore.
Context {N : JSNumber}.
Variable env : Env.
Variable initialize :
  PaymentInitialize.TransactionData -> completion PaymentInitialize.Reply.
Local Open Scope js_scope.

Lemma split_total cart split :
  calculateOrderSplit env cart = Return split -> totalAmount split = cartTotal cart.
Proof.
  rewrite calculateOrderSplit_spec.
  destruct (existsb inheritedVendor cart); [discriminate|]. now intros [= <-].
Qed.

(** X17.  What the checkout page asks to be charged is the total of the
    split: for the cart state after any sequence of dispatched actions,
    the split that [calculateOrderSplit] returns for the cart's lines has
    the cart's total as its total amount; and when the initialize route
    answers the checkout's body with a success, the gateway was asked
    for that total in kobo, under the order reference of the body, with
    that split in the metadata. *)
Theorem checkout_charges_the_split_total actions email orderReference nowMs nowIso
    (orders : Orders) :
  let state := dispatchAll actions emptyCart in
  let body := checkoutBody state email orderReference in
  (forall split,
     calculateOrderSplit env (cs_items state) = Return split ->
     totalAmount split = cs_total state) /\
  match snd (PaymentInitialize.POST env initialize nowMs nowIso body orders) with
  | PaymentInitialize.Initialized reply split _ reference _ _ =>
      totalAmount split = cs_total state /\
      reference = orderReference /\
      exists transactionData,
        initialize transactionData = Return reply /\
        PaymentInitialize.t_amount transactionData = totalAmount split * of_Z 100 /\
        PaymentInitialize.t_orderSplit transactionData = split /\
        PaymentInitialize.t_reference transactionData = orderReference /\
        PaymentInitialize.t_orderReference transactionData = orderReference
  | _ => True
  end.
Proof.
  intros state body.
  assert (T : cs_total state = cartTotal (cs_items state)).
  { unfold state. apply dispatchAll_invariant with
      (P := fun s => cs_total s = cartTotal (cs_items s)).
    - apply cartReducer_total.
    - reflexivity. }
  split.
  - intros split R. rewrite T. now apply split_total.
  - unfold PaymentInitialize.POST, body, checkoutBody.
    cbn [PaymentInitialize.email PaymentInitialize.b_amount PaymentInitialize.cartItems
         PaymentInitialize.b_orderReference].
    destruct (present (Some email)); [|exact I].
    destruct (truthyNumber (cs_total state)); [|exact I].
    destruct (calculateOrderSplit env (cs_items state)) as [split|] eqn:R; [|exact I].
    apply split_total in R.
    unfold createOrder. cbv zeta.
    destruct (PaymentInitialize.configure env split) as [configuration|]; [|exact I].
    match goal with
    | |- context [initialize ?t] => destruct (initialize t) as [reply|] eqn:G
    end; [|exact I].
    destruct (PaymentInitialize.r_status reply); [|exact I].
    cbn [snd]. split; [congruence|]. split; [reflexivity|].
    eexists. split; [exact G|]. cbn. rewrite R, T. repeat split; reflexivity.
Qed.

End CheckoutMore.

(** ** Vendor payouts *)

Section PayoutsMore.
Context {N : JSNumber}.
Variable env : Env.
Variable transfer : nat -> TransferRequest -> completion TransferData.
Local Open Scope js_scope.

Lemma payoutStep_eq orderReference sent results payout :
  payoutStep env transfer orderReference (sent, results) payout =
  match findVendor env (vendorId payout) with
  | None => (sent, results)
  | Some vendor =>
      let request := transferRequest env orderReference payout vendor in
      (sent ++ [request],
       results ++ [resultOf payout (transfer (List.length sent) request)])
  end.
Proof.
  unfold payoutStep, resultOf.
  destruct (findVendor env (vendorId payout)) as [vendor|]; [|reflexivity].
  cbv zeta. now destruct (transfer _ _).
Qed.

Lemma resultOf_fields payout outcome :
  pr_vendorId (resultOf payout outcome) = vendorId payout /\
  pr_vendorName (resultOf payout outcome) = pc_vendorName payout /\
  pr_amount (resultOf payout outcome) = vendorPayout payout /\
  report (resultOf payout outcome) = reported payout outcome.
Proof. destruct outcome; repeat split; reflexivity. Qed.

(** The loop, for any state it is entered with. *)
Lemma payoutLoop_spec orderReference payouts sent results :
  let after := fold_left (payoutStep env transfer orderReference) payouts (sent, results) in
  exists made,
    fst after = sent ++ filterMap (requestFor env orderReference) payouts /\
    snd after = results ++ made /\
    map pr_vendorId made = map vendorId (payable env payouts) /\
    map pr_amount made = map vendorPayout (payable env payouts) /\
    forall k result,
      nth_error made k = Some result ->
      exists payout request,
        nth_error (payable env payouts) k = Some payout /\
        nth_error (filterMap (requestFor env orderReference) payouts) k = Some request /\
        report result = reported payout (transfer (List.length sent + k) request).
Proof.
  revert sent results. induction payouts as [|payout rest IH]; intros sent results after.
  - exists []. unfold after. cbn. rewrite !app_nil_r. repeat split.
    intros k result H. now destruct k.
  - unfold after. cbn [fold_left]. rewrite payoutStep_eq.
    unfold payable. cbn [filterMap filter]. unfold registered.
    change (requestFor env orderReference payout)
      with (option_map (transferRequest env orderReference payout)
              (findVendor env (vendorId payout))).
    destruct (findVendor env (vendorId payout)) as [vendor|] eqn:F; cbn [option_map].
    + cbv zeta.
      set (request := transferRequest env orderReference payout vendor).
      set (result := resultOf payout (transfer (List.length sent) request)).
      destruct (IH (sent ++ [request]) (results ++ [result])) as (made & E1 & E2 & V & A & K).
      destruct (resultOf_fields payout (transfer (List.length sent) request))
        as (Rv & _ & Ra & Rr).
      fold result in Rv, Ra, Rr.
      exists (result :: made). cbv zeta in *. rewrite E1, E2, <- !app_assoc. cbn [app].
      fold (payable env rest).
      split; [reflexivity|]. split; [reflexivity|].
      split; [cbn [map]; now rewrite V, Rv|].
      split; [cbn [map]; now rewrite A, Ra|].
      intros [|k] r H.
      * cbn [nth_error] in *. injection H as <-.
        exists payout, request. rewrite Nat.add_0_r. now repeat split.
      * cbn [nth_error] in *. destruct (K k r H) as (p & q & Hp & Hq & Rep).
        exists p, q. split; [exact Hp|]. split; [exact Hq|].
        rewrite length_app in Rep. cbn [List.length] in Rep.
        replace (List.length sent + S k)%nat with (List.length sent + 1 + k)%nat by lia.
        exact Rep.
    + fold (payable env rest). apply IH.
Qed.

(** X18.  [processVendorPayouts] attempts every payout of a registered
    vendor exactly once, in order, whatever the gateway answers: a
    transfer that fails or throws is reported and the loop goes on.  The
    results name the payable vendors with their payouts, the k-th result
    reports the gateway's answer to the k-th request, and the payouts of
    unknown vendors are passed over in silence. *)
Theorem every_registered_payout_is_attempted payouts orderReference :
  let requests := fst (processVendorPayouts env transfer payouts orderReference) in
  let results := snd (processVendorPayouts env transfer payouts orderReference) in
  requests = filterMap (requestFor env orderReference) payouts /\
  map tr_amount requests = map (fun p => kobo (vendorPayout p)) (payable env payouts) /\
  map pr_vendorId results = map vendorId (payable env payouts) /\
  map pr_amount results = map vendorPayout (payable env payouts) /\
  List.length results = List.length requests /\
  forall k result,
    nth_error results k = Some result ->
    exists payout request,
      nth_error (payable env payouts) k = Some payout /\
      nth_error requests k = Some request /\
      report result = reported payout (transfer k request).
Proof.
  intros requests results.
  destruct (payoutLoop_spec orderReference payouts [] []) as (made & E1 & E2 & V & A & K).
  cbv zeta in *. cbn [app List.length Nat.add] in *.
  fold (processVendorPayouts env transfer payouts orderReference) in E1, E2.
  fold requests in E1. fold results in E2. rewrite <- E2 in *.
  assert (Hamount : map tr_amount (filterMap (requestFor env orderReference) payouts)
                    = map (fun p => kobo (vendorPayout p)) (payable env payouts)).
  { clear. unfold payable, requestFor, registered.
    induction payouts as [|p rest IH]; [reflexivity|]. cbn [filterMap filter].
    destruct (findVendor env (vendorId p)); cbn [option_map map]; now rewrite IH. }
  split; [exact E1|]. split; [rewrite E1; exact Hamount|].
  split; [exact V|]. split; [exact A|]. split.
  - rewrite E1. rewrite <- (length_map pr_vendorId results), V, <- (length_map tr_amount),
      Hamount, !length_map. reflexivity.
  - intros k result H. destruct (K k result H) as (payout & request & Hp & Hr & Rep).
    exists payout, request. rewrite E1. now repeat split.
Qed.

(** X19.  For a split that [calculateOrderSplit] returned no payout is
    passed over, and the transfers asked of the gateway are, vendor by
    vendor, the shares that [generateSubaccountsForSplit] gives the
    vendors in the split configuration of the same order. *)
Theorem transfers_repeat_the_split_shares cart split orderReference :
  calculateOrderSplit env cart = Return split ->
  let requests :=
    fst (processVendorPayouts env transfer (vendorPayouts split) orderReference) in
  let results :=
    snd (processVendorPayouts env transfer (vendorPayouts split) orderReference) in
  exists subaccounts,
    generateSubaccountsForSplit env split
      = Return (subaccounts ++ [platformSubaccount env split]) /\
    map tr_amount requests = map share subaccounts /\
    map pr_vendorId results = map vendorId (vendorPayouts split) /\
    map tr_recipient requests
    = map (fun p => match findVendor env (vendorId p) with
                    | Some vendor => bank_account_number vendor
                    | None => ""
                    end) (vendorPayouts split).
Proof.
  intros R requests results.
  destruct (returned_split_is_registered env _ R) as [_ Hreg].
  exists (map (subaccountOf env) (vendorPayouts split)). split.
  { unfold generateSubaccountsForSplit. rewrite (vendorSubaccounts_spec env Hreg). reflexivity. }
  destruct (payoutLoop_spec orderReference (vendorPayouts split) [] [])
    as (made & E1 & E2 & V & _ & _).
  cbv zeta in *. cbn [app] in *.
  fold (processVendorPayouts env transfer (vendorPayouts split) orderReference) in E1, E2.
  fold requests in E1. fold results in E2. rewrite <- E2 in V. rewrite E1.
  assert (P : payable env (vendorPayouts split) = vendorPayouts split).
  { unfold payable. clear -Hreg. induction Hreg as [|p rest Hp _ IH]; [reflexivity|].
    cbn [filter]. now rewrite Hp, IH. }
  rewrite P in V. split; [|split; [exact V|]].
  - rewrite map_map. cbn [share subaccountOf]. clear -Hreg.
    induction Hreg as [|p rest Hp _ IH]; [reflexivity|].
    cbn [filterMap map]. unfold registered in Hp.
    change (requestFor env orderReference p)
      with (option_map (transferRequest env orderReference p)
              (findVendor env (vendorId p))).
    destruct (findVendor env (vendorId p)); [|discriminate]. cbn [option_map map].
    now rewrite IH.
  - clear -Hreg. induction Hreg as [|p rest Hp _ IH]; [reflexivity|].
    cbn [filterMap map]. unfold registered in Hp.
    change (requestFor env orderReference p)
      with (option_map (transferRequest env orderReference p)
              (findVendor env (vendorId p))).
    destruct (findVendor env (vendorId p)); [|discriminate]. cbn [option_map map].
    now rewrite IH.
Qed.

End PayoutsMore.

(** ** The delivery routes *)

Section DispatchMore.
Context {N : JSNumber}.

Lemma rider_found rider :
  In rider RiderDispatch.riders ->
  find (fun r => String.eqb (RiderDispatch.rider_id r) (RiderDispatch.rider_id rider))
       RiderDispatch.riders = Some rider.
Proof. intros [<-|[<-|[]]]; reflexivity. Qed.

(** X20.  The dispatch route assigns the rider together with the
    rider's own terminal, to any order that exists, whatever its status
    and whatever was assigned before; nothing else of the order changes.
    It answers 200 exactly when the order id and the rider id are given,
    the rider is one of the two riders and the order exists, and every
    other request leaves the store as it was. *)
Theorem dispatch_assigns_the_riders_terminal order_id rider_id (orders : Orders) :
  let result := RiderDispatch.POST order_id rider_id orders in
  match snd result with
  | RiderDispatch.Dispatched updated rider =>
      exists ref o,
        present order_id = Some ref /\
        present rider_id = Some (RiderDispatch.rider_id rider) /\
        In rider RiderDispatch.riders /\
        getOrderByReference ref orders = Some o /\
        fst result
          = updateOrderDeliveryStatus ref (Some (RiderDispatch.rider_id rider))
              (Some (RiderDispatch.terminal_id rider)) orders /\
        getOrderByReference ref (fst result) = updated /\
        option_map assignment updated
          = Some (Some (RiderDispatch.rider_id rider),
                  Some (RiderDispatch.terminal_id rider)) /\
        option_map paymentState updated = Some (paymentState o) /\
        option_map placement updated = Some (placement o)
  | _ => fst result = orders
  end /\
  forall ref rider o,
    present order_id = Some ref ->
    present rider_id = Some (RiderDispatch.rider_id rider) ->
    In rider RiderDispatch.riders ->
    getOrderByReference ref orders = Some o ->
    snd result
    = RiderDispatch.Dispatched
        (Some (applyDelivery (Some (RiderDispatch.rider_id rider))
                 (Some (RiderDispatch.terminal_id rider)) o)) rider.
Proof.
  intros result. unfold result, RiderDispatch.POST. split.
  - destruct (present order_id) as [ref|]; [|reflexivity].
    destruct (present rider_id) as [rid|]; [|reflexivity].
    destruct (find (fun r => String.eqb (RiderDispatch.rider_id r) rid) RiderDispatch.riders)
      as [rider|] eqn:F; [|reflexivity].
    destruct (getOrderByReference ref orders) as [o|] eqn:G; [|reflexivity].
    cbn [fst snd]. apply find_some in F as [Hin Hid]. apply String.eqb_eq in Hid.
    exists ref, o. unfold updateOrderDeliveryStatus.
    rewrite get_mutateFirst_same by apply applyDelivery_keepsReference. rewrite G.
    repeat split; try reflexivity; try assumption. now rewrite Hid.
  - intros ref rider o -> -> Hin G. rewrite (rider_found Hin), G. cbn [snd].
    unfold updateOrderDeliveryStatus.
    rewrite get_mutateFirst_same by apply applyDelivery_keepsReference. now rewrite G.
Qed.

(** X21.  The collect-payment route accepts a request only for an
    order that exists and is pending, and does not compare the terminal
    with the one assigned to the order.  An accepted request leaves the
    order pending and erases its [paymentDetails]; it keeps what the
    order was placed with, its payment reference and its assignment, and
    leaves on the timer a request that will mark the order paid for its
    amount in kobo, under the order's own reference.  A refused request
    changes nothing and schedules nothing. *)
Theorem collect_payment_takes_pending_orders nowMs order_id terminal_id (orders : Orders) :
  let result := TerminalCollectPayment.POST nowMs order_id terminal_id orders in
  match snd (fst result) with
  | TerminalCollectPayment.Requested event_id order terminal =>
      exists ref o,
        present order_id = Some ref /\
        present terminal_id = Some terminal /\
        getOrderByReference ref orders = Some o /\
        paymentStatus o = pending /\
        getOrderByReference ref (fst (fst result)) = Some order /\
        paymentStatus order = pending /\
        paymentDetails order = None /\
        (paymentReference order, paidAt order, deliveredAt order)
          = (paymentReference o, paidAt o, deliveredAt o) /\
        placement order = placement o /\
        assignment order = assignment o /\
        exists callback,
          snd result = Some callback /\
          forall firedAt,
            TerminalCollectPayment.su_orderReference (callback firedAt) = ref /\
            TerminalCollectPayment.su_status (callback firedAt) = paid /\
            reference (TerminalCollectPayment.su_paymentData (callback firedAt))
              = Some ref /\
            pd_amount (TerminalCollectPayment.su_paymentData (callback firedAt))
              = Some (mul (amount o) (of_Z 100))
  | _ => fst (fst result) = orders /\ snd result = None
  end /\
  forall other,
    present terminal_id <> None -> present other <> None ->
    fst (fst (TerminalCollectPayment.POST nowMs order_id other orders))
    = fst (fst result).
Proof.
  intros result. unfold result, TerminalCollectPayment.POST. split.
  - destruct (present order_id) as [ref|]; [|now split].
    destruct (present terminal_id) as [terminal|]; [|now split].
    destruct (getOrderByReference ref orders) as [o|] eqn:G; [|now split].
    destruct (paymentStatus o) eqn:S; cbn [PaymentStatus_eqb negb]; try now split.
    cbn [fst snd]. exists ref, o. unfold updateOrderPaymentStatus.
    rewrite get_mutateFirst_same by apply applyPayment_keepsReference. rewrite G.
    repeat split; try reflexivity; try assumption.
    eexists. split; [reflexivity|]. intros firedAt. repeat split; reflexivity.
  - intros other H1 H2.
    destruct (present order_id) as [ref|]; [|reflexivity].
    destruct (present terminal_id) as [terminal|]; [|congruence].
    destruct (present other) as [terminal'|]; [|congruence].
    destruct (getOrderByReference ref orders) as [o|]; [|reflexivity].
    destruct (negb (PaymentStatus_eqb (paymentStatus o) pending)); reflexivity.
Qed.

End DispatchMore.

Section TerminalDeliveryMore.
Context {N : JSNumber}.
Variable env : Env.

(** X22.  The terminal-delivery route creates an order only from a
    body with an email, a truthy amount and items that
    [calculateOrderSplit] accepts; the order is pending, unassigned,
    carries the split's payouts, the reference of the body or a
    generated ['ORDER_' + Date.now()], and a delivery address that
    defaults to 'Lagos, Nigeria'.  A body without email or amount is
    answered 400 and one whose items are missing or make the split throw
    500, and the store is as it was. *)
Theorem terminal_delivery_creates_a_pending_order referenceMs nowMs nowIso body
    (orders : Orders) :
  let result := TerminalDeliveryOrder.POST env referenceMs nowMs nowIso body orders in
  match snd result with
  | TerminalDeliveryOrder.Created order split =>
      exists email asked lines,
        present (TerminalDeliveryOrder.email body) = Some email /\
        TerminalDeliveryOrder.b_amount body = Some asked /\
        truthyNumber asked = true /\
        TerminalDeliveryOrder.b_items body = Some lines /\
        calculateOrderSplit env lines = Return split /\
        fst result = orders ++ [order] /\
        paymentStatus order = pending /\
        paymentMethod order = terminal_delivery /\
        orderReference order
          = orDefault (TerminalDeliveryOrder.b_orderReference body)
              ("ORDER_" ++ NilZero.string_of_int (Z.to_int referenceMs))%string /\
        customerName order
          = orDefault (TerminalDeliveryOrder.customer_name body) (beforeAt email) /\
        deliveryAddress order
          = Some (orDefault (TerminalDeliveryOrder.delivery_address body) "Lagos, Nigeria") /\
        (customerEmail order, amount order, items order) = (email, asked, lines) /\
        vendorPayouts_snapshot order = Some (vendorPayouts split) /\
        assignment order = (None, None) /\
        paymentReference order = None
  | _ => fst result = orders
  end.
Proof.
  intros result. unfold result, TerminalDeliveryOrder.POST.
  destruct (present (TerminalDeliveryOrder.email body)) as [email|]; [|reflexivity].
  destruct (TerminalDeliveryOrder.b_amount body) as [amount|]; [|reflexivity].
  destruct (truthyNumber amount) eqn:T; [|reflexivity].
  unfold TerminalDeliveryOrder.splitOfBody.
  destruct (TerminalDeliveryOrder.b_items body) as [items|]; [|reflexivity].
  destruct (calculateOrderSplit env items) as [split|] eqn:R; [|reflexivity].
  unfold createOrder. cbn [fst snd].
  exists email, amount, items. repeat split; reflexivity || assumption.
Qed.

Lemma terminal_delivery_created referenceMs nowMs nowIso body (orders : Orders)
    email asked lines :
  present (TerminalDeliveryOrder.email body) = Some email ->
  TerminalDeliveryOrder.b_amount body = Some asked ->
  truthyNumber asked = true ->
  TerminalDeliveryOrder.b_items body = Some lines ->
  existsb inheritedVendor lines = false ->
  let created :=
    createOrder nowMs nowIso (terminalOrderData env referenceMs body email asked lines)
      orders in
  TerminalDeliveryOrder.POST env referenceMs nowMs nowIso body orders
  = (snd created, TerminalDeliveryOrder.Created (fst created) (splitOf env lines)).
Proof.
  intros He Ha Ht Hi Hv created.
  unfold TerminalDeliveryOrder.POST, TerminalDeliveryOrder.splitOfBody.
  rewrite He, Ha, Ht, Hi, calculateOrderSplit_spec, Hv. reflexivity.
Qed.

End TerminalDeliveryMore.

Section FlowMore.
Context {N : JSNumber}.
Variable env : Env.

Lemma dispatch_accepted order_id ref rider (orders : Orders) o :
  present order_id = Some ref ->
  In rider RiderDispatch.riders ->
  getOrderByReference ref orders = Some o ->
  let rid := Some (RiderDispatch.rider_id rider) in
  let tid := Some (RiderDispatch.terminal_id rider) in
  RiderDispatch.POST order_id rid orders
  = (updateOrderDeliveryStatus ref rid tid orders,
     RiderDispatch.Dispatched (Some (applyDelivery rid tid o)) rider).
Proof.
  intros Hr Hin G rid tid. unfold RiderDispatch.POST. rewrite Hr.
  assert (Trider : present rid = Some (RiderDispatch.rider_id rider))
    by (destruct Hin as [<-|[<-|[]]]; reflexivity).
  rewrite Trider, (rider_found Hin), G. fold rid tid.
  unfold updateOrderDeliveryStatus.
  rewrite get_mutateFirst_same by apply applyDelivery_keepsReference. now rewrite G.
Qed.

Lemma collect_accepted nowMs order_id terminal_id ref terminal (orders : Orders) o :
  present order_id = Some ref ->
  present terminal_id = Some terminal ->
  getOrderByReference ref orders = Some o ->
  paymentStatus o = pending ->
  let order := applyPayment "" pending None o in
  TerminalCollectPayment.POST nowMs order_id terminal_id orders
  = (updateOrderPaymentStatus "" ref pending None orders,
     TerminalCollectPayment.Requested
       ("terminal_event_" ++ NilZero.string_of_int (Z.to_int nowMs))%string order terminal,
     Some (TerminalCollectPayment.simulatedPayment ref order)).
Proof.
  intros Hr Ht G S order. unfold TerminalCollectPayment.POST.
  rewrite Hr, Ht, G, S. reflexivity.
Qed.

Lemma update_accepted now body ref status (orders : Orders) :
  present (UpdatePaymentStatus.b_orderReference body) = Some ref ->
  UpdatePaymentStatus.status body = Some status ->
  let after :=
    updateOrderPaymentStatus now ref status (UpdatePaymentStatus.paymentData body) orders in
  UpdatePaymentStatus.POST now body orders
  = (after, UpdatePaymentStatus.Updated (getOrderByReference ref after)).
Proof.
  intros Hr Hs after. unfold UpdatePaymentStatus.POST. now rewrite Hr, Hs.
Qed.

Lemma present_again a s : present a = Some s -> present (Some s) = Some s.
Proof.
  unfold present. destruct (truthy a) eqn:T; [|discriminate].
  intros ->. now rewrite T.
Qed.

(** X23.  The terminal-on-delivery flow composes: an order created by
    the terminal-delivery route under a reference that is new to the
    store can be dispatched to a rider, the rider's terminal can collect
    for it, and when the request left on the timer is served the order
    is paid, with its own reference as payment reference and the rider
    and terminal still assigned. *)
Theorem terminal_delivery_flow referenceMs nowMs nowIso body (orders : Orders)
    ref email asked lines rider eventMs firedAt paidNow :
  present (TerminalDeliveryOrder.b_orderReference body) = Some ref ->
  getOrderByReference ref orders = None ->
  present (TerminalDeliveryOrder.email body) = Some email ->
  TerminalDeliveryOrder.b_amount body = Some asked ->
  truthyNumber asked = true ->
  TerminalDeliveryOrder.b_items body = Some lines ->
  existsb inheritedVendor lines = false ->
  In rider RiderDispatch.riders ->
  let created := TerminalDeliveryOrder.POST env referenceMs nowMs nowIso body orders in
  let dispatched :=
    RiderDispatch.POST (Some ref) (Some (RiderDispatch.rider_id rider)) (fst created) in
  let collected :=
    TerminalCollectPayment.POST eventMs (Some ref) (Some (RiderDispatch.terminal_id rider))
      (fst dispatched) in
  exists order updated event_id requested callback,
    snd created = TerminalDeliveryOrder.Created order (splitOf env lines) /\
    snd dispatched = RiderDispatch.Dispatched (Some updated) rider /\
    snd (fst collected)
      = TerminalCollectPayment.Requested event_id requested
          (RiderDispatch.terminal_id rider) /\
    paymentStatus requested = pending /\
    snd collected = Some callback /\
    let settled :=
      UpdatePaymentStatus.POST paidNow (bodyOf (callback firedAt)) (fst (fst collected)) in
    exists final,
      snd settled = UpdatePaymentStatus.Updated (Some final) /\
      getOrderByReference ref (fst settled) = Some final /\
      paymentStatus final = paid /\
      paidAt final = Some paidNow /\
      paymentReference final = Some ref /\
      assignment final
        = (Some (RiderDispatch.rider_id rider), Some (RiderDispatch.terminal_id rider)) /\
      placement final = placement order /\
      List.length (fst settled) = S (List.length orders).
Proof.
  intros Hr Hfresh He Ha Ht Hi Hv Hin created dispatched collected.
  pose proof (present_again _ Hr) as Tref.
  assert (Tterminal : present (Some (RiderDispatch.terminal_id rider))
                      = Some (RiderDispatch.terminal_id rider))
    by (destruct Hin as [<-|[<-|[]]]; reflexivity).
  assert (Tr : truthy (Some ref) = true).
  { unfold present in Tref. destruct (truthy (Some ref)); [reflexivity|discriminate]. }
  (* the order is created *)
  pose proof (@terminal_delivery_created _ env referenceMs nowMs nowIso body orders
                email asked lines He Ha Ht Hi Hv) as C.
  cbv zeta in C. fold created in C.
  set (order := fst (createOrder nowMs nowIso
                       (terminalOrderData env referenceMs body email asked lines) orders))
    in *.
  assert (Hstore : fst created = orders ++ [order]) by (rewrite C; reflexivity).
  assert (Horder : orderReference order = ref).
  { unfold order, createOrder, terminalOrderData. cbn. unfold orDefault. now rewrite Hr. }
  assert (G0 : getOrderByReference ref (fst created) = Some order)
    by (rewrite Hstore; now apply get_fresh_append).
  (* it is dispatched *)
  pose proof (@dispatch_accepted (Some ref) ref rider (fst created) order Tref Hin G0) as D.
  cbv zeta in D. fold dispatched in D.
  set (rid := Some (RiderDispatch.rider_id rider)) in *.
  set (tid := Some (RiderDispatch.terminal_id rider)) in *.
  assert (G1 : getOrderByReference ref (fst dispatched) = Some (applyDelivery rid tid order)).
  { rewrite D. cbn [fst]. unfold updateOrderDeliveryStatus.
    rewrite get_mutateFirst_same by apply applyDelivery_keepsReference. now rewrite G0. }
  (* the terminal collects *)
  pose proof (@collect_accepted eventMs (Some ref) tid ref _ (fst dispatched) _
                Tref Tterminal G1 eq_refl) as K.
  cbv zeta in K. fold collected in K.
  set (requested := applyPayment "" pending None (applyDelivery rid tid order)) in *.
  assert (G2 : getOrderByReference ref (fst (fst collected)) = Some requested).
  { rewrite K. cbn [fst]. unfold updateOrderPaymentStatus.
    rewrite get_mutateFirst_same by apply applyPayment_keepsReference. now rewrite G1. }
  exists order, (applyDelivery rid tid order),
    ("terminal_event_" ++ NilZero.string_of_int (Z.to_int eventMs))%string, requested,
    (TerminalCollectPayment.simulatedPayment ref requested).
  split; [rewrite C; reflexivity|]. split; [rewrite D; reflexivity|].
  split; [rewrite K; reflexivity|]. split; [reflexivity|].
  split; [rewrite K; reflexivity|].
  (* the request on the timer is served *)
  cbv zeta.
  pose proof (@update_accepted paidNow
                (bodyOf (TerminalCollectPayment.simulatedPayment ref requested firedAt))
                ref paid (fst (fst collected)) Tref eq_refl) as U.
  cbv zeta in U. rewrite U. cbn [fst snd].
  unfold updateOrderPaymentStatus.
  rewrite get_mutateFirst_same by apply applyPayment_keepsReference. rewrite G2.
  cbn [option_map]. eexists. split; [reflexivity|]. split; [reflexivity|].
  repeat split.
  - cbn. unfold or_else. cbn [reference]. now rewrite Tr.
  - rewrite mutateFirst_length, K. cbn [fst]. unfold updateOrderPaymentStatus.
    rewrite mutateFirst_length, D. cbn [fst]. unfold updateOrderDeliveryStatus.
    rewrite mutateFirst_length, Hstore, length_app. cbn. lia.
Qed.

End FlowMore.

(** ** The vendor totals *)

Section ObjectFacts.
Variable V : Type.

Lemma own_alter (f : V -> V) key k (o : object V) :
  own k (alter f key o) = if String.eqb key k then option_map f (own k o) else own k o.
Proof.
  induction o as [|[x v] rest IH]; cbn [alter own].
  - now destruct (String.eqb key k).
  - destruct (String.eqb_spec x key) as [->|Hx]; cbn [own].
    + destruct (String.eqb_spec key k) as [->|Hk]; [reflexivity|reflexivity].
    + destruct (String.eqb_spec x k) as [->|Hk].
      * destruct (String.eqb_spec key k) as [->|_]; [congruence|reflexivity].
      * exact IH.
Qed.

Lemma own_define key (v : V) k (o : object V) :
  own k (define key v o) =
  match own k o with
  | Some x => Some x
  | None => if String.eqb key k then Some v else None
  end.
Proof.
  unfold define. induction o as [|[x w] rest IH]; cbn [app own]; [reflexivity|].
  destruct (String.eqb x k); [reflexivity|exact IH].
Qed.

Lemma own_none_keys k (o : object V) : own k o = None <-> ~ In k (map fst o).
Proof.
  induction o as [|[x v] rest IH]; cbn [own map fst In]; [tauto|].
  destruct (String.eqb_spec x k) as [->|Hx].
  - split; [discriminate|]. intros H. exfalso. apply H. now left.
  - rewrite IH. tauto.
Qed.

Lemma own_In k v (o : object V) :
  NoDup (map fst o) -> (In (k, v) o <-> own k o = Some v).
Proof.
  induction o as [|[x w] rest IH]; cbn [own map fst In]; intros ND.
  - split; [intros []|discriminate].
  - inversion ND as [|? ? Hnotin ND']; subst.
    destruct (String.eqb_spec x k) as [->|Hx].
    + split.
      * intros [[= ->]|Hin]; [reflexivity|].
        exfalso. apply Hnotin. now apply in_map with (f := fst) in Hin.
      * intros [= ->]. now left.
    + rewrite <- (IH ND'). split.
      * intros [[= -> _]|Hin]; [congruence|exact Hin].
      * intros Hin. now right.
Qed.

Lemma insert_by_index_Permutation n (e : string * V) sorted :
  Permutation (insert_by_index n e sorted) ((n, e) :: sorted).
Proof.
  induction sorted as [|[m e'] rest IH]; cbn [insert_by_index]; [reflexivity|].
  destruct (n <? m)%N; [reflexivity|].
  rewrite IH. apply perm_swap.
Qed.

(** [Object.entries] lists each own property once. *)
Lemma Object_entries_Permutation (o : object V) : Permutation (Object_entries o) o.
Proof.
  unfold Object_entries. induction o as [|[k v] rest IH]; [reflexivity|].
  cbn [index_entries named_entries filter fst].
  destruct (array_index k) as [n|].
  - rewrite insert_by_index_Permutation. cbn [map snd app]. now constructor.
  - fold (named_entries rest). rewrite <- Permutation_middle. now constructor.
Qed.

End ObjectFacts.

Section VendorOrdersMore.
Context {N : JSNumber}.
Local Open Scope js_scope.

Lemma addOrders_payouts (orders : Orders) acc :
  fold_left VendorOrders.addOrder orders acc
  = fold_left VendorOrders.addPayout (allPayouts orders) acc.
Proof.
  revert acc. induction orders as [|o rest IH]; intros acc; [reflexivity|].
  cbn [fold_left allPayouts flat_map]. rewrite fold_left_app, IH.
  unfold VendorOrders.addOrder. now destruct (vendorPayouts_snapshot o).
Qed.

Lemma payoutsOf_snoc k payouts p :
  payoutsOf k (payouts ++ [p])
  = if String.eqb (vendorId p) k then payoutsOf k payouts ++ [p] else payoutsOf k payouts.
Proof.
  unfold payoutsOf. rewrite filter_app. cbn [filter].
  destruct (String.eqb (vendorId p) k); [reflexivity|apply app_nil_r].
Qed.

Lemma totalsOf_other k payouts p :
  String.eqb (vendorId p) k = false -> totalsOf k (payouts ++ [p]) = totalsOf k payouts.
Proof. intros D. unfold totalsOf. now rewrite payoutsOf_snoc, D. Qed.

(** The accumulator after the loops, key by key. *)
Lemma accumulated_own payouts k :
  own k (fold_left VendorOrders.addPayout payouts []) = totalsOf k payouts.
Proof.
  revert k. induction payouts as [|p rest IH] using rev_ind; intros k; [reflexivity|].
  rewrite fold_left_app. cbn [fold_left].
  set (acc := fold_left VendorOrders.addPayout rest []) in *.
  unfold VendorOrders.addPayout.
  pose proof (IH (vendorId p)) as Hid.
  destruct (own (vendorId p) acc) as [t|] eqn:O.
  - (* the vendor has a row *)
    rewrite own_alter.
    destruct (String.eqb_spec (vendorId p) k) as [<-|D].
    + rewrite O. cbn [option_map]. unfold totalsOf in *.
      rewrite payoutsOf_snoc, String.eqb_refl.
      destruct (payoutsOf (vendorId p) rest) as [|first others]; [discriminate|].
      destruct (inherited (vendorId p)); [discriminate|].
      injection Hid as ->. cbn [app].
      change (first :: others ++ [p]) with ((first :: others) ++ [p]).
      rewrite !total_snoc. reflexivity.
    + rewrite IH. symmetry. apply totalsOf_other. now apply String.eqb_neq.
  - destruct (inherited (vendorId p)) eqn:Inh.
    + (* an inherited name: nothing is recorded *)
      destruct (String.eqb_spec (vendorId p) k) as [<-|D].
      * rewrite O. unfold totalsOf. rewrite payoutsOf_snoc, String.eqb_refl, Inh.
        now destruct (payoutsOf (vendorId p) rest ++ [p]).
      * rewrite IH. symmetry. apply totalsOf_other. now apply String.eqb_neq.
    + (* the first payout of the vendor *)
      rewrite own_define.
      destruct (String.eqb_spec (vendorId p) k) as [<-|D].
      * rewrite O. unfold totalsOf in *.
        rewrite payoutsOf_snoc, String.eqb_refl, Inh in *.
        destruct (payoutsOf (vendorId p) rest) as [|first others]; [|discriminate].
        reflexivity.
      * rewrite IH, (@totalsOf_other k rest p) by now apply String.eqb_neq.
        now destruct (totalsOf k rest).
Qed.

Lemma accumulated_keys payouts :
  NoDup (map fst (fold_left VendorOrders.addPayout payouts [])).
Proof.
  induction payouts as [|p rest IH] using rev_ind; [constructor|].
  rewrite fold_left_app. cbn [fold_left].
  set (acc := fold_left VendorOrders.addPayout rest []) in *.
  unfold VendorOrders.addPayout.
  destruct (own (vendorId p) acc) as [t|] eqn:O.
  - now rewrite keys_alter.
  - destruct (inherited (vendorId p)); [exact IH|].
    rewrite keys_define. apply own_none_keys in O.
    apply NoDup_app; [exact IH | repeat constructor; intros [] |].
    intros a Ha [<-|[]]. now apply O.
Qed.

Lemma totalsOf_vendorId k payouts row :
  totalsOf k payouts = Some row -> VendorOrders.vt_vendorId row = k.
Proof.
  unfold totalsOf. destruct (payoutsOf k payouts); [discriminate|].
  destruct (inherited k); [discriminate|]. now intros [= <-].
Qed.

Lemma totalsOf_some k payouts :
  (exists row, totalsOf k payouts = Some row)
  <-> In k (map vendorId payouts) /\ inherited k = false.
Proof.
  unfold totalsOf, payoutsOf. split.
  - intros (row & H).
    destruct (filter (fun payout => String.eqb (vendorId payout) k) payouts)
      as [|first others] eqn:F; [discriminate|].
    destruct (inherited k); [discriminate|]. split; [|reflexivity].
    assert (Hin : In first (filter (fun payout => String.eqb (vendorId payout) k) payouts))
      by (rewrite F; now left).
    apply filter_In in Hin as [Hin E]. apply String.eqb_eq in E. rewrite <- E.
    now apply in_map.
  - intros [Hin Inh]. rewrite Inh.
    apply in_map_iff in Hin as (p & E & Hp).
    assert (Hf : In p (filter (fun payout => String.eqb (vendorId payout) k) payouts)).
    { apply filter_In. split; [exact Hp|]. now apply String.eqb_eq. }
    destruct (filter (fun payout => String.eqb (vendorId payout) k) payouts);
      [destruct Hf | now eexists].
Qed.

(** X24.  The vendor dashboard's totals are sums per vendor: the rows
    returned by the vendor-orders route are one per vendor id that occurs
    in the payout snapshot of a stored order (ids that name a property
    inherited from [Object.prototype] excepted), and the row of a vendor
    carries the name on its first payout, its sales and its payouts
    added up from 0 in store order, and as [ordersCount] the number of
    its payouts.  The orders are returned as stored. *)
Theorem vendor_rows_are_sums_per_vendor (orders : Orders) :
  let payouts := allPayouts orders in
  let rows := snd (VendorOrders.GET orders) in
  fst (VendorOrders.GET orders) = orders /\
  (forall row, In row rows <-> exists vendor, totalsOf vendor payouts = Some row) /\
  NoDup (map VendorOrders.vt_vendorId rows) /\
  (forall vendor,
     In vendor (map VendorOrders.vt_vendorId rows)
     <-> In vendor (map vendorId payouts) /\ inherited vendor = false).
Proof.
  intros payouts rows.
  set (acc := fold_left VendorOrders.addPayout payouts []).
  assert (Hrows : rows = map snd (Object_entries acc)).
  { unfold rows, VendorOrders.GET, getAllOrders. cbn [snd].
    now rewrite addOrders_payouts. }
  pose proof (Object_entries_Permutation acc) as P.
  pose proof (accumulated_keys payouts) as ND. fold acc in ND.
  assert (Hin : forall row, In row rows <-> exists vendor, totalsOf vendor payouts = Some row).
  { intros row. rewrite Hrows. split.
    - intros H. apply in_map_iff in H as ([k t] & E & H). cbn in E. subst t.
      apply (Permutation_in _ P) in H. apply (@own_In _ _ _ _ ND) in H.
      exists k. unfold acc in H. now rewrite accumulated_own in H.
    - intros (k & H). rewrite <- accumulated_own in H. fold acc in H.
      apply (@own_In _ _ _ _ ND) in H. apply (Permutation_in _ (Permutation_sym P)) in H.
      apply in_map_iff. now exists (k, row). }
  assert (Hids : map VendorOrders.vt_vendorId rows = map fst (Object_entries acc)).
  { rewrite Hrows, map_map. apply map_ext_in. intros [k t] H. cbn.
    apply (Permutation_in _ P) in H. apply (@own_In _ _ _ _ ND) in H.
    unfold acc in H. rewrite accumulated_own in H. now apply totalsOf_vendorId in H. }
  split; [reflexivity|]. split; [exact Hin|]. split.
  - rewrite Hids. apply (Permutation_NoDup (l := map fst acc)); [|exact ND].
    apply Permutation_map. now apply Permutation_sym.
  - intros vendor. rewrite <- totalsOf_some. split.
    + intros H. apply in_map_iff in H as (row & E & H). apply Hin in H as (k & H).
      pose proof (totalsOf_vendorId _ _ H) as E'. exists row. congruence.
    + intros (row & H). apply in_map_iff. exists row. split.
      * now apply totalsOf_vendorId in H.
      * apply Hin. now exists vendor.
Qed.

End VendorOrdersMore.

(** ** Payment verification *)

Section VerifyMore.
Context {N : JSNumber}.
Variable verify : string -> completion PaymentVerify.Verification.

(** X25.  The verify route changes the store only when the gateway
    reports the transaction successful, and then through
    [updateOrderPaymentStatus] under the reference it was asked about:
    the first order with that reference is marked paid with the
    gateway's data, and when no order carries the reference nothing is
    stored although the answer is passed on.  A missing reference, a
    gateway that cannot be reached and an answer that is not a success
    leave the store as it was; no request adds or removes an order. *)
Theorem verification_marks_paid_on_success now reference (orders : Orders) :
  let result := PaymentVerify.GET verify now reference orders in
  match snd result with
  | PaymentVerify.Answer data =>
      exists ref,
        present reference = Some ref /\
        verify ref = Return data /\
        match PaymentVerify.v_data data with
        | Some paymentData =>
            if PaymentVerify.v_status data
               && opt_string_eqb (pd_status paymentData) (Some "success")
            then fst result
                 = updateOrderPaymentStatus now ref paid (Some paymentData) orders /\
                 getOrderByReference ref (fst result)
                 = option_map (applyPayment now paid (Some paymentData))
                     (getOrderByReference ref orders)
            else fst result = orders
        | None => PaymentVerify.v_status data = false /\ fst result = orders
        end
  | _ => fst result = orders
  end /\
  List.length (fst result) = List.length orders /\
  map placement (fst result) = map placement orders /\
  (forall ref,
     present reference = Some ref -> getOrderByReference ref orders = None ->
     fst result = orders).
Proof.
  intros result. unfold result, PaymentVerify.GET.
  destruct (present reference) as [ref|]; [|repeat split; reflexivity].
  destruct (verify ref) as [data|] eqn:V; [|repeat split; reflexivity].
  destruct (PaymentVerify.v_status data) eqn:S.
  - destruct (PaymentVerify.v_data data) as [d|] eqn:D; [|repeat split; reflexivity].
    destruct (opt_string_eqb (pd_status d) (Some "success")) eqn:E; cbn [fst snd].
    + split; [|split; [|split]].
      * exists ref. rewrite D, S, E. cbn [andb].
        split; [reflexivity|]. split; [exact V|]. split; [reflexivity|].
        unfold updateOrderPaymentStatus.
        now rewrite get_mutateFirst_same by apply applyPayment_keepsReference.
      * apply mutateFirst_length.
      * apply mutateFirst_placement, applyPayment_placement.
      * intros r [= <-] G. now apply mutateFirst_none.
    + split; [|repeat split; reflexivity].
      exists ref. rewrite D, S, E. cbn [andb]. now repeat split.
  - cbn [fst snd]. split; [|repeat split; reflexivity].
    exists ref. rewrite S. cbn [andb]. destruct (PaymentVerify.v_data data); now repeat split.
Qed.

End VerifyMore.

(** ** From the shop to the split *)

Section ShopMore.
Context {N : JSNumber}.
Variable env : Env.

Lemma catalogue_is_registered p :
  In p products -> registered env (vendor p) = true.
Proof.
  intros H. repeat (destruct H as [<-|H]; [reflexivity|]). destruct H.
Qed.

Lemma cartReducer_catalogue state action :
  fromCatalogue action ->
  Forall (fun item => In (product item) products) (cs_items state) ->
  Forall (fun item => In (product item) products) (cs_items (cartReducer state action)).
Proof.
  intros Ha Inv. destruct action as [p|productId|productId q|]; cbn [cartReducer].
  - destruct (find (sameProduct (p_id p)) (cs_items state)) as [existingItem|].
    + destruct (num_geb (quantity existingItem) (inventory p)); [exact Inv|].
      cbn [cs_items]. apply Forall_map. eapply Forall_impl; [|exact Inv].
      intros item Hi. now destruct (sameProduct (p_id p) item).
    + cbn [cs_items]. apply Forall_app. split; [exact Inv|].
      constructor; [exact Ha|constructor].
  - cbn [removeItem cs_items]. apply Forall_forall. intros item Hi.
    apply filter_In in Hi as [Hi _]. rewrite Forall_forall in Inv. now apply Inv.
  - destruct (num_eqb q (of_Z 0)).
    + cbn [removeItem cs_items]. apply Forall_forall. intros item Hi.
      apply filter_In in Hi as [Hi _]. rewrite Forall_forall in Inv. now apply Inv.
    + match goal with |- context [if ?b then state else _] => destruct b end;
        [exact Inv|].
      cbn [cs_items]. apply Forall_map. eapply Forall_impl; [|exact Inv].
      intros item Hi. now destruct (sameProduct productId item).
  - constructor.
Qed.

Lemma dispatchAll_catalogue actions state :
  Forall fromCatalogue actions ->
  Forall (fun item => In (product item) products) (cs_items state) ->
  Forall (fun item => In (product item) products) (cs_items (dispatchAll actions state)).
Proof.
  revert state. induction actions as [|a rest IH]; intros state Ha Inv; [exact Inv|].
  inversion Ha; subst. cbn [dispatchAll fold_left]. apply IH; [assumption|].
  now apply cartReducer_catalogue.
Qed.

Lemma filter_all {A} (p : A -> bool) l : Forall (fun x => p x = true) l -> filter p l = l.
Proof.
  induction 1 as [|x rest Hx _ IH]; [reflexivity|]. cbn [filter]. now rewrite Hx, IH.
Qed.

Lemma firstSeen_nil ids : firstSeen ids = [] -> ids = [].
Proof.
  destruct ids as [|k rest]; [reflexivity|]. intros E.
  pose proof (firstSeen_seen (k :: rest) k) as S. rewrite E in S. cbn in S.
  rewrite String.eqb_refl in S. discriminate.
Qed.

(** X26.  A cart filled from the catalogue is split among its vendors:
    after any sequence of dispatched actions that add catalogue products
    only, every line is sold by a registered vendor, so
    [calculateOrderSplit] returns, for the cart's total, one payout per
    vendor of the cart in the order in which the vendors are first seen,
    none skipped, and there is no payout only for the empty cart. *)
Theorem shop_cart_is_split_among_its_vendors actions :
  Forall fromCatalogue actions ->
  let state := dispatchAll actions emptyCart in
  Forall (fun item => In (product item) products) (cs_items state) /\
  allRegistered env (cs_items state) = true /\
  exists split,
    calculateOrderSplit env (cs_items state) = Return split /\
    totalAmount split = cs_total state /\
    map vendorId (vendorPayouts split) = firstSeen (map vendorOf (cs_items state)) /\
    (vendorPayouts split = [] <-> cs_items state = []).
Proof.
  intros Ha state.
  assert (C : Forall (fun item => In (product item) products) (cs_items state)).
  { unfold state. apply dispatchAll_catalogue; [exact Ha|constructor]. }
  assert (R : allRegistered env (cs_items state) = true).
  { unfold allRegistered. apply forallb_forall. intros item Hi.
    rewrite Forall_forall in C. apply catalogue_is_registered. now apply C. }
  assert (T : cs_total state = cartTotal (cs_items state)).
  { unfold state. apply dispatchAll_invariant with
      (P := fun s => cs_total s = cartTotal (cs_items s)).
    - apply cartReducer_total.
    - reflexivity. }
  split; [exact C|]. split; [exact R|].
  exists (splitOf env (cs_items state)).
  assert (V : map vendorId (vendorPayouts (splitOf env (cs_items state)))
              = firstSeen (map vendorOf (cs_items state))).
  { unfold splitOf. cbn [vendorPayouts]. rewrite payout_vendorIds.
    rewrite filter_all by now apply allRegistered_keys.
    apply keys_grouped. }
  split; [|split; [|split]].
  - rewrite calculateOrderSplit_spec, (allRegistered_not_inherited env _ R). reflexivity.
  - now rewrite T.
  - exact V.
  - split.
    + intros E. rewrite E in V. cbn [map] in V. symmetry in V.
      apply firstSeen_nil in V. now apply map_eq_nil in V.
    + intros E. rewrite E. reflexivity.
Qed.

End ShopMore.

(** ** From the checkout to the paid order *)

Section PrepayMore.
Context {N : JSNumber}.
Variable env : Env.

Lemma resolve_by_metadata paymentData (orders : Orders) ref o :
  metadata_orderReference paymentData = Some ref ->
  ref <> "" ->
  getOrderByReference ref orders = Some o ->
  resolveOrder paymentData orders = Some (ref, o).
Proof.
  intros M Hne G. unfold resolveOrder. rewrite M.
  assert (T : truthy (Some ref) = true) by (destruct ref; [congruence|reflexivity]).
  now rewrite T, G.
Qed.

(** X27.  A notification whose metadata names a stored order, and which
    does not set off the test-mode simulation, marks that order paid,
    and nothing of the notification is compared with the order:
    whatever amount, status and customer it carries (and also when other
    orders share the reference) the first order with the named reference
    ends ['paid'], with [paidAt] the time of handling and the
    notification as [paymentDetails], and keeps its own amount and what
    it was placed with. *)
Theorem named_order_is_marked_paid now paymentData (orders : Orders) ref o :
  simulatedPayment env paymentData = None ->
  metadata_orderReference paymentData = Some ref ->
  ref <> "" ->
  getOrderByReference ref orders = Some o ->
  let after := afterCharge env now paymentData orders in
  resolveOrder paymentData orders = Some (ref, o) /\
  getOrderByReference ref after = Some (markPaid now ref paymentData o) /\
  option_map paymentStatus (getOrderByReference ref after) = Some paid /\
  option_map paidAt (getOrderByReference ref after) = Some (Some now) /\
  option_map paymentDetails (getOrderByReference ref after)
    = Some (Some (storedPayload ref paymentData)) /\
  option_map placement (getOrderByReference ref after) = Some (placement o) /\
  option_map amount (getOrderByReference ref after) = Some (amount o).
Proof.
  intros _ M Hne G after.
  pose proof (resolve_by_metadata paymentData orders M Hne G) as R.
  assert (E : getOrderByReference ref after = Some (markPaid now ref paymentData o)).
  { unfold after. rewrite afterCharge_spec, R. unfold updateOrderPaymentStatus.
    rewrite get_mutateFirst_same by apply applyPayment_keepsReference. now rewrite G. }
  rewrite E. repeat split; try reflexivity. exact R.
Qed.

Variable initialize :
  PaymentInitialize.TransactionData -> completion PaymentInitialize.Reply.
Variable hmac_sha512_hex : string -> string -> string.
Variable JSON_parse : string -> completion (option PaystackWebhook.WebhookEvent).

(** X28.  The prepayment flow composes: after the initialize route has
    stored an order under a reference new to the store (whatever the
    gateway answered), a webhook request that is not refused and parses
    to a ['charge.success'] event naming that reference in its metadata,
    for a charge that does not set off the test-mode simulation (any
    charge outside development and test mode, and any charge on another
    channel than 'terminal'), is answered 200 and leaves the order
    ['paid'], with [paidAt] the time of handling, the amount and items of
    the checkout, and the notification as [paymentDetails]; the store
    has grown by exactly one order. *)
Theorem prepay_flow nowMs nowIso body (orders : Orders) email asked cart
    request data notified paidNow :
  present (PaymentInitialize.email body) = Some email ->
  PaymentInitialize.b_amount body = Some asked ->
  truthyNumber asked = true ->
  PaymentInitialize.cartItems body = Some cart ->
  existsb inheritedVendor cart = false ->
  PaymentInitialize.b_orderReference body <> "" ->
  getOrderByReference (PaymentInitialize.b_orderReference body) orders = None ->
  PaystackWebhook.signatureRefused env hmac_sha512_hex request = false ->
  JSON_parse (PaystackWebhook.payload request) = Return (Some data) ->
  PaystackWebhook.we_event data = Some "charge.success" ->
  PaystackWebhook.we_data data = Some notified ->
  metadata_orderReference (PaystackWebhook.ed_payment notified)
    = Some (PaymentInitialize.b_orderReference body) ->
  simulatedPayment env (PaystackWebhook.ed_payment notified) = None ->
  let ref := PaymentInitialize.b_orderReference body in
  let placed := fst (PaymentInitialize.POST env initialize nowMs nowIso body orders) in
  let result :=
    PaystackWebhook.POST env hmac_sha512_hex JSON_parse paidNow request placed in
  snd (fst result) = PaystackWebhook.Received /\
  List.length (fst (fst result)) = S (List.length orders) /\
  exists order final,
    getOrderByReference ref placed = Some order /\
    paymentStatus order = pending /\
    getOrderByReference ref (fst (fst result)) = Some final /\
    paymentStatus final = paid /\
    paidAt final = Some paidNow /\
    paymentDetails final
      = Some (storedPayload ref (PaystackWebhook.ed_payment notified)) /\
    (amount final, items final, customerEmail final) = (asked, cart, email) /\
    placement final = placement order.
Proof.
  intros He Ha Ht Hc Hi Hne Hfresh Hs Hp Hev Hd Hm _ ref placed result.
  subst ref.
  set (order := fst (createOrder nowMs nowIso
                       (prepayOrderData env body email asked cart) orders)).
  assert (Hplaced : placed = orders ++ [order]).
  { unfold placed. rewrite (initialize_store env initialize nowMs nowIso body orders
                              He Ha Ht Hc Hi). reflexivity. }
  assert (G0 : getOrderByReference (PaymentInitialize.b_orderReference body) placed = Some order).
  { rewrite Hplaced. now apply get_fresh_append. }
  assert (Hres : snd (fst result) = PaystackWebhook.Received).
  { unfold result, PaystackWebhook.POST. rewrite Hs, Hp.
    now destruct (PaystackWebhook.processWebhook env paidNow data placed). }
  assert (Hstore : fst (fst result)
                   = afterCharge env paidNow (PaystackWebhook.ed_payment notified) placed).
  { unfold result. rewrite POST_store, Hs, Hp, processWebhook_store, Hev, Hd.
    reflexivity. }
  pose proof (resolve_by_metadata (PaystackWebhook.ed_payment notified) placed Hm Hne G0)
    as R.
  assert (E : getOrderByReference (PaymentInitialize.b_orderReference body) (fst (fst result))
              = Some (markPaid paidNow (PaymentInitialize.b_orderReference body) (PaystackWebhook.ed_payment notified) order)).
  { rewrite Hstore, afterCharge_spec, R. unfold updateOrderPaymentStatus.
    rewrite get_mutateFirst_same by apply applyPayment_keepsReference. now rewrite G0. }
  split; [exact Hres|]. split.
  - rewrite Hstore, afterCharge_spec, R. unfold updateOrderPaymentStatus.
    rewrite mutateFirst_length, Hplaced, length_app. cbn. lia.
  - exists order, (markPaid paidNow (PaymentInitialize.b_orderReference body) (PaystackWebhook.ed_payment notified) order).
    repeat split; try reflexivity; assumption.
Qed.

End PrepayMore.

(** ** The theorems of Part III at concrete inputs *)

Section MoreRuns.
Import Sample.
Import SampleRequests.
#[local] Existing Instance binary64.
Local Open Scope js_scope.

(** X1 on a store that holds GRUNDY_1, for a new order GRUNDY_2. *)
Lemma GRUNDY_2_is_found_once_created :
  getOrderByReference "GRUNDY_2" [placed (N := binary64) "GRUNDY_1"] = None /\
  (let created :=
     createOrder 1700000060000 "2023-11-14T22:14:20.000Z" (orderData "GRUNDY_2")
       [placed (N := binary64) "GRUNDY_1"] in
   getOrderByReference "GRUNDY_2" (snd created) = Some (fst created) /\
   paymentStatus (fst created) = pending).
Proof.
  assert (H : getOrderByReference "GRUNDY_2" [placed (N := binary64) "GRUNDY_1"] = None)
    by reflexivity.
  pose proof (@created_order_is_found binary64 1700000060000 "2023-11-14T22:14:20.000Z"
                (orderData "GRUNDY_2") [placed "GRUNDY_1"] H) as T.
  cbv zeta in T. destruct T as (A & B & _).
  exact (conj H (conj A B)).
Defined.

(** X3 on a payment update addressed to a reference the store lacks. *)
Lemma update_of_GRUNDY_404_is_ignored :
  let call : StoreCall (N := binary64) :=
    UpdateOrderPaymentStatus "2023-11-14T22:15:01.000Z" "GRUNDY_404" paid
      (Some notification) in
  addressee call = Some "GRUNDY_404" /\
  getOrderByReference "GRUNDY_404" (twoAlike (N := binary64)) = None /\
  perform twoAlike call = twoAlike.
Proof.
  cbv zeta.
  assert (H : getOrderByReference "GRUNDY_404" (twoAlike (N := binary64)) = None)
    by reflexivity.
  exact (conj eq_refl (conj H
           (@unknown_reference_is_ignored binary64
              (UpdateOrderPaymentStatus "2023-11-14T22:15:01.000Z" "GRUNDY_404" paid
                 (Some notification)) "GRUNDY_404" twoAlike eq_refl H))).
Defined.

(** X4 on the delivery of GRUNDY_1, seen from GRUNDY_2. *)
Lemma delivery_of_GRUNDY_1_leaves_GRUNDY_2 :
  let call : StoreCall (N := binary64) :=
    CompleteOrderDelivery "2023-11-15T09:00:00.000Z" "GRUNDY_1" in
  addressee call = Some "GRUNDY_1" /\
  "GRUNDY_2" <> "GRUNDY_1" /\
  getOrderByReference "GRUNDY_2" (perform twoAlike call)
  = getOrderByReference "GRUNDY_2" twoAlike.
Proof.
  cbv zeta.
  assert (H : "GRUNDY_2" <> "GRUNDY_1") by discriminate.
  exact (conj eq_refl (conj H
           (proj1 (@other_references_are_untouched binary64
                     (CompleteOrderDelivery "2023-11-15T09:00:00.000Z" "GRUNDY_1")
                     "GRUNDY_1" "GRUNDY_2" twoAlike eq_refl H)))).
Defined.

Lemma twoAlike_references :
  NoDup (map orderReference (twoAlike (N := binary64))).
Proof.
  repeat constructor.
  - intros [H|[]]. discriminate H.
  - intros [].
Defined.

(** X7 on the notification of GRUNDY_1, in a store of two orders. *)
Lemma notification_changes_GRUNDY_1_only :
  simulatedPayment noEnv (notification (N := binary64)) = None /\
  List.length (afterCharge noEnv "2023-11-14T22:15:01.000Z" notification
                 (twoAlike (N := binary64))) = 2%nat /\
  map paymentStatus (afterCharge noEnv "2023-11-14T22:15:01.000Z" notification
                       (twoAlike (N := binary64))) = [paid; pending].
Proof.
  pose proof (@charge_changes_one_order binary64 noEnv "2023-11-14T22:15:01.000Z"
                notification twoAlike eq_refl) as T.
  cbv zeta in T. destruct T as (L & _).
  exact (conj eq_refl (conj L eq_refl)).
Defined.

(** X9 on the notification of GRUNDY_1, delivered at 22:15:01 and again
    at 22:20:00. *)
Lemma redelivery_of_notification_is_absorbed :
  simulatedPayment noEnv (notification (N := binary64)) = None /\
  afterCharge noEnv "2023-11-14T22:20:00.000Z" notification
    (afterCharge noEnv "2023-11-14T22:15:01.000Z" notification (twoAlike (N := binary64)))
  = afterCharge noEnv "2023-11-14T22:20:00.000Z" notification twoAlike.
Proof.
  exact (conj eq_refl
           (proj2 (@redelivered_charge_is_absorbed binary64 noEnv
                     "2023-11-14T22:15:01.000Z" "2023-11-14T22:20:00.000Z"
                     notification twoAlike eq_refl))).
Defined.

(** The notifications that set off the test-mode simulation: a charge
    made on a terminal in test mode under an 'ORDER_' reference does,
    and the handler is left awaiting the posted update; a card charge
    under such a reference does not, also when NODE_ENV is
    'development'. *)
Example terminal_test_charge_is_simulated :
  simulatedPayment noEnv (terminalTestCharge (N := binary64))
    = Some "ORDER_1700000000000" /\
  snd (handleChargeSuccess noEnv "2023-11-14T22:15:01.000Z" terminalTestCharge
         (twoAlike (N := binary64)))
    = Return (Applied "GRUNDY_1" (Some "ORDER_1700000000000")) /\
  simulatedPayment (fun name => if String.eqb name "NODE_ENV" then Some "development" else None)
    (charge (N := binary64) (Some "GRUNDY_1") (Some "ORDER_1700000000000")) = None.
Proof. repeat split. Qed.

(** X8 on the notification of GRUNDY_1, in a store of two orders. *)
Lemma GRUNDY_1_is_marked_paid :
  NoDup (map orderReference (twoAlike (N := binary64))) /\
  resolveOrder notification (twoAlike (N := binary64))
    = Some ("GRUNDY_1", placed "GRUNDY_1") /\
  option_map paymentStatus
    (getOrderByReference "GRUNDY_1"
       (afterCharge noEnv "2023-11-14T22:15:01.000Z" notification twoAlike))
  = Some paid.
Proof.
  assert (R : resolveOrder notification (twoAlike (N := binary64))
              = Some ("GRUNDY_1", placed "GRUNDY_1")) by reflexivity.
  pose proof (@resolved_order_is_marked_paid binary64 noEnv "2023-11-14T22:15:01.000Z"
                notification twoAlike "GRUNDY_1" (placed "GRUNDY_1")
                eq_refl twoAlike_references R) as T.
  cbv zeta in T. destruct T as (_ & P & _).
  exact (conj twoAlike_references (conj R P)).
Defined.

(** X10: after the notification of GRUNDY_1 with gateway reference
    PSK_A, a notification that carries only PSK_A resolves to GRUNDY_1. *)
Lemma PSK_A_finds_GRUNDY_1 :
  resolveOrder notification (twoAlike (N := binary64))
    = Some ("GRUNDY_1", placed "GRUNDY_1") /\
  (forall o, In o (twoAlike (N := binary64)) -> paymentReference o <> Some "PSK_A") /\
  option_map fst
    (resolveOrder (charge None (Some "PSK_A"))
       (afterCharge noEnv "2023-11-14T22:15:01.000Z" notification twoAlike))
  = Some "GRUNDY_1".
Proof.
  assert (R : resolveOrder notification (twoAlike (N := binary64))
              = Some ("GRUNDY_1", placed "GRUNDY_1")) by reflexivity.
  assert (F : forall o, In o (twoAlike (N := binary64)) ->
                        paymentReference o <> Some "PSK_A").
  { intros o [<-|[<-|[]]]; discriminate. }
  assert (E : "PSK_A" <> "") by discriminate.
  exact (conj R (conj F
           (proj1 (@gateway_reference_finds_paid_order binary64 noEnv
                     "2023-11-14T22:15:01.000Z" notification
                     (charge None (Some "PSK_A")) twoAlike "GRUNDY_1"
                     (placed "GRUNDY_1") "PSK_A" eq_refl R eq_refl E F eq_refl eq_refl)))).
Defined.

(** X13 and X19 on the two-vendor cart. *)
Lemma two_vendor_cart_is_split :
  calculateOrderSplit (N := binary64) noEnv twoVendorCart
  = Return (splitOf noEnv twoVendorCart).
Proof. rewrite calculateOrderSplit_spec. reflexivity. Defined.

Lemma two_vendor_cart_is_configured :
  calculateOrderSplit (N := binary64) noEnv twoVendorCart
    = Return (splitOf noEnv twoVendorCart) /\
  generateSubaccountsForSplit noEnv (splitOf noEnv twoVendorCart)
  = Return (map (subaccountOf noEnv) (vendorPayouts (splitOf noEnv twoVendorCart))
            ++ [platformSubaccount noEnv (splitOf (N := binary64) noEnv twoVendorCart)]).
Proof.
  exact (conj two_vendor_cart_is_split
           (proj1 (@configuration_follows_payout_count binary64 noEnv twoVendorCart
                     (splitOf noEnv twoVendorCart) two_vendor_cart_is_split))).
Defined.

(** X19 on the payouts of the two-vendor cart, with a gateway that
    makes every transfer. *)
Lemma two_vendor_transfers_repeat_the_shares :
  calculateOrderSplit (N := binary64) noEnv twoVendorCart
    = Return (splitOf noEnv twoVendorCart) /\
  map pr_vendorId
    (snd (processVendorPayouts noEnv paying
            (vendorPayouts (splitOf (N := binary64) noEnv twoVendorCart)) "GRUNDY_1"))
  = map vendorId (vendorPayouts (splitOf (N := binary64) noEnv twoVendorCart)).
Proof.
  pose proof (@transfers_repeat_the_split_shares binary64 noEnv paying twoVendorCart
                (splitOf noEnv twoVendorCart) "GRUNDY_1" two_vendor_cart_is_split) as T.
  cbv zeta in T. destruct T as (subaccounts & _ & _ & V & _).
  exact (conj two_vendor_cart_is_split V).
Defined.

(** X14 on the checkout of the two-vendor cart, in an empty store. *)
Lemma checkout_order_is_stored :
  present (PaymentInitialize.email (checkout (N := binary64))) = Some "ada@example.com" /\
  PaymentInitialize.b_amount (checkout (N := binary64)) = Some (of_Z 4800) /\
  truthyNumber (of_Z (JSNumber := binary64) 4800) = true /\
  PaymentInitialize.cartItems (checkout (N := binary64)) = Some twoVendorCart /\
  existsb inheritedVendor (twoVendorCart (N := binary64)) = false /\
  exists order,
    fst (PaymentInitialize.POST noEnv accepting 1700000000000 "2023-11-14T22:13:20.000Z"
           checkout []) = [order] /\
    paymentStatus order = pending.
Proof.
  assert (T : truthyNumber (of_Z (JSNumber := binary64) 4800) = true) by reflexivity.
  assert (V : existsb inheritedVendor (twoVendorCart (N := binary64)) = false)
    by reflexivity.
  pose proof (@initialize_stores_order_first binary64 noEnv accepting 1700000000000
                "2023-11-14T22:13:20.000Z" checkout [] "ada@example.com" (of_Z 4800)
                twoVendorCart eq_refl eq_refl T eq_refl V) as S.
  cbv zeta in S. destruct S as (order & A & _ & B & _).
  exact (conj eq_refl (conj eq_refl (conj T (conj eq_refl (conj V
           (ex_intro _ order (conj A B))))))).
Defined.

(** X23 on a terminal delivery of the two-vendor cart, dispatched to
    John Rider. *)
Lemma ORDER_1700000000000_is_delivered_and_paid :
  getOrderByReference "ORDER_1700000000000" (twoAlike (N := binary64)) = None /\
  truthyNumber (of_Z (JSNumber := binary64) 4800) = true /\
  existsb inheritedVendor (twoVendorCart (N := binary64)) = false /\
  In john RiderDispatch.riders /\
  exists order split,
    snd (TerminalDeliveryOrder.POST noEnv 1700000000000 1700000000005
           "2023-11-14T22:13:20.005Z" terminalBody twoAlike)
    = TerminalDeliveryOrder.Created order split.
Proof.
  assert (F : getOrderByReference "ORDER_1700000000000" (twoAlike (N := binary64)) = None)
    by reflexivity.
  assert (T : truthyNumber (of_Z (JSNumber := binary64) 4800) = true) by reflexivity.
  assert (V : existsb inheritedVendor (twoVendorCart (N := binary64)) = false)
    by reflexivity.
  assert (J : In john RiderDispatch.riders) by (left; reflexivity).
  pose proof (@terminal_delivery_flow binary64 noEnv 1700000000000 1700000000005
                "2023-11-14T22:13:20.005Z" terminalBody twoAlike "ORDER_1700000000000"
                "ada@example.com" (of_Z 4800) twoVendorCart john 1700000600000
                "2023-11-14T22:23:22.000Z" "2023-11-14T22:23:22.050Z"
                eq_refl F eq_refl eq_refl T eq_refl V J) as S.
  cbv zeta in S. destruct S as (order & _ & _ & _ & _ & C & _).
  exact (conj F (conj T (conj V (conj J (ex_intro _ order (ex_intro _ _ C)))))).
Defined.

(** X26 on a visit to the shop: apples, carrots, apples again, then
    three carrots. *)
Lemma shop_visit_is_split :
  let actions : list (CartAction (N := binary64)) :=
    [ ADD_ITEM freshApples; ADD_ITEM carrots; ADD_ITEM freshApples;
      UPDATE_QUANTITY "2" (of_Z 3) ] in
  Forall fromCatalogue actions /\
  allRegistered noEnv (cs_items (dispatchAll actions emptyCart)) = true.
Proof.
  cbv zeta.
  assert (A : Forall fromCatalogue
                [ ADD_ITEM (N := binary64) freshApples; ADD_ITEM carrots;
                  ADD_ITEM freshApples; UPDATE_QUANTITY "2" (of_Z 3) ]).
  { constructor; [left; reflexivity|].
    constructor; [right; left; reflexivity|].
    constructor; [left; reflexivity|].
    constructor; [exact I|constructor]. }
  pose proof (@shop_cart_is_split_among_its_vendors binary64 noEnv _ A) as S.
  cbv zeta in S. destruct S as (_ & R & _).
  exact (conj A R).
Defined.

(** X27 on the notification of GRUNDY_1. *)
Lemma notification_of_GRUNDY_1_is_applied :
  metadata_orderReference (notification (N := binary64)) = Some "GRUNDY_1" /\
  getOrderByReference "GRUNDY_1" (twoAlike (N := binary64)) = Some (placed "GRUNDY_1") /\
  option_map paymentStatus
    (getOrderByReference "GRUNDY_1"
       (afterCharge noEnv "2023-11-14T22:15:01.000Z" notification twoAlike))
  = Some paid.
Proof.
  assert (E : "GRUNDY_1" <> "") by discriminate.
  assert (G : getOrderByReference "GRUNDY_1" (twoAlike (N := binary64))
              = Some (placed "GRUNDY_1")) by reflexivity.
  pose proof (@named_order_is_marked_paid binary64 noEnv "2023-11-14T22:15:01.000Z"
                notification twoAlike "GRUNDY_1" (placed "GRUNDY_1") eq_refl eq_refl E G)
    as T.
  cbv zeta in T. destruct T as (_ & _ & P & _).
  exact (conj eq_refl (conj G P)).
Defined.

(** X28 on the checkout of the two-vendor cart, followed by an unsigned
    notification of its charge. *)
Lemma ORDER_1700000000000_is_prepaid :
  getOrderByReference "ORDER_1700000000000" (twoAlike (N := binary64)) = None /\
  PaystackWebhook.signatureRefused noEnv unkeyed unsigned = false /\
  snd (fst (PaystackWebhook.POST noEnv unkeyed parsed "2023-11-14T22:15:01.000Z" unsigned
              (fst (PaymentInitialize.POST noEnv accepting 1700000000000
                      "2023-11-14T22:13:20.000Z" checkout (twoAlike (N := binary64))))))
  = PaystackWebhook.Received.
Proof.
  assert (F : getOrderByReference "ORDER_1700000000000" (twoAlike (N := binary64)) = None)
    by reflexivity.
  assert (T : truthyNumber (of_Z (JSNumber := binary64) 4800) = true) by reflexivity.
  assert (V : existsb inheritedVendor (twoVendorCart (N := binary64)) = false)
    by reflexivity.
  assert (E : PaymentInitialize.b_orderReference (checkout (N := binary64)) <> "")
    by discriminate.
  pose proof (@prepay_flow binary64 noEnv accepting unkeyed parsed 1700000000000
                "2023-11-14T22:13:20.000Z" checkout twoAlike "ada@example.com"
                (of_Z 4800) twoVendorCart unsigned chargeEvent _
                "2023-11-14T22:15:01.000Z"
                eq_refl eq_refl T eq_refl V E F eq_refl eq_refl eq_refl eq_refl eq_refl
                eq_refl)
    as S.
  cbv zeta in S. destruct S as (R & _).
  exact (conj F (conj eq_refl R)).
Defined.

End MoreRuns.

